(** * Payment relay server: correlation and reconciliation

    A shallow embedding of the route handlers of the M-Pesa STK-push relay
    (src/app.js and the sibling revisions of the same server) together with
    the properties the design specification states about them.

    The server exists in several revisions.  Each revision that a property
    talks about is embedded in a module of its own:

    - [Relay]   the dual-gateway server that holds the caller's connection
                open until the webhook or the timer answers it
                (src/unnamed/part_005, second document);
    - [Poll]    the SwiftWallet polling server (src/app.js, third document);
    - [PayHero] the first PayHero polling server (src/app.js, first document);
    - [Legacy]  the oldest PayHero server (src/app.js, second document).

    JavaScript values are embedded as a JSON tree; [None] stands for
    [undefined].  Handlers are written in a state-and-exception monad over
    the world they act on: the in-memory [transactionStatuses] map, the
    response sinks, the database tables and the timers. *)

From Stdlib Require Import ZArith List String Ascii Lia Bool.
From stdpp Require Import base option list strings gmap.

Local Open Scope string_scope.
Local Open Scope Z_scope.

(** ** JavaScript values *)

Module JS.

#[local] Unset Elimination Schemes.
Inductive json : Type :=
| JNull
| JBool (b : bool)
| JNum (n : Z)
| JStr (s : string)
| JArr (xs : list json)
| JObj (fields : list (string * json)).
#[local] Set Elimination Schemes.

(** A JavaScript value: [None] is [undefined]. *)
Definition value : Type := option json.

Definition undefined : value := None.

(** Errors as the handlers observe them: [err_message] is [error.message],
    [err_response] is axios' [error.response] (status and data) when the
    provider answered with an HTTP error. *)
Record js_error : Type := {
  err_name : string;
  err_message : string;
  err_response : option (Z * json)
}.

Definition TypeError (msg : string) : js_error :=
  {| err_name := "TypeError"; err_message := msg; err_response := None |}.

(** How a piece of code finishes: normally with a result, by a thrown
    error, or by a [return] statement that leaves the enclosing handler. *)
Inductive outcome (A : Type) : Type :=
| Done (a : A)
| Raised (e : js_error)
| Returned.
Arguments Done {A} a.
Arguments Raised {A} e.
Arguments Returned {A}.

(** Sequencing of code that may throw. *)
Definition and_then {A B} (o : outcome A) (k : A -> outcome B) : outcome B :=
  match o with
  | Done a => k a
  | Raised e => Raised e
  | Returned => Returned
  end.

(** ToBoolean. *)
Definition truthy (v : value) : bool :=
  match v with
  | None => false
  | Some JNull => false
  | Some (JBool b) => b
  | Some (JNum n) => negb (n =? 0)
  | Some (JStr s) => negb (String.eqb s "")
  | Some (JArr _) => true
  | Some (JObj _) => true
  end.

Definition nullish (v : value) : bool :=
  match v with
  | None | Some JNull => true
  | _ => false
  end.

(** [a || b]. *)
Definition or_else (a b : value) : value := if truthy a then a else b.
Infix "|||" := or_else (at level 50, left associativity).

(** Own property of a parsed object; [JSON.parse] keeps the last of
    duplicate keys. *)
Fixpoint field (f : string) (fs : list (string * json)) : value :=
  match fs with
  | [] => None
  | (k, v) :: rest =>
      match field f rest with
      | Some v' => Some v'
      | None => if String.eqb k f then Some v else None
      end
  end.

(** Property read on a value that is neither [null] nor [undefined].  None
    of the property names the handlers read exists on the String, Number,
    Boolean or Array prototypes, so only objects answer. *)
Definition prop (j : json) (f : string) : value :=
  match j with
  | JObj fs => field f fs
  | _ => None
  end.

(** [v?.f] *)
Definition opt (v : value) (f : string) : value :=
  match v with
  | None | Some JNull => None
  | Some j => prop j f
  end.
Notation "v ?> f" := (opt v f) (at level 39, left associativity).

(** [v.f]: throws on [null] and [undefined]. *)
Definition dot (v : value) (f : string) : outcome value :=
  match v with
  | None | Some JNull => Raised (TypeError ("Cannot read properties of undefined (reading '" ++ f ++ "')"))
  | Some j => Done (prop j f)
  end.

(** [v === true] *)
Definition is_true (v : value) : bool :=
  match v with
  | Some (JBool true) => true
  | _ => false
  end.

(** [typeof v === 'string'] *)
Definition is_a_string (v : value) : bool :=
  match v with
  | Some (JStr _) => true
  | _ => false
  end.

(** [v === 'literal'] *)
Definition is_string (v : value) (lit : string) : bool :=
  match v with
  | Some (JStr s) => String.eqb s lit
  | _ => false
  end.

(** *** Strings *)

Definition is_upper (c : ascii) : bool :=
  let n := nat_of_ascii c in ((65 <=? n) && (n <=? 90))%nat.
Definition is_lower (c : ascii) : bool :=
  let n := nat_of_ascii c in ((97 <=? n) && (n <=? 122))%nat.
Definition is_digit (c : ascii) : bool :=
  let n := nat_of_ascii c in ((48 <=? n) && (n <=? 57))%nat.

(** The character class [a-zA-Z0-9]. *)
Definition is_alnum (c : ascii) : bool := is_lower c || is_upper c || is_digit c.

Definition lower_char (c : ascii) : ascii :=
  if is_upper c then ascii_of_nat (nat_of_ascii c + 32) else c.
Definition upper_char (c : ascii) : ascii :=
  if is_lower c then ascii_of_nat (nat_of_ascii c - 32) else c.

Fixpoint map_string (f : ascii -> ascii) (s : string) : string :=
  match s with
  | EmptyString => EmptyString
  | String c r => String (f c) (map_string f r)
  end.

(** [String.prototype.toLowerCase] and [toUpperCase].  Strings are byte
    strings; only the ASCII letters change case, bytes of other characters
    are kept. *)
Definition toLowerCase (s : string) : string := map_string lower_char s.
Definition toUpperCase (s : string) : string := map_string upper_char s.

Fixpoint filter_string (keep : ascii -> bool) (s : string) : string :=
  match s with
  | EmptyString => EmptyString
  | String c r => if keep c then String c (filter_string keep r) else filter_string keep r
  end.

(** [s.substring(0, n)] and [s.slice(0, n)] for [n >= 0]. *)
Fixpoint take_chars (n : nat) (s : string) : string :=
  match n, s with
  | O, _ => EmptyString
  | _, EmptyString => EmptyString
  | S n', String c r => String c (take_chars n' r)
  end.

Fixpoint drop_chars (n : nat) (s : string) : string :=
  match n, s with
  | O, _ => s
  | _, EmptyString => EmptyString
  | S n', String _ r => drop_chars n' r
  end.

(** [s.slice(-n)]: the last [n] characters, the whole string when it is
    shorter. *)
Definition slice_last (n : nat) (s : string) : string :=
  drop_chars (String.length s - n) s.

(** [s.startsWith(p)] *)
Definition startsWith (p s : string) : bool := String.prefix p s.

(** *** Numbers to decimal text *)

Definition digit (d : Z) : ascii := ascii_of_nat (48 + Z.to_nat d).

Fixpoint digits_fuel (fuel : nat) (n : Z) : string :=
  match fuel with
  | O => EmptyString
  | S fuel' =>
      if n <? 10 then String (digit n) EmptyString
      else digits_fuel fuel' (n / 10) ++ String (digit (n mod 10)) EmptyString
  end.

(** Decimal digits of a non-negative integer.  Each division by ten lowers
    the binary logarithm, so [log2 n + 1] rounds are enough. *)
Definition digits (n : Z) : string := digits_fuel (S (Z.to_nat (Z.log2 n))) n.

(** [Number.prototype.toString()] on an integer. *)
Definition Number_toString (n : Z) : string :=
  if n <? 0 then String "-"%char (digits (- n)) else digits n.

(** Methods called on a value of unknown type throw unless it is a string. *)
Definition call_toUpperCase (v : value) : outcome string :=
  match v with
  | Some (JStr s) => Done (toUpperCase s)
  | None | Some JNull => Raised (TypeError "Cannot read properties of undefined (reading 'toUpperCase')")
  | _ => Raised (TypeError "toUpperCase is not a function")
  end.

Definition call_toLowerCase (v : value) : outcome string :=
  match v with
  | Some (JStr s) => Done (toLowerCase s)
  | None | Some JNull => Raised (TypeError "Cannot read properties of undefined (reading 'toLowerCase')")
  | _ => Raised (TypeError "toLowerCase is not a function")
  end.

(** [v ? v.toUpperCase() : null] *)
Definition upper_or_null (v : value) : outcome json :=
  if truthy v then and_then (call_toUpperCase v) (fun s => Done (JStr s)) else Done JNull.

(** [s && s.toLowerCase() === lit] as a condition. *)
Definition lower_is (s : json) (lit : string) : outcome bool :=
  if truthy (Some s)
  then and_then (call_toLowerCase (Some s)) (fun l => Done (String.eqb l lit))
  else Done false.

(** [v?.toLowerCase()] *)
Definition opt_toLowerCase (v : value) : outcome value :=
  if nullish v then Done None
  else match call_toLowerCase v with
       | Done s => Done (Some (JStr s))
       | Raised e => Raised e
       | Returned => Returned
       end.

(** The receiver of a String method call [v.method(...)]: the call throws a
    TypeError unless [v] is a string. *)
Definition receiver (v : value) (method : string) : outcome string :=
  match v with
  | Some (JStr s) => Done s
  | None | Some JNull =>
      Raised (TypeError ("Cannot read properties of undefined (reading '" ++ method ++ "')"))
  | _ => Raised (TypeError (method ++ " is not a function"))
  end.

Definition is_TypeError {A} (o : outcome A) : bool :=
  match o with
  | Raised e => String.eqb (err_name e) "TypeError"
  | _ => false
  end.

(** Object literals: a property whose value is [undefined] is left out, a
    read of it gives [undefined] either way. *)
Fixpoint defined_fields (fs : list (string * value)) : list (string * json) :=
  match fs with
  | [] => []
  | (k, Some v) :: rest => (k, v) :: defined_fields rest
  | (_, None) :: rest => defined_fields rest
  end.

Definition object (fs : list (string * value)) : json := JObj (defined_fields fs).
Arguments object : simpl never.

(** What a read of property [f] of the literal gives. *)
Fixpoint literal_field (f : string) (fs : list (string * value)) : value :=
  match fs with
  | [] => None
  | (k, v) :: rest =>
      match literal_field f rest with
      | Some v' => Some v'
      | None => if String.eqb k f then v else None
      end
  end.

Fixpoint remove_key (k : string) (fs : list (string * json)) : list (string * json) :=
  match fs with
  | [] => []
  | (k', v) :: rest => if String.eqb k' k then remove_key k rest else (k', v) :: remove_key k rest
  end.

(** [{...o, k: v}] and the column assignment of an update. *)
Definition assign (k : string) (v : value) (o : json) : json :=
  match o with
  | JObj fs =>
      JObj (remove_key k fs ++ match v with Some j => [(k, j)] | None => [] end)
  | _ => object [(k, v)]
  end.

Fixpoint assign_all (changes : list (string * value)) (o : json) : json :=
  match changes with
  | [] => o
  | (k, v) :: rest => assign_all rest (assign k v o)
  end.

(** Equality of column values and of Map keys: strings, numbers and
    booleans by value; parsed arrays and objects are never the same
    object. *)
Definition scalar_eqb (a b : json) : bool :=
  match a, b with
  | JStr x, JStr y => String.eqb x y
  | JNum x, JNum y => x =? y
  | JBool x, JBool y => Bool.eqb x y
  | _, _ => false
  end.

(** Keys of a [Map] that can be found again: strings, numbers and
    booleans.  A parsed array or object used as a key is reachable only
    through that same object, which no later request holds. *)
Inductive map_key : Type :=
| KStr (s : string)
| KNum (n : Z)
| KBool (b : bool).

Definition to_key (v : value) : option map_key :=
  match v with
  | Some (JStr s) => Some (KStr s)
  | Some (JNum n) => Some (KNum n)
  | Some (JBool b) => Some (KBool b)
  | _ => None
  end.

#[global] Instance map_key_eq_dec : EqDecision map_key.
Proof. solve_decision. Defined.

#[global] Instance map_key_countable : Countable map_key.
Proof.
  refine (inj_countable'
            (fun k => match k with
                      | KStr s => inl s
                      | KNum n => inr (inl n)
                      | KBool b => inr (inr b)
                      end)
            (fun x => match x with
                      | inl s => KStr s
                      | inr (inl n) => KNum n
                      | inr (inr b) => KBool b
                      end) _).
  intros [s|n|b]; reflexivity.
Defined.

End JS.

Export JS.

(** ** The reference generator *)

Module Gen.

(** [Date.now().toString().slice(-4)] *)
Definition timestamp (now : Z) : string := slice_last 4 (Number_toString now).

(** [reference.replace(/[^a-zA-Z0-9]/g, '').substring(0, 4) + timestamp] *)
Definition uniqueRef (reference : string) (now : Z) : string :=
  take_chars 4 (filter_string is_alnum reference) ++ timestamp now.

(** The four decimal digits of a number below ten thousand, zeros kept. *)
Definition four_digits (m : Z) : string :=
  String (digit (m / 1000))
    (String (digit (m / 100 mod 10))
       (String (digit (m / 10 mod 10))
          (String (digit (m mod 10)) EmptyString))).

(** The number a string of decimal digits denotes. *)
Fixpoint decimal_value_from (acc : Z) (s : string) : Z :=
  match s with
  | EmptyString => acc
  | String c r => decimal_value_from (acc * 10 + (Z.of_nat (nat_of_ascii c) - 48)) r
  end.

Definition decimal_value (s : string) : Z := decimal_value_from 0 s.

End Gen.

(** ** Builtins left abstract

    The handlers call a few builtins whose results only travel through:
    the ISO rendering of the clock, the [Number] conversion of the request
    amount, the [+] of the wallet update and of the customer name, and the
    configuration in [process.env]. *)

Class Runtime : Type := {
  toISOString : Z -> string;
  Number : value -> json;
  plus : value -> value -> json;
  env : string -> value
}.

(** ** Worlds and the handler monad *)

Module Exec.

(** What was written to a response sink. *)
Record Response : Type := { code : Z; body : json }.

(** The environment's answer to a database call. *)
Inductive db_fault : Type :=
| DbOk
| DbError (e : json)
| DbThrow (e : js_error).

(** The tables the handlers touch.  A [payment_callbacks] row carries the
    [created_at] the store stamps on it. *)
Record Db : Type := {
  payment_callbacks : list (Z * json);
  transactions : list json;
  activation_payments : list json;
  users : list json;
  rpc_calls : list (string * json)
}.

(** The world of one server process: its in-memory state [memory], the
    responses written so far ([sent], oldest first, by response handle), the
    store, the scripted answers of the store to the coming calls (an empty
    script is a healthy store), the calls made to the provider, the
    back-off sleeps, the wall clock in milliseconds and the handle the next
    inbound request gets. *)
Record world (R : Type) : Type := {
  memory : R;
  sent : list (nat * Response);
  db : Db;
  db_script : list db_fault;
  api_calls : list json;
  sleeps : list Z;
  clock : Z;
  next_handle : nat
}.
Arguments memory {R} w.
Arguments sent {R} w.
Arguments db {R} w.
Arguments db_script {R} w.
Arguments api_calls {R} w.
Arguments sleeps {R} w.
Arguments clock {R} w.
Arguments next_handle {R} w.

Section Monad.
Context {R : Type}.

Definition M (A : Type) : Type := world R -> outcome A * world R.

Definition ret {A} (a : A) : M A := fun w => (Done a, w).

Definition bind {A B} (m : M A) (k : A -> M B) : M B :=
  fun w =>
    match m w with
    | (Done a, w') => k a w'
    | (Raised e, w') => (Raised e, w')
    | (Returned, w') => (Returned, w')
    end.

(** [throw e] *)
Definition throw {A} (e : js_error) : M A := fun w => (Raised e, w).

(** [return;] inside a handler *)
Definition leave {A} : M A := fun w => (Returned, w).

(** [try { body } catch (e) { handler e }]: a [return] inside [body] is not
    caught. *)
Definition try_catch {A} (body : M A) (handler : js_error -> M A) : M A :=
  fun w =>
    match body w with
    | (Raised e, w') => handler e w'
    | r => r
    end.

Definition lift {A} (o : outcome A) : M A := fun w => (o, w).

Definition get_world : M (world R) := fun w => (Done w, w).

(** Field updates of the world. *)
Definition with_memory (r : R) (w : world R) : world R :=
  {| memory := r; sent := sent w; db := db w; db_script := db_script w;
     api_calls := api_calls w; sleeps := sleeps w; clock := clock w;
     next_handle := next_handle w |}.

Definition with_sent (s : list (nat * Response)) (w : world R) : world R :=
  {| memory := memory w; sent := s; db := db w; db_script := db_script w;
     api_calls := api_calls w; sleeps := sleeps w; clock := clock w;
     next_handle := next_handle w |}.

Definition with_db (d : Db) (w : world R) : world R :=
  {| memory := memory w; sent := sent w; db := d; db_script := db_script w;
     api_calls := api_calls w; sleeps := sleeps w; clock := clock w;
     next_handle := next_handle w |}.

Definition with_db_script (s : list db_fault) (w : world R) : world R :=
  {| memory := memory w; sent := sent w; db := db w; db_script := s;
     api_calls := api_calls w; sleeps := sleeps w; clock := clock w;
     next_handle := next_handle w |}.

Definition with_api_calls (c : list json) (w : world R) : world R :=
  {| memory := memory w; sent := sent w; db := db w; db_script := db_script w;
     api_calls := c; sleeps := sleeps w; clock := clock w;
     next_handle := next_handle w |}.

Definition with_sleeps (s : list Z) (w : world R) : world R :=
  {| memory := memory w; sent := sent w; db := db w; db_script := db_script w;
     api_calls := api_calls w; sleeps := s; clock := clock w;
     next_handle := next_handle w |}.


Definition with_next_handle (n : nat) (w : world R) : world R :=
  {| memory := memory w; sent := sent w; db := db w; db_script := db_script w;
     api_calls := api_calls w; sleeps := sleeps w; clock := clock w;
     next_handle := n |}.

Definition set_memory (r : R) : M unit := fun w => (Done tt, with_memory r w).

Definition set_db (d : Db) : M unit := fun w => (Done tt, with_db d w).

Definition answered (w : world R) (h : nat) : bool :=
  existsb (fun p => Nat.eqb (fst p) h) (sent w).

Definition headers_sent : js_error :=
  {| err_name := "Error";
     err_message := "Cannot set headers after they are sent to the client";
     err_response := None |}.

(** [res.status(c).json(b)], [res.json(b)] with [c = 200] and
    [res.sendStatus(c)]: the first write answers the request, a later one
    throws. *)
Definition respond (h : nat) (c : Z) (b : json) : M unit :=
  fun w =>
    if answered w h then (Raised headers_sent, w)
    else (Done tt, with_sent (sent w ++ [(h, {| code := c; body := b |})]) w).

Definition sendStatus (h : nat) (c : Z) : M unit :=
  respond h c (JStr (if c =? 200 then "OK" else Number_toString c)).

(** The store's answer to the next call. *)
Definition next_fault : M db_fault :=
  fun w =>
    match db_script w with
    | [] => (Done DbOk, w)
    | f :: rest => (Done f, with_db_script rest w)
    end.

(** The request gets its response handle. *)
Definition accept : M nat :=
  fun w => (Done (next_handle w), with_next_handle (S (next_handle w)) w).

(** A route handler [(req, res) => ...] is run on the handle of the
    request that arrived. *)
Definition serve {A} (handler : nat -> M A) : M A :=
  bind accept handler.

(** [await axios.post(url, payload, ...)]: the call is logged. *)
Definition log_api_call (payload : json) : M unit :=
  fun w => (Done tt, with_api_calls (api_calls w ++ [payload]) w).

(** [await new Promise(resolve => setTimeout(resolve, ms))] *)
Definition sleep (ms : Z) : M unit :=
  fun w => (Done tt, with_sleeps (sleeps w ++ [ms]) w).


End Monad.

Arguments M R A : clear implicits.

Declare Scope js_scope.
Delimit Scope js_scope with js.
Notation "x <- c ;; k" := (bind c (fun x => k))
  (at level 100, c at next level, right associativity) : js_scope.
Notation "c ;;; k" := (bind c (fun _ => k))
  (at level 100, right associativity) : js_scope.

End Exec.
Export Exec.

(** ** The store *)

Module Store.
Section Store.
Context {R : Type} `{Runtime}.

(** [.eq(col, v)] *)
Definition column_is (col : string) (v : value) (row : json) : bool :=
  match prop row col, v with
  | Some a, Some b => scalar_eqb a b
  | _, _ => false
  end.

Definition add_callback (t : Z) (row : json) (d : Db) : Db :=
  {| payment_callbacks := payment_callbacks d ++ [(t, row)];
     transactions := transactions d;
     activation_payments := activation_payments d;
     users := users d;
     rpc_calls := rpc_calls d |}.

Definition add_transaction (row : json) (d : Db) : Db :=
  {| payment_callbacks := payment_callbacks d;
     transactions := transactions d ++ [row];
     activation_payments := activation_payments d;
     users := users d;
     rpc_calls := rpc_calls d |}.

Definition set_activation_payments (rows : list json) (d : Db) : Db :=
  {| payment_callbacks := payment_callbacks d;
     transactions := transactions d;
     activation_payments := rows;
     users := users d;
     rpc_calls := rpc_calls d |}.

Definition set_users (rows : list json) (d : Db) : Db :=
  {| payment_callbacks := payment_callbacks d;
     transactions := transactions d;
     activation_payments := activation_payments d;
     users := rows;
     rpc_calls := rpc_calls d |}.

Definition add_rpc (name : string) (args : json) (d : Db) : Db :=
  {| payment_callbacks := payment_callbacks d;
     transactions := transactions d;
     activation_payments := activation_payments d;
     users := users d;
     rpc_calls := rpc_calls d ++ [(name, args)] |}.

(** One awaited call on the store: the store performs [effect] and answers
    [{ data, error: null }], or answers [{ data: null, error }], or the
    call throws. *)
Definition call {A} (effect : Db -> Db) (data : Db -> A) (nothing : A) : M R (A * value) :=
  (f <- next_fault;;
   match f with
   | DbOk => w <- get_world;; set_db (effect (db w));;; ret (data (db w), None)
   | DbError e => ret (nothing, Some e)
   | DbThrow e => throw e
   end)%js.

(** [from('payment_callbacks').insert([row])], the row stamped with the
    clock. *)
Definition insert_callback (row : json) : M R value :=
  (w <- get_world;;
   r <- call (add_callback (clock w) row) (fun _ => tt) tt;;
   ret (snd r))%js.

(** [from('transactions').insert([row])] *)
Definition insert_transaction (row : json) : M R value :=
  (r <- call (add_transaction row) (fun _ => tt) tt;; ret (snd r))%js.

Definition update_rows (col : string) (v : value) (changes : list (string * value))
    (rows : list json) : list json :=
  map (fun r => if column_is col v r then assign_all changes r else r) rows.

Definition project (cols : list string) (row : json) : json :=
  object (map (fun c => (c, prop row c)) cols).

(** [.single()]: the row when exactly one matches. *)
Definition single (rows : list json) : value :=
  match rows with
  | [r] => Some r
  | _ => None
  end.

(** [from('activation_payments').update(changes).eq(col, v).select(cols).single()] *)
Definition update_activation_payment (changes : list (string * value)) (col : string)
    (v : value) (cols : list string) : M R (value * value) :=
  call (fun d => set_activation_payments (update_rows col v changes (activation_payments d)) d)
       (fun d => single (map (project cols)
                           (filter (fun r => column_is col v r)
                                   (update_rows col v changes (activation_payments d)))))
       None.

(** [from('users').update(changes).eq(col, v)], with [.select(cols).single()] *)
Definition update_user (changes : list (string * value)) (col : string) (v : value)
    (cols : list string) : M R (value * value) :=
  call (fun d => set_users (update_rows col v changes (users d)) d)
       (fun d => single (map (project cols)
                           (filter (fun r => column_is col v r)
                                   (update_rows col v changes (users d)))))
       None.

(** [from('users').select(cols).eq(col, v).single()] *)
Definition select_user (col : string) (v : value) (cols : list string) : M R (value * value) :=
  call (fun d => d)
       (fun d => single (map (project cols) (filter (fun r => column_is col v r) (users d))))
       None.

(** [rpc(name, args)] *)
Definition rpc (name : string) (args : json) : M R value :=
  (r <- call (add_rpc name args) (fun _ => tt) tt;; ret (snd r))%js.

(** The row [.order('created_at', { ascending: false }).limit(1)] keeps: the
    greatest [created_at], the later insertion among equals. *)
Fixpoint latest_from (best : option (Z * json)) (rows : list (Z * json)) : option (Z * json) :=
  match rows with
  | [] => best
  | (t, r) :: rest =>
      latest_from
        (match best with
         | Some (tb, _) => if tb <=? t then Some (t, r) else best
         | None => Some (t, r)
         end) rest
  end.

Definition latest_callback (externalRef : string) (d : Db) : option (Z * json) :=
  latest_from None
    (filter (fun p => column_is "external_reference" (Some (JStr externalRef)) (snd p))
            (payment_callbacks d)).

(** The row as the handler reads it. *)
Definition callback_row (p : Z * json) : json :=
  assign "created_at" (Some (JStr (toISOString (fst p)))) (snd p).

(** [from('payment_callbacks').select(...).eq('external_reference', ref)
      .order('created_at', { ascending: false }).limit(1)] *)
Definition select_latest_callback (externalRef : string) : M R (option (list json) * value) :=
  call (fun d => d)
       (fun d => Some (match latest_callback externalRef d with
                       | Some p => [callback_row p]
                       | None => []
                       end))
       None.

End Store.
End Store.

(** ** The answers of the payment provider *)

(** [axios.post] resolves with a status and a body, or rejects: with
    [error.response] when the provider answered with an HTTP error status,
    without it when the network failed. *)
Inductive api_result : Type :=
| ApiOk (status : Z) (data : json)
| ApiFail (e : js_error).

Definition http_error (status : Z) (data : json) : js_error :=
  {| err_name := "AxiosError";
     err_message := "Request failed with status code " ++ Number_toString status;
     err_response := Some (status, data) |}.

Definition network_error (msg : string) : js_error :=
  {| err_name := "AxiosError"; err_message := msg; err_response := None |}.

(** [error.response?.data] *)
Definition response_data (e : js_error) : value :=
  match err_response e with
  | Some (_, d) => Some d
  | None => None
  end.

(** ** The held-connection server (src/unnamed/part_005, second document) *)

Module Relay.

Inductive Gateway : Type := payhero | swiftwallet.

Definition gateway_name (g : Gateway) : string :=
  match g with
  | payhero => "payhero"
  | swiftwallet => "swiftwallet"
  end.

(** The [paymentRequest] object.  [res] is the caller's response handle. *)
Record PendingRequest : Type := {
  phone : string;
  amount : json;
  reference : string;
  user_id : value;
  uniqueRef : string;
  gateway : Gateway;
  timestamp : string;
  resolved : bool;
  response : json;
  res : nat;
  payheroResponse : value;
  swiftResponse : value
}.

(** A pending [setTimeout]: when it is due and what its closure captured. *)
Record Timer : Type := {
  due : Z;
  timer_ref : string;
  timer_gateway : Gateway
}.

(** The process memory.  [transactionStatuses] maps a key to a
    [paymentRequest] object; the objects live in [objects], each under the
    response handle it was created with, so that the map, the suspended
    [/api/pay] handler and the timer closure all see the one object.
    [awaiting] holds the handlers suspended at the provider call, with the
    payload they post. *)
Record Memory : Type := {
  transactionStatuses : gmap string nat;
  objects : gmap nat PendingRequest;
  timers : list Timer;
  awaiting : gmap nat json
}.

Definition empty_memory : Memory :=
  {| transactionStatuses := ∅; objects := ∅; timers := []; awaiting := ∅ |}.

Section Handlers.
Context `{Runtime}.

Abbreviation M := (Exec.M Memory).

Definition set_resolved (b : bool) (r : PendingRequest) : PendingRequest :=
  {| phone := phone r; amount := amount r; reference := reference r; user_id := user_id r;
     uniqueRef := uniqueRef r; gateway := gateway r; timestamp := timestamp r;
     resolved := b; response := response r; res := res r;
     payheroResponse := payheroResponse r; swiftResponse := swiftResponse r |}.

Definition set_payheroResponse (d : json) (r : PendingRequest) : PendingRequest :=
  {| phone := phone r; amount := amount r; reference := reference r; user_id := user_id r;
     uniqueRef := uniqueRef r; gateway := gateway r; timestamp := timestamp r;
     resolved := resolved r; response := response r; res := res r;
     payheroResponse := Some d; swiftResponse := swiftResponse r |}.

Definition set_swiftResponse (d : json) (r : PendingRequest) : PendingRequest :=
  {| phone := phone r; amount := amount r; reference := reference r; user_id := user_id r;
     uniqueRef := uniqueRef r; gateway := gateway r; timestamp := timestamp r;
     resolved := resolved r; response := response r; res := res r;
     payheroResponse := payheroResponse r; swiftResponse := Some d |}.

Definition modify_memory (f : Memory -> Memory) : M unit :=
  (w <- get_world;; set_memory (f (memory w)))%js.

(** [transactionStatuses.set(key, object)] *)
Definition registry_set (key : string) (o : nat) (m : Memory) : Memory :=
  {| transactionStatuses := <[key := o]> (transactionStatuses m);
     objects := objects m; timers := timers m; awaiting := awaiting m |}.

(** [transactionStatuses.delete(key)]; a key that is not a string is not in
    the map. *)
Definition registry_delete (key : value) (m : Memory) : Memory :=
  match key with
  | Some (JStr k) =>
      {| transactionStatuses := delete k (transactionStatuses m);
         objects := objects m; timers := timers m; awaiting := awaiting m |}
  | _ => m
  end.

(** A write to a field of the object [o]. *)
Definition object_update (o : nat) (f : PendingRequest -> PendingRequest) (m : Memory) : Memory :=
  {| transactionStatuses := transactionStatuses m;
     objects := alter f o (objects m); timers := timers m; awaiting := awaiting m |}.

Definition object_new (o : nat) (r : PendingRequest) (m : Memory) : Memory :=
  {| transactionStatuses := transactionStatuses m;
     objects := <[o := r]> (objects m); timers := timers m; awaiting := awaiting m |}.

Definition timer_add (t : Timer) (m : Memory) : Memory :=
  {| transactionStatuses := transactionStatuses m;
     objects := objects m; timers := timers m ++ [t]; awaiting := awaiting m |}.


Definition set_awaiting (a : gmap nat json) (m : Memory) : Memory :=
  {| transactionStatuses := transactionStatuses m;
     objects := objects m; timers := timers m; awaiting := a |}.

(** [transactionStatuses.get(key)]: the object under the key, if any.  Only
    strings are ever stored as keys, so any other value finds nothing. *)
Definition registry_get (key : value) (m : Memory) : option (nat * PendingRequest) :=
  match key with
  | Some (JStr k) =>
      match transactionStatuses m !! k with
      | Some o =>
          match objects m !! o with
          | Some r => Some (o, r)
          | None => None
          end
      | None => None
      end
  | _ => None
  end.

(** [transformSwiftWalletCallbackToPayHero], lines 328-345. *)
Definition completed (swiftCallback : value) : outcome bool :=
  if is_true (swiftCallback ?> "success") then
    and_then (opt_toLowerCase (swiftCallback ?> "status")) (fun l =>
      if is_string l "completed" then Done true
      else and_then (opt_toLowerCase (swiftCallback ?> "status")) (fun l' =>
             Done (is_string l' "completed")))
  else Done false.

Definition compact_date (now : Z) : string :=
  take_chars 14 (filter_string
             (fun c => negb (Ascii.eqb c "-" || Ascii.eqb c ":" || Ascii.eqb c "T"))
             (toISOString now)).

Definition transformSwiftWalletCallbackToPayHero (swiftCallback : value) (now : Z)
  : outcome json :=
  and_then (completed swiftCallback) (fun ok =>
    Done (object
      [("response",
        Some (object
          [("Status", Some (JStr (if ok then "Success" else "Failed")));
           ("Amount", swiftCallback ?> "result" ?> "Amount"
                      ||| swiftCallback ?> "amount" ||| Some (JNum 5));
           ("Phone", swiftCallback ?> "result" ?> "Phone" ||| Some (JStr ""));
           ("ExternalReference", swiftCallback ?> "external_reference");
           ("TransactionDate", swiftCallback ?> "result" ?> "TransactionDate"
                               ||| Some (JStr (compact_date now)));
           ("MpesaReceiptNumber", swiftCallback ?> "result" ?> "MpesaReceiptNumber"
                                  ||| Some (JStr ""));
           ("ResultCode", swiftCallback ?> "result" ?> "ResultCode"
                          ||| Some (JNum (if is_true (swiftCallback ?> "success")
                                          then 0 else 1)));
           ("ResultDesc", swiftCallback ?> "result" ?> "ResultDesc"
                          ||| swiftCallback ?> "message"
                          ||| Some (JStr "Transaction processed"))]));
       ("external_reference", swiftCallback ?> "external_reference");
       ("reference", swiftCallback ?> "external_reference")])).


(** The gateway detection of line 369:
    [reference && reference.toLowerCase().startsWith('payp')]. *)
Definition choose_gateway (reference : value) : outcome Gateway :=
  if truthy reference then
    and_then (receiver reference "toLowerCase") (fun r =>
      Done (if startsWith "payp" (toLowerCase r) then payhero else swiftwallet))
  else Done swiftwallet.

(** The payload each gateway is sent, lines 389-396 and 493-501. *)
Definition provider_payload (gw : Gateway) (amount : json) (fullPhone uniqueRef : string)
    (user_id : value) : json :=
  match gw with
  | payhero =>
      object [("channel_id", env "PAYHERO_CHANNEL_ID");
              ("amount", Some amount);
              ("phone_number", Some (JStr fullPhone));
              ("external_reference", Some (JStr uniqueRef));
              ("callback_url", env "CALLBACK_URL");
              ("provider", Some (JStr "m-pesa"))]
  | swiftwallet =>
      object [("amount", Some amount);
              ("phone_number", Some (JStr fullPhone));
              ("channel_id", env "SWIFTWALLET_CHANNEL_ID");
              ("external_reference", Some (JStr uniqueRef));
              ("callback_url", env "CALLBACK_URL");
              ("customer_name", Some (if truthy user_id
                                      then plus (Some (JStr "User")) user_id
                                      else JStr "Customer"));
              ("occasion", Some (JStr "Wallet Deposit"))]
  end.

(** The new [paymentRequest] goes into the map under its key, and the
    handler suspends at the provider call. *)
Definition register (paymentRequest : PendingRequest) (payload : json) (m : Memory) : Memory :=
  set_awaiting (<[res paymentRequest := payload]> (awaiting m))
    (registry_set (uniqueRef paymentRequest) (res paymentRequest)
       (object_new (res paymentRequest) paymentRequest m)).

(** [POST /api/pay] up to its first [await], lines 348-428 and 490-536.
    The request stays suspended under its response handle. *)
Definition pay_begin (body : json) (res : nat) : M unit :=
  (phone <- lift (dot (Some body) "phone");;
   amount <- lift (dot (Some body) "amount");;
   reference <- lift (dot (Some body) "reference");;
   user_id <- lift (dot (Some body) "user_id");;
   let amount := Number amount in
   phone <- lift (receiver phone "startsWith");;
   let fullPhone := if startsWith "254" phone then phone else "254" ++ phone in
   gateway <- lift (choose_gateway reference);;
   w <- get_world;;
   reference <- lift (receiver reference "replace");;
   let uniqueRef := Gen.uniqueRef reference (clock w) in
   let paymentRequest :=
     {| phone := phone; amount := amount; reference := reference; user_id := user_id;
        uniqueRef := uniqueRef; gateway := gateway;
        timestamp := toISOString (clock w);
        resolved := false; response := JNull; res := res;
        payheroResponse := None; swiftResponse := None |} in
   modify_memory
     (register paymentRequest (provider_payload gateway amount fullPhone uniqueRef user_id)))%js.

(** The retry loop of lines 540-578:
    [for (let attempt = 1; attempt <= 3; attempt++)].  [provider n] is the
    provider's answer to the n-th call. *)
Fixpoint call_with_retry (rounds : nat) (attempt : nat) (payload : json)
    (provider : nat -> api_result) : M (Z * json) :=
  match rounds with
  | O => throw (TypeError "Cannot read properties of undefined (reading 'data')")
  | S rounds' =>
      if (attempt <=? 3)%nat then
        (log_api_call payload;;;
         match provider attempt with
         | ApiOk status data => ret (status, data)
         | ApiFail error =>
             if (attempt <? 3)%nat then
               sleep 2000;;; call_with_retry rounds' (S attempt) payload provider
             else throw error
         end)%js
      else throw (TypeError "Cannot read properties of undefined (reading 'data')")
  end.

(** The attempt that ends the loop: the first of the three that the
    provider accepts, the third otherwise. *)
Definition last_attempt (provider : nat -> api_result) : nat :=
  match provider 1%nat with
  | ApiOk _ _ => 1
  | ApiFail _ =>
      match provider 2%nat with
      | ApiOk _ _ => 2
      | ApiFail _ => 3
      end
  end.

(** The timer both branches set once the provider has accepted the push. *)
Definition schedule_timeout (uniqueRef : string) (gw : Gateway) : M unit :=
  (w <- get_world;;
   modify_memory (timer_add {| due := clock w + 120000;
                               timer_ref := uniqueRef;
                               timer_gateway := gw |}))%js.

(** [POST /api/pay] from the provider call on, lines 428-488 and 536-630. *)
Definition pay_finish (res : nat) (provider : nat -> api_result) : M unit :=
  (w <- get_world;;
   match awaiting (memory w) !! res, objects (memory w) !! res with
   | Some payload, Some paymentRequest =>
       let uniqueRef := uniqueRef paymentRequest in
       modify_memory (fun m => set_awaiting (delete res (awaiting m)) m);;;
       match gateway paymentRequest with
       | payhero =>
           try_catch
             (log_api_call payload;;;
              match provider 1%nat with
              | ApiOk _ payheroData =>
                  modify_memory (object_update res (set_payheroResponse payheroData));;;
                  modify_memory (registry_set uniqueRef res);;;
                  schedule_timeout uniqueRef payhero
              | ApiFail error => throw error
              end)
             (fun error =>
                respond res 500
                  (object [("status", Some (JStr "FAILED"));
                           ("message", response_data error ?> "message"
                                       ||| Some (JStr (err_message error))
                                       ||| Some (JStr "PayHero payment failed"));
                           ("external_reference", Some (JStr uniqueRef))]))
       | swiftwallet =>
           try_catch
             (response <- call_with_retry 3 1 payload provider;;
              modify_memory (object_update res (set_swiftResponse (snd response)));;;
              modify_memory (registry_set uniqueRef res);;;
              schedule_timeout uniqueRef swiftwallet)
             (fun error =>
                respond res 500
                  (object [("status", Some (JStr "FAILED"));
                           ("message", response_data error ?> "error"
                                       ||| Some (JStr (err_message error))
                                       ||| Some (JStr "Payment failed"));
                           ("external_reference", Some (JStr uniqueRef))]))
       end
   | _, _ => ret tt
   end)%js.

(** The whole handler when nothing else runs while it waits for the
    provider. *)
Definition pay (body : json) (provider : nat -> api_result) (res : nat) : M unit :=
  (pay_begin body res;;; pay_finish res provider)%js.

(** The block of lines 670-711: answer the waiting request, if there is
    one that has not been resolved. *)
Definition notify_waiting (externalRef : value) (status : json) (data : value) : M unit :=
  (w <- get_world;;
   match registry_get externalRef (memory w) with
   | Some (o, memoryData) =>
       if negb (resolved memoryData) then
         let success := is_string (Some status) "SUCCESS"
                        || is_string (Some status) "COMPLETED" in
         modify_memory (object_update o (set_resolved true));;;
         respond (res memoryData) 200
           (object [("success", Some (JBool success));
                    ("status", Some (JStr (if success then "SUCCESS" else "FAILED")));
                    ("message", Some (JStr (if success
                                            then "Payment completed successfully"
                                            else "Payment failed")));
                    ("external_reference", externalRef);
                    ("amount", Some (amount memoryData));
                    ("phone", Some (JStr (phone memoryData)));
                    ("gateway", Some (JStr (gateway_name (gateway memoryData))));
                    ("callback_data", data)]);;;
         modify_memory (registry_delete externalRef)
       else ret tt
   | None => ret tt
   end)%js.

(** The block of lines 713-732: store the callback. *)
Definition store_callback (externalRef : value) (status : json) (data : value) : M unit :=
  try_catch
    (insertError <- Store.insert_callback
                      (object [("external_reference", externalRef);
                               ("callback_data", data);
                               ("status", Some status)]);;
     ret tt)%js
    (fun dbError => ret tt).

(** [POST /api/callback], lines 634-744. *)
Definition callback (swiftData : json) (res : nat) : M unit :=
  (w <- get_world;;
   data <- lift (transformSwiftWalletCallbackToPayHero (Some swiftData) (clock w));;
   let data := Some data in
   try_catch
     (let statusRaw := data ?> "response" ?> "Status" ||| data ?> "status" in
      status <- lift (upper_or_null statusRaw);;
      let externalRef := data ?> "response" ?> "ExternalReference"
                         ||| data ?> "external_reference"
                         ||| data ?> "reference" in
      notify_waiting externalRef status data;;;
      store_callback externalRef status data;;;
      sendStatus res 200)
     (fun err => sendStatus res 200))%js.

(** [GET /api/status/:externalRef], lines 747-821. *)
Definition status (externalRef : string) (res : nat) : M unit :=
  (try_catch
     (q <- Store.select_latest_callback externalRef;;
      let callbackRows := fst q in
      let callbackError := snd q in
      match (if truthy callbackError then None else callbackRows) with
      | Some (latest :: _) =>
          normalizedStatus <- lift (call_toUpperCase
                                      (Some latest ?> "status" ||| Some (JStr "PENDING")));;
          respond res 200
            (object
               [("success", Some (JBool true));
                ("payment_status",
                 Some (object
                   [("status", Some (JStr normalizedStatus));
                    ("details", Some latest ?> "callback_data" ?> "response" ?> "ResultDesc"
                                ||| Some (JStr "Payment processed"));
                    ("checkoutRequestID",
                     Some latest ?> "callback_data" ?> "response" ?> "CheckoutRequestID"
                     ||| Some JNull);
                    ("lastUpdated", Some latest ?> "created_at");
                    ("verified", Some (JBool (String.eqb normalizedStatus "SUCCESS"
                                              || String.eqb normalizedStatus "COMPLETED")))]));
                ("external_reference", Some (JStr externalRef))])
      | _ =>
          w <- get_world;;
          match registry_get (Some (JStr externalRef)) (memory w) with
          | Some (_, statusInfo) =>
              respond res 200
                (object
                   [("success", Some (JBool true));
                    ("payment_status",
                     Some (object
                       [("status", Some (JStr "QUEUED"));
                        ("details", Some (JStr "Payment is being processed"));
                        ("lastUpdated", Some (JStr (timestamp statusInfo)));
                        ("verified", Some (JBool false))]));
                    ("external_reference", Some (JStr externalRef))])
          | None =>
              respond res 200
                (object
                   [("success", Some (JBool true));
                    ("payment_status",
                     Some (object
                       [("status", Some (JStr "PENDING"));
                        ("details", Some (JStr "Payment not found"));
                        ("lastUpdated", Some (JStr (toISOString (clock w))));
                        ("verified", Some (JBool false))]));
                    ("external_reference", Some (JStr externalRef))])
          end
      end)
     (fun error =>
        respond res 500
          (object [("success", Some (JBool false));
                   ("error", Some (JStr "Status check failed"))])))%js.






(** The key [k] holds a request that waits on the response handle [h]:
    registered, not resolved, not answered. *)
Definition waiting (w : world Memory) (k : string) (h : nat) : bool :=
  match registry_get (Some (JStr k)) (memory w) with
  | Some (o, r) =>
      Nat.eqb o h && Nat.eqb (res r) h && negb (resolved r) && negb (answered w h)
  | None => false
  end.

(** The normalizer accepts the payload. *)
Definition normalizes (body : json) : bool :=
  match completed (Some body) with
  | Done _ => true
  | _ => false
  end.


(** The gateway the prefix rule of line 369 chooses for a reference. *)
Definition route (reference : string) : Gateway :=
  if negb (String.eqb reference "") && startsWith "payp" (toLowerCase reference)
  then payhero else swiftwallet.

(** The provider accepts the push: at the one call of the PayHero branch,
    within the three attempts of the SwiftWallet branch. *)
Definition accepts (gw : Gateway) (provider : nat -> api_result) : bool :=
  match gw with
  | payhero => match provider 1%nat with ApiOk _ _ => true | ApiFail _ => false end
  | swiftwallet =>
      match provider (last_attempt provider) with ApiOk _ _ => true | ApiFail _ => false end
  end.




(** The memory is as the handlers build it: every object sits under the
    response handle it stores, and no key refers to the handle of a request
    that has not arrived yet. *)
Definition well_formed (w : world Memory) : Prop :=
  map_Forall (fun o r => res r = o) (objects (memory w))
  /\ map_Forall (fun _ o => (o < next_handle w)%nat) (transactionStatuses (memory w)).

(** The request on handle [h] holds the key [k] and waits, and no other key
    leads to its object. *)
Definition held (w : world Memory) (k : string) (h : nat) : Prop :=
  waiting w k h = true
  /\ (h < next_handle w)%nat
  /\ (forall k', transactionStatuses (memory w) !! k' = Some h -> k' = k)
  /\ map_Forall (fun o r => res r = o) (objects (memory w)).

(** What the provider's answer writes into the request object leaves its
    identity alone. *)
Definition keeps_identity (f : PendingRequest -> PendingRequest) : Prop :=
  forall r, res (f r) = res r /\ resolved (f r) = resolved r /\ uniqueRef (f r) = uniqueRef r.


End Handlers.
End Relay.

(** ** The polling servers: a status cache in memory *)

(** The polling revisions keep one plain object per key in
    [transactionStatuses]; objects are replaced, never written in place. *)
Module Cache.

Abbreviation Memory := (gmap map_key json).
Abbreviation M := (Exec.M Memory).

(** [transactionStatuses.get(key)] *)
Definition cache_get (key : value) (m : Memory) : value :=
  match to_key key with
  | Some k => m !! k
  | None => None
  end.

(** [transactionStatuses.set(key, entry)] *)
Definition cache_set (key : value) (entry : json) : M unit :=
  (w <- get_world;;
   match to_key key with
   | Some k => set_memory (<[k := entry]> (memory w))
   | None => ret tt
   end)%js.

End Cache.

(** ** The SwiftWallet polling server (src/app.js, third document) *)

Module Poll.
Section Handlers.
Context `{Runtime}.

Abbreviation M := (Exec.M Cache.Memory).

(** [transformSwiftWalletToPayHero], lines 683-690. *)
Definition transformSwiftWalletToPayHero (swiftResponse : value) : outcome json :=
  and_then (opt_toLowerCase (swiftResponse ?> "status")) (fun l =>
    Done (object
      [("status", if is_string l "initiated" then Some (JStr "QUEUED")
                  else swiftResponse ?> "status" ||| Some (JStr "QUEUED"));
       ("message", swiftResponse ?> "message" ||| Some (JStr "STK Push initiated."));
       ("CheckoutRequestID", swiftResponse ?> "checkout_request_id" ||| Some JNull);
       ("external_reference", swiftResponse ?> "reference"
                              ||| swiftResponse ?> "external_reference")])).

Definition compact_date (now : Z) : string :=
  take_chars 14 (filter_string
                   (fun c => negb (Ascii.eqb c "-" || Ascii.eqb c ":" || Ascii.eqb c "T"))
                   (toISOString now)).

(** [transformSwiftWalletCallbackToPayHero], lines 693-711. *)
Definition transformSwiftWalletCallbackToPayHero (swiftCallback : value) (now : Z) : json :=
  let ok := is_true (swiftCallback ?> "success")
            && (is_string (swiftCallback ?> "status") "completed"
                || is_string (swiftCallback ?> "status") "COMPLETED") in
  object
    [("response",
      Some (object
        [("Status", Some (JStr (if ok then "Success" else "Failed")));
         ("Amount", swiftCallback ?> "result" ?> "Amount"
                    ||| swiftCallback ?> "amount" ||| Some (JNum 5));
         ("Phone", swiftCallback ?> "result" ?> "Phone" ||| Some (JStr ""));
         ("ExternalReference", swiftCallback ?> "external_reference");
         ("TransactionDate", swiftCallback ?> "result" ?> "TransactionDate"
                             ||| Some (JStr (compact_date now)));
         ("MpesaReceiptNumber", swiftCallback ?> "result" ?> "MpesaReceiptNumber"
                                ||| Some (JStr ""));
         ("ResultCode", swiftCallback ?> "result" ?> "ResultCode"
                        ||| Some (JNum (if is_true (swiftCallback ?> "success")
                                        then 0 else 1)));
         ("ResultDesc", swiftCallback ?> "result" ?> "ResultDesc"
                        ||| swiftCallback ?> "message"
                        ||| Some (JStr "Transaction processed"))]));
     ("external_reference", swiftCallback ?> "external_reference");
     ("reference", swiftCallback ?> "external_reference")].

(** [POST /api/pay], lines 713-787.  Nothing is shared before the one
    [await], so the handler runs in one piece; [provider] is the provider's
    answer. *)
Definition pay (body : json) (provider : api_result) (res : nat) : M unit :=
  (phone <- lift (dot (Some body) "phone");;
   amount <- lift (dot (Some body) "amount");;
   reference <- lift (dot (Some body) "reference");;
   user_id <- lift (dot (Some body) "user_id");;
   let amount := Number amount in
   phone <- lift (receiver phone "startsWith");;
   let fullPhone := if startsWith "254" phone then phone else "254" ++ phone in
   let payload :=
     object [("amount", Some amount);
             ("phone_number", Some (JStr fullPhone));
             ("channel_id", env "SWIFTWALLET_CHANNEL_ID");
             ("external_reference", reference);
             ("callback_url", env "CALLBACK_URL")] in
   try_catch
     (log_api_call payload;;;
      swiftData <- match provider with
                   | ApiOk _ data => ret data
                   | ApiFail error => throw error
                   end;;
      payHeroData <- lift (transformSwiftWalletToPayHero (Some swiftData));;
      let payHeroData := Some payHeroData in
      let statusKey := payHeroData ?> "external_reference" ||| reference in
      w <- get_world;;
      (if truthy statusKey then
         status <- lift (call_toUpperCase (payHeroData ?> "status" ||| Some (JStr "QUEUED")));;
         Cache.cache_set statusKey
           (object [("status", Some (JStr status));
                    ("details", payHeroData ?> "message"
                                ||| Some (JStr "STK Push initiated, waiting for user confirmation."));
                    ("checkoutRequestID", payHeroData ?> "CheckoutRequestID" ||| Some JNull);
                    ("lastUpdated", Some (JStr (toISOString (clock w))));
                    ("user_id", user_id);
                    ("verified", Some (JBool false))])
       else ret tt);;;
      respond res 200
        (object [("status", payHeroData ?> "status" ||| Some (JStr "QUEUED"));
                 ("message", payHeroData ?> "message" ||| Some (JStr "STK Push initiated."));
                 ("checkoutRequestID", payHeroData ?> "CheckoutRequestID" ||| Some JNull);
                 ("external_reference", statusKey);
                 ("raw", Some swiftData)]))
     (fun error =>
        respond res 500
          (object [("status", Some (JStr "Failure"));
                   ("message", response_data error ?> "error"
                               ||| Some (JStr (err_message error))
                               ||| Some (JStr "Payment failed"));
                   ("error", response_data error ||| Some JNull)])))%js.

(** The wallet update of lines 949-993. *)
Definition update_wallet (userId : value) (amount : value) : M unit :=
  try_catch
    (q <- Store.select_user "id" userId ["recharge_wallet"];;
     let profile := fst q in
     let profileError := snd q in
     if truthy profileError then ret tt
     else
       w <- get_world;;
       let newBalance := plus (profile ?> "recharge_wallet" ||| Some (JNum 0)) amount in
       u <- Store.update_user
              [("recharge_wallet", Some newBalance);
               ("updated_at", Some (JStr (toISOString (clock w))))]
              "id" userId ["recharge_wallet"];;
       ret tt)%js
    (fun walletUpdateError => ret tt).

(** [POST /api/callback], lines 789-1025. *)
Definition callback (swiftData : json) (res : nat) : M unit :=
  (w <- get_world;;
   let data := Some (transformSwiftWalletCallbackToPayHero (Some swiftData) (clock w)) in
   try_catch
     (let statusRaw := data ?> "response" ?> "Status" ||| data ?> "status" in
      status <- lift (upper_or_null statusRaw);;
      let externalRef := data ?> "response" ?> "ExternalReference"
                         ||| data ?> "external_reference"
                         ||| data ?> "response" ?> "external_reference"
                         ||| data ?> "reference" in
      w <- get_world;;
      let memoryData := Cache.cache_get externalRef (memory w) in
      if truthy externalRef then
        let row := object [("external_reference", externalRef);
                           ("callback_data", data);
                           ("status", Some status)] in
        try_catch
          (insertError <- Store.insert_callback row;;
           if truthy insertError then
             try_catch (altError <- Store.insert_callback row;; ret tt)
                       (fun altCatchError => ret tt)
           else ret tt)
          (fun dbError => ret tt);;;
        try_catch
          (success <- lift (lower_is status "success");;
           (if success then
              let userId := memoryData ?> "user_id" in
              if negb (truthy userId) then leave
              else
                let amount := data ?> "response" ?> "Amount" ||| Some (JNum 5) in
                try_catch
                  (w <- get_world;;
                   txError <- Store.insert_transaction
                                (object [("user_id", userId);
                                         ("type", Some (JStr "deposit"));
                                         ("amount", amount);
                                         ("fee", Some (JNum 0));
                                         ("net_amount", amount);
                                         ("status", Some (JStr "completed"));
                                         ("description",
                                          Some (plus (Some (JStr "M-Pesa deposit ("))
                                                     (Some (plus externalRef (Some (JStr ")"))))));
                                         ("external_reference", externalRef);
                                         ("payment_method", Some (JStr "m-pesa"));
                                         ("processed_at", Some (JStr (toISOString (clock w))))]);;
                   if truthy txError then ret tt else update_wallet userId amount)
                  (fun transactionError => ret tt)
            else
              failed <- lift (lower_is status "failed");;
              ret tt);;;
           if truthy memoryData && truthy externalRef then
             isVerified <- (if truthy (Some status)
                            then b <- lift (lower_is status "success");; ret (JBool b)
                            else ret status);;
             newStatus <- (if truthy (Some status)
                           then s <- lift (call_toUpperCase (Some status));; ret (Some (JStr s))
                           else ret (memoryData ?> "status"));;
             w <- get_world;;
             Cache.cache_set externalRef
               (assign_all [("status", newStatus);
                            ("verified", Some isVerified);
                            ("lastUpdated", Some (JStr (toISOString (clock w))))]
                           (match memoryData with Some m => m | None => JObj [] end))
           else ret tt)
          (fun processBlockError => ret tt)
      else ret tt)
     (fun err => ret tt);;;
   sendStatus res 200)%js.

(** [GET /api/status/:externalRef], lines 1028-1086. *)
Definition status (externalRef : string) (res : nat) : M unit :=
  (w <- get_world;;
   let statusInfo := Cache.cache_get (Some (JStr externalRef)) (memory w) in
   if truthy statusInfo then
     respond res 200
       (object [("status", Some (JStr "Success"));
                ("payment_status", statusInfo);
                ("verified", Some (JBool (is_string (statusInfo ?> "status") "SUCCESS"
                                          || is_string (statusInfo ?> "status") "COMPLETED")));
                ("timestamp", Some (JStr (toISOString (clock w))))])
   else
     try_catch
       (q <- Store.select_latest_callback externalRef;;
        let callbackRows := fst q in
        let callbackError := snd q in
        (if truthy callbackError
         then throw {| err_name := "PostgrestError";
                       err_message := "payment_callbacks query failed";
                       err_response := None |}
         else ret tt);;;
        match callbackRows with
        | Some (latest :: _) =>
            normalizedStatus <- lift (call_toUpperCase
                                        (Some latest ?> "status" ||| Some (JStr "PENDING")));;
            let payload := object [("status", Some (JStr normalizedStatus));
                                   ("full_callback", Some latest ?> "callback_data");
                                   ("lastUpdated", Some latest ?> "created_at")] in
            Cache.cache_set (Some (JStr externalRef)) payload;;;
            respond res 200
              (object [("status", Some (JStr "Success"));
                       ("payment_status", Some payload);
                       ("verified", Some (JBool (String.eqb normalizedStatus "SUCCESS"
                                                 || String.eqb normalizedStatus "COMPLETED")));
                       ("timestamp", Some (JStr (toISOString (clock w))))])
        | _ =>
            respond res 202
              (object [("status", Some (JStr "Pending"));
                       ("message", Some (JStr "Payment status not yet available"));
                       ("verified", Some (JBool false));
                       ("timestamp", Some (JStr (toISOString (clock w))))])
        end)
       (fun error =>
          respond res 500
            (object [("status", Some (JStr "Failure"));
                     ("message", Some (JStr "Unable to retrieve payment status"));
                     ("timestamp", Some (JStr (toISOString (clock w))))])))%js.

(** The webhook confirms the payment: [success === true] together with the
    status [completed], as the normalizer of lines 693-711 reads them. *)
Definition confirms (swiftData : json) : bool :=
  is_true (Some swiftData ?> "success")
  && (is_string (Some swiftData ?> "status") "completed"
      || is_string (Some swiftData ?> "status") "COMPLETED").

(** [memoryData?.user_id] for the record under the webhook's reference. *)
Definition payer (swiftData : json) (m : Cache.Memory) : value :=
  Cache.cache_get (Some swiftData ?> "external_reference") m ?> "user_id".

End Handlers.
End Poll.

(** ** The first PayHero polling server (src/app.js, first document) *)

Module PayHero.
Section Handlers.
Context `{Runtime}.

Abbreviation M := (Exec.M Cache.Memory).

(** [POST /api/pay], lines 48-111. *)
Definition pay (body : json) (provider : api_result) (res : nat) : M unit :=
  (phone <- lift (dot (Some body) "phone");;
   amount <- lift (dot (Some body) "amount");;
   reference <- lift (dot (Some body) "reference");;
   let amount := Number amount in
   phone <- lift (receiver phone "startsWith");;
   let fullPhone := if startsWith "254" phone then phone else "254" ++ phone in
   let payload :=
     object [("channel_id", env "PAYHERO_CHANNEL_ID");
             ("amount", Some amount);
             ("phone_number", Some (JStr fullPhone));
             ("external_reference", reference);
             ("callback_url", env "CALLBACK_URL");
             ("provider", Some (JStr "m-pesa"))] in
   try_catch
     (log_api_call payload;;;
      data <- match provider with
              | ApiOk _ data => ret (Some data)
              | ApiFail error => throw error
              end;;
      let statusKey := data ?> "external_reference" ||| reference in
      w <- get_world;;
      (if truthy statusKey then
         status <- lift (dot data "status");;
         status <- lift (call_toUpperCase (status ||| Some (JStr "QUEUED")));;
         Cache.cache_set statusKey
           (object [("status", Some (JStr status));
                    ("details", data ?> "message"
                                ||| Some (JStr "STK Push initiated, waiting for user confirmation."));
                    ("checkoutRequestID", data ?> "CheckoutRequestID" ||| Some JNull);
                    ("lastUpdated", Some (JStr (toISOString (clock w))))])
       else ret tt);;;
      status <- lift (dot data "status");;
      respond res 200
        (object [("status", status ||| Some (JStr "QUEUED"));
                 ("message", data ?> "message" ||| Some (JStr "STK Push initiated."));
                 ("checkoutRequestID", data ?> "CheckoutRequestID" ||| Some JNull);
                 ("external_reference", statusKey);
                 ("raw", data)]))
     (fun error =>
        respond res 500
          (object [("status", Some (JStr "Failure"));
                   ("message", response_data error ?> "message"
                               ||| Some (JStr (err_message error))
                               ||| Some (JStr "Payment failed"));
                   ("error", response_data error ||| Some JNull)])))%js.

(** [POST /api/callback], lines 113-226. *)
Definition callback (body : json) (res : nat) : M unit :=
  (let data := Some body in
   try_catch
     (let statusRaw := data ?> "response" ?> "Status" ||| data ?> "status" in
      status <- lift (upper_or_null statusRaw);;
      let externalRef := data ?> "response" ?> "ExternalReference"
                         ||| data ?> "external_reference"
                         ||| data ?> "response" ?> "external_reference"
                         ||| data ?> "reference" in
      if truthy externalRef then
        try_catch
          (insertError <- Store.insert_callback
                            (object [("external_reference", externalRef);
                                     ("callback_data", data);
                                     ("status", Some status)]);;
           ret tt)
          (fun dbError => ret tt);;;
        success <- lift (lower_is status "success");;
        if success then
          w <- get_world;;
          q <- Store.update_activation_payment
                 [("status", Some (JStr "SUCCESS"));
                  ("confirmed_at", Some (JStr (toISOString (clock w))));
                  ("payhero_response", data)]
                 "external_reference" externalRef ["user_id"; "amount"];;
          let paymentData := fst q in
          if truthy paymentData then
            u <- Store.update_user
                   [("is_activated", Some (JBool true));
                    ("activation_date", Some (JStr (toISOString (clock w))))]
                   "id" (paymentData ?> "user_id") [];;
            r <- Store.rpc "distribute_referral_commissions"
                   (object [("new_user_id", paymentData ?> "user_id")]);;
            t <- Store.insert_transaction
                   (object [("user_id", paymentData ?> "user_id");
                            ("type", Some (JStr "deposit"));
                            ("amount", paymentData ?> "amount" ||| Some (JNum 500));
                            ("fee", Some (JNum 0));
                            ("net_amount", paymentData ?> "amount" ||| Some (JNum 500));
                            ("status", Some (JStr "completed"));
                            ("description", Some (JStr "Account activation fee"));
                            ("external_reference", externalRef);
                            ("payment_method", Some (JStr "m-pesa"));
                            ("processed_at", Some (JStr (toISOString (clock w))))]);;
            ret tt
          else ret tt
        else
          failed <- lift (lower_is status "failed");;
          if failed then
            q <- Store.update_activation_payment
                   [("status", Some (JStr "FAILED")); ("payhero_response", data)]
                   "external_reference" externalRef [];;
            ret tt
          else ret tt
      else ret tt)
     (fun err => ret tt);;;
   sendStatus res 200)%js.

(** [GET /api/status/:externalRef], lines 228-297. *)
Definition status (externalRef : string) (res : nat) : M unit :=
  (w <- get_world;;
   try_catch
     (q <- Store.select_latest_callback externalRef;;
      let callbackRows := fst q in
      match callbackRows with
      | Some (latest :: _) =>
          normalizedStatus <- lift (call_toUpperCase
                                      (Some latest ?> "status" ||| Some (JStr "PENDING")));;
          let payload := object [("status", Some (JStr normalizedStatus));
                                 ("verified", Some (JBool true));
                                 ("source", Some (JStr "callback"));
                                 ("full_callback", Some latest ?> "callback_data");
                                 ("lastUpdated", Some latest ?> "created_at")] in
          Cache.cache_set (Some (JStr externalRef)) payload;;;
          respond res 200
            (object [("status", Some (JStr "Success"));
                     ("payment_status", Some payload);
                     ("timestamp", Some (JStr (toISOString (clock w))))]);;;
          leave
      | _ => ret tt
      end)
     (fun error => ret tt);;;
   w' <- get_world;;
   let statusInfo := Cache.cache_get (Some (JStr externalRef)) (memory w') in
   match statusInfo with
   | Some info =>
       if truthy statusInfo then
         respond res 200
           (object [("status", Some (JStr "Success"));
                    ("payment_status",
                     Some (assign_all [("verified", Some (JBool false));
                                       ("source", Some (JStr "memory"))] info));
                    ("timestamp", Some (JStr (toISOString (clock w))))])
       else
         respond res 202
           (object [("status", Some (JStr "Pending"));
                    ("message", Some (JStr "Payment status not yet available"));
                    ("verified", Some (JBool false));
                    ("source", Some (JStr "none"));
                    ("timestamp", Some (JStr (toISOString (clock w))))])
   | None =>
       respond res 202
         (object [("status", Some (JStr "Pending"));
                  ("message", Some (JStr "Payment status not yet available"));
                  ("verified", Some (JBool false));
                  ("source", Some (JStr "none"));
                  ("timestamp", Some (JStr (toISOString (clock w))))])
   end)%js.

(** What the handler reads from the webhook: the status, upper-cased, and
    the reference. *)
Definition status_of (body : json) : outcome json :=
  upper_or_null (Some body ?> "response" ?> "Status" ||| Some body ?> "status").

Definition reference_of (body : json) : value :=
  Some body ?> "response" ?> "ExternalReference"
  ||| Some body ?> "external_reference"
  ||| Some body ?> "response" ?> "external_reference"
  ||| Some body ?> "reference".

(** The webhook reports a successful payment for some reference. *)
Definition confirms (body : json) : bool :=
  truthy (reference_of body)
  && match status_of body with
     | Done status =>
         match lower_is status "success" with
         | Done b => b
         | _ => false
         end
     | _ => false
     end.

(** The [activation_payments] rows of the webhook's reference. *)
Definition payments_of (body : json) (d : Db) : list json :=
  filter (fun r => Store.column_is "external_reference" (reference_of body) r)
         (activation_payments d).

End Handlers.
End PayHero.

(** ** The oldest PayHero server (src/app.js, second document) *)

Module Legacy.
Section Handlers.
Context `{Runtime}.

Abbreviation M := (Exec.M Cache.Memory).

(** [POST /api/pay], lines 407-456. *)
Definition pay (body : json) (provider : api_result) (res : nat) : M unit :=
  (phone <- lift (dot (Some body) "phone");;
   amount <- lift (dot (Some body) "amount");;
   reference <- lift (dot (Some body) "reference");;
   let amount := Number amount in
   phone <- lift (receiver phone "startsWith");;
   let fullPhone := if startsWith "254" phone then phone else "254" ++ phone in
   let payload :=
     object [("channel_id", env "PAYHERO_CHANNEL_ID");
             ("amount", Some amount);
             ("phone_number", Some (JStr fullPhone));
             ("external_reference", reference);
             ("callback_url", env "CALLBACK_URL");
             ("provider", Some (JStr "m-pesa"))] in
   try_catch
     (log_api_call payload;;;
      data <- match provider with
              | ApiOk _ data => ret (Some data)
              | ApiFail error => throw error
              end;;
      key <- lift (dot data "external_reference");;
      (if truthy key then
         status <- lift (dot data "status");;
         checkout <- lift (dot data "CheckoutRequestID");;
         Cache.cache_set key
           (object [("status", status ||| Some (JStr "QUEUED"));
                    ("details",
                     Some (JStr "STK Push initiated, waiting for user confirmation."));
                    ("checkoutRequestID", checkout)])
       else ret tt);;;
      status <- lift (dot data "status");;
      message <- lift (dot data "message");;
      checkout <- lift (dot data "CheckoutRequestID");;
      respond res 200
        (object [("status", status ||| Some (JStr "QUEUED"));
                 ("message", message ||| Some (JStr "STK Push initiated."));
                 ("checkoutRequestID", checkout ||| Some JNull);
                 ("external_reference", reference);
                 ("raw", data)]))
     (fun error =>
        respond res 500
          (object [("status", Some (JStr "Failure"));
                   ("message", response_data error ?> "message"
                               ||| Some (JStr (err_message error))
                               ||| Some (JStr "Payment failed"));
                   ("error", response_data error ||| Some JNull)])))%js.

(** [GET /api/status/:externalRef], lines 532-541. *)
Definition status (externalRef : string) (res : nat) : M unit :=
  (w <- get_world;;
   let statusInfo := Cache.cache_get (Some (JStr externalRef)) (memory w) in
   if truthy statusInfo then
     respond res 200
       (object [("status", Some (JStr "Success")); ("payment_status", statusInfo)])
   else
     respond res 404
       (object [("status", Some (JStr "Failure"));
                ("message", Some (JStr "No record found for this reference"))]))%js.

End Handlers.
End Legacy.

(** ** Reading the normalized callback *)

(** The outcome class the normalized callback carries. *)
Definition Status_of (data : json) : value := Some data ?> "response" ?> "Status".

(** The status field equals the provider's token, compared without regard
    to case. *)
Definition is_token (v : value) (token : string) : bool :=
  match v with
  | Some (JStr s) => String.eqb (toLowerCase s) token
  | _ => false
  end.

(** ** Running a handler *)

(** The response a request received, if any. *)
Definition response_of {R} (w : world R) (h : nat) : option Response :=
  snd <$> List.find (fun p => Nat.eqb (fst p) h) (sent w).

(** All the writes made to one response sink. *)
Definition writes_to {R} (w : world R) (h : nat) : list Response :=
  map snd (filter (fun p => fst p = h) (sent w)).

(** ** A runtime for concrete runs *)

Module Sample.

Definition two (n : Z) : string :=
  String (digit (n / 10 mod 10)) (String (digit (n mod 10)) EmptyString).

Definition three (n : Z) : string :=
  String (digit (n / 100 mod 10)) (two n).

(** The civil date of a day count since 1970-01-01. *)
Definition civil (days : Z) : Z * Z * Z :=
  let z := days + 719468 in
  let era := z / 146097 in
  let doe := z - era * 146097 in
  let yoe := (doe - doe / 1460 + doe / 36524 - doe / 146096) / 365 in
  let doy := doe - (365 * yoe + yoe / 4 - yoe / 100) in
  let mp := (5 * doy + 2) / 153 in
  let d := doy - (153 * mp + 2) / 5 + 1 in
  let m := if mp <? 10 then mp + 3 else mp - 9 in
  let y := yoe + era * 400 + (if m <=? 2 then 1 else 0) in
  (y, m, d).

(** [new Date(ms).toISOString()] for the years 0000 to 9999. *)
Definition iso (ms : Z) : string :=
  let '(y, m, d) := civil (ms / 86400000) in
  let r := ms mod 86400000 in
  Gen.four_digits y ++ "-" ++ two m ++ "-" ++ two d ++ "T"
  ++ two (r / 3600000) ++ ":" ++ two (r / 60000 mod 60) ++ ":" ++ two (r / 1000 mod 60)
  ++ "." ++ three (r mod 1000) ++ "Z".

Definition all_digits (s : string) : bool :=
  negb (String.eqb s "") && String.eqb (filter_string is_digit s) s.

(** [Number(v)] on integers, decimal strings, booleans and [null]; the
    other values give [NaN], which JSON writes as [null]. *)
Definition to_number (v : value) : json :=
  match v with
  | Some (JNum n) => JNum n
  | Some (JStr s) => if all_digits s then JNum (Gen.decimal_value s)
                     else if String.eqb s "" then JNum 0 else JNull
  | Some (JBool b) => JNum (if b then 1 else 0)
  | Some JNull => JNum 0
  | _ => JNull
  end.

Definition to_text (v : value) : string :=
  match v with
  | Some (JStr s) => s
  | Some (JNum n) => Number_toString n
  | Some (JBool true) => "true"
  | Some (JBool false) => "false"
  | Some JNull => "null"
  | Some (JArr _) => ""
  | Some (JObj _) => "[object Object]"
  | None => "undefined"
  end.

(** [a + b]: the sum of two numbers, the concatenation otherwise. *)
Definition add (a b : value) : json :=
  match a, b with
  | Some (JNum x), Some (JNum y) => JNum (x + y)
  | _, _ => JStr (to_text a ++ to_text b)
  end.

Definition environment (name : string) : value :=
  if String.eqb name "CALLBACK_URL" then Some (JStr "https://relay.example/api/callback")
  else if String.eqb name "PAYHERO_CHANNEL_ID" then Some (JStr "1001")
  else if String.eqb name "SWIFTWALLET_CHANNEL_ID" then Some (JStr "2002")
  else None.

Definition runtime : Runtime :=
  {| toISOString := iso; Number := to_number; plus := add; env := environment |}.

Definition empty_db : Db :=
  {| payment_callbacks := []; transactions := []; activation_payments := [];
     users := []; rpc_calls := [] |}.

(** A freshly started process at the given time. *)
Definition boot {R} (r : R) (now : Z) : world R :=
  {| memory := r; sent := []; db := empty_db; db_script := []; api_calls := [];
     sleeps := []; clock := now; next_handle := 0 |}.

(** A payment request as the mobile client posts it, with and without the
    user it is for. *)
Definition payment : list (string * json) :=
  [("phone", JStr "0712345678"); ("amount", JNum 500); ("reference", JStr "ACT-123")].

Definition payment_of_user : list (string * json) :=
  [("phone", JStr "0712345678"); ("amount", JNum 500); ("reference", JStr "ACT123");
   ("user_id", JStr "u1")].

Definition anonymous_payment : list (string * json) :=
  [("phone", JStr "0712345678"); ("amount", JNum 500); ("reference", JStr "ACT123")].

(** The provider accepts the push, or rejects it with a structured error. *)
Definition accepting : nat -> api_result :=
  fun _ => ApiOk 200 (JObj [("status", JStr "initiated")]).

Definition rejecting : nat -> api_result :=
  fun _ => ApiFail (http_error 400 (JObj [("error", JStr "Invalid phone number")])).

Definition swift_accepts : api_result :=
  ApiOk 200 (JObj [("status", JStr "initiated"); ("reference", JStr "ACT123")]).

(** Webhooks of the SwiftWallet shape. *)
Definition webhook (externalRef : string) : json :=
  JObj [("success", JBool true); ("status", JStr "Completed");
        ("external_reference", JStr externalRef); ("amount", JNum 500)].

Definition failed_webhook (externalRef : string) : json :=
  JObj [("success", JBool false); ("status", JStr "failed");
        ("external_reference", JStr externalRef)].

Definition odd_webhook (externalRef : string) : json :=
  JObj [("success", JBool true); ("status", JNum 1);
        ("external_reference", JStr externalRef)].

(** A webhook of the PayHero shape, and the [activation_payments] row the
    application created for the payment. *)
Definition payhero_webhook : json :=
  JObj [("status", JStr "Success");
        ("response", JObj [("Status", JStr "Success");
                           ("ExternalReference", JStr "ACT123");
                           ("Amount", JNum 500)])].

Definition activation_row : json :=
  JObj [("external_reference", JStr "ACT123"); ("user_id", JStr "u1");
        ("amount", JNum 500); ("status", JStr "PENDING")].

End Sample.

(** ** Vocabulary of the properties *)


(** The number of rows of [payment_callbacks]. *)
Definition stored {R} (w : world R) : nat := length (payment_callbacks (db w)).

(** The number of rows of the ledger table [transactions]. *)
Definition ledger {R} (w : world R) : nat := length (transactions (db w)).

(** The handler step [m] leaves the request waiting under [k] for the
    caller on [h] as it was. *)
Definition preserves {A} (k : string) (h : nat) (m : Exec.M Relay.Memory A) : Prop :=
  forall w, Relay.held w k h -> Relay.held (snd (m w)) k h.

(** Whatever [m] does, a world in which [P] holds is one afterwards. *)
Definition keeps {R A} (P : world R -> Prop) (m : Exec.M R A) : Prop :=
  forall w, P w -> P (snd (m w)).


(** ** Vocabulary of the handler properties *)

(** A block that does not leave the handler by [return], and keeps [P]. *)
Definition confined {R A} (P : world R -> Prop) (m : Exec.M R A) : Prop :=
  forall w, P w -> fst (m w) <> Returned /\ P (snd (m w)).

(** [w'] differs from [w] in the store at most: same responses, same
    memory, same clock, same handle counter. *)
Definition store_only {R} (w w' : world R) : Prop :=
  sent w' = sent w /\ memory w' = memory w /\ clock w' = clock w
  /\ next_handle w' = next_handle w.

(** [w'] has the responses of [w]. *)
Definition same_sent {R} (w w' : world R) : Prop := sent w' = sent w.

(** The acknowledgement [res.sendStatus(200)]. *)
Definition acknowledgement : Response := {| code := 200; body := JStr "OK" |}.

(** No ledger row, no user row and no remote procedure call differs
    between [w] and [w']. *)
Definition same_money {R} (w w' : world R) : Prop :=
  transactions (db w') = transactions (db w)
  /\ users (db w') = users (db w)
  /\ rpc_calls (db w') = rpc_calls (db w).

(** Every character of the string is in the class. *)
Fixpoint all_chars (class : ascii -> bool) (s : string) : bool :=
  match s with
  | EmptyString => true
  | String c r => class c && all_chars class r
  end.



(** * Properties *)

(** ** The reference generator *)

Section GeneratorFacts.

Lemma append_String (c : ascii) (a b : string) : String c a ++ b = String c (a ++ b).
Proof. reflexivity. Qed.

Lemma append_empty (b : string) : EmptyString ++ b = b.
Proof. reflexivity. Qed.

Ltac unfold_append := rewrite ?append_String, ?append_empty.

Lemma length_append (a b : string) :
  String.length (a ++ b) = (String.length a + String.length b)%nat.
Proof.
  induction a as [|c a IH]; unfold_append; simpl; [reflexivity | now rewrite IH].
Qed.

Lemma length_take_chars_le (n : nat) (s : string) : (String.length (take_chars n s) <= n)%nat.
Proof.
  revert s; induction n as [|n IH]; intros [|c s]; simpl; try lia.
  specialize (IH s). lia.
Qed.

Lemma length_drop_chars (n : nat) (s : string) :
  String.length (drop_chars n s) = (String.length s - n)%nat.
Proof.
  revert s; induction n as [|n IH]; intros [|c s]; simpl; try lia.
  apply IH.
Qed.

Lemma length_slice_last_le (n : nat) (s : string) :
  (String.length (slice_last n s) <= n)%nat.
Proof. unfold slice_last. rewrite length_drop_chars. lia. Qed.

Lemma drop_append_exact (a b : string) : drop_chars (String.length a) (a ++ b) = b.
Proof.
  induction a as [|c a IH]; unfold_append; simpl; [now destruct b | exact IH].
Qed.

Lemma append_assoc (a b c : string) : (a ++ b) ++ c = a ++ (b ++ c).
Proof.
  induction a as [|x a IH]; unfold_append; [reflexivity | f_equal; exact IH].
Qed.

(** One round of [digits_fuel] always ends with the unit digit. *)
Lemma digits_fuel_last (fuel : nat) (n : Z) :
  0 <= n ->
  exists front, digits_fuel (S fuel) n = front ++ String (digit (n mod 10)) EmptyString.
Proof.
  intros Hn. simpl. destruct (n <? 10) eqn:E.
  - apply Z.ltb_lt in E. exists EmptyString. unfold_append. now rewrite Z.mod_small by lia.
  - now exists (digits_fuel fuel (n / 10)).
Qed.

(** With four rounds of fuel to spare, a number of at least four digits
    ends with the four digits of its remainder modulo ten thousand. *)
Lemma digits_fuel_last4 (fuel : nat) (n : Z) :
  1000 <= n ->
  exists front,
    digits_fuel (S (S (S (S fuel)))) n = front ++ Gen.four_digits (n mod 10000).
Proof.
  intros Hn.
  assert (E1 : (n <? 10) = false) by (apply Z.ltb_ge; lia).
  assert (E2 : (n / 10 <? 10) = false).
  { apply Z.ltb_ge. apply Z.div_le_lower_bound; lia. }
  assert (E3 : (n / 10 / 10 <? 10) = false).
  { apply Z.ltb_ge. rewrite Z.div_div by lia. apply Z.div_le_lower_bound; lia. }
  destruct (digits_fuel_last fuel (n / 10 / 10 / 10)) as [front Hfront].
  { repeat apply Z.div_pos; lia. }
  exists front.
  change (digits_fuel (S (S (S (S fuel)))) n)
    with (if n <? 10 then String (digit n) EmptyString
          else digits_fuel (S (S (S fuel))) (n / 10) ++ String (digit (n mod 10)) EmptyString).
  rewrite E1.
  change (digits_fuel (S (S (S fuel))) (n / 10))
    with (if n / 10 <? 10 then String (digit (n / 10)) EmptyString
          else digits_fuel (S (S fuel)) (n / 10 / 10)
               ++ String (digit ((n / 10) mod 10)) EmptyString).
  rewrite E2.
  change (digits_fuel (S (S fuel)) (n / 10 / 10))
    with (if n / 10 / 10 <? 10 then String (digit (n / 10 / 10)) EmptyString
          else digits_fuel (S fuel) (n / 10 / 10 / 10)
               ++ String (digit ((n / 10 / 10) mod 10)) EmptyString).
  rewrite E3, Hfront.
  rewrite !append_assoc. unfold_append. unfold Gen.four_digits.
  assert (D0 : n mod 10000 mod 10 = n mod 10).
  { clear - Hn. Z.div_mod_to_equations. lia. }
  assert (D1 : n mod 10000 / 10 mod 10 = n / 10 mod 10).
  { clear - Hn. Z.div_mod_to_equations. lia. }
  assert (D2 : n mod 10000 / 100 mod 10 = n / 10 / 10 mod 10).
  { clear - Hn. Z.div_mod_to_equations. lia. }
  assert (D3 : n mod 10000 / 1000 = n / 10 / 10 / 10 mod 10).
  { clear - Hn. Z.div_mod_to_equations. lia. }
  now rewrite D0, D1, D2, D3.
Qed.

Lemma slice_last_append4 (front : string) (m : Z) :
  slice_last 4 (front ++ Gen.four_digits m) = Gen.four_digits m.
Proof.
  unfold slice_last. rewrite length_append.
  replace (String.length front + String.length (Gen.four_digits m) - 4)%nat
    with (String.length front) by (unfold Gen.four_digits; simpl; lia).
  apply drop_append_exact.
Qed.

Lemma timestamp_four_digits (now : Z) :
  1000 <= now -> Gen.timestamp now = Gen.four_digits (now mod 10000).
Proof.
  intros Hn. unfold Gen.timestamp, Number_toString, digits.
  assert (E : (now <? 0) = false) by (apply Z.ltb_ge; lia). rewrite E.
  assert (Hlog : 9 <= Z.log2 now).
  { change 9 with (Z.log2 512). apply Z.log2_le_mono. lia. }
  assert (Hfuel : exists f, Z.to_nat (Z.log2 now) = S (S (S f))).
  { exists (Z.to_nat (Z.log2 now) - 3)%nat. lia. }
  destruct Hfuel as [f ->].
  destruct (digits_fuel_last4 f now Hn) as [front ->].
  apply slice_last_append4.
Qed.

Lemma digit_value (d : Z) :
  0 <= d < 10 -> Z.of_nat (nat_of_ascii (digit d)) - 48 = d.
Proof.
  intros Hd. unfold digit. rewrite nat_ascii_embedding by lia. lia.
Qed.

Lemma four_digits_value (m : Z) :
  0 <= m < 10000 -> Gen.decimal_value (Gen.four_digits m) = m.
Proof.
  intros Hm. unfold Gen.decimal_value, Gen.four_digits. simpl.
  rewrite !digit_value.
  - Z.div_mod_to_equations. lia.
  - Z.div_mod_to_equations. lia.
  - Z.div_mod_to_equations. lia.
  - Z.div_mod_to_equations. lia.
  - Z.div_mod_to_equations. lia.
Qed.

End GeneratorFacts.

(** C9.  The correlation key is the caller's reference with every
    character outside [a-zA-Z0-9] removed, cut to its first four
    characters, followed by the four decimal digits of the clock's
    millisecond count modulo 10000; it is never longer than eight
    characters.  The clock is [Date.now()], which has at least four
    digits. *)
Theorem uniqueRef_shape (reference : string) (now : Z) :
  1000 <= now ->
  Gen.uniqueRef reference now
  = take_chars 4 (filter_string is_alnum reference) ++ Gen.four_digits (now mod 10000)
  /\ String.length (Gen.timestamp now) = 4%nat
  /\ Gen.decimal_value (Gen.timestamp now) = now mod 10000
  /\ (String.length (Gen.uniqueRef reference now) <= 8)%nat.
Proof.
  intros Hn. unfold Gen.uniqueRef.
  rewrite (timestamp_four_digits now Hn). split; [reflexivity | split; [| split]].
  - reflexivity.
  - apply four_digits_value. apply Z.mod_pos_bound. lia.
  - rewrite length_append.
    pose proof (length_take_chars_le 4 (filter_string is_alnum reference)).
    change (String.length (Gen.four_digits (now mod 10000))) with 4%nat. lia.
Qed.

Lemma uniqueRef_shape_witness :
  1000 <= 1700000000042
  /\ Gen.uniqueRef "ACT-123" 1700000000042 = "ACT10042".
Proof.
  split; [lia |].
  destruct (uniqueRef_shape "ACT-123" 1700000000042 ltac:(lia)) as [H _].
  rewrite H. vm_compute. reflexivity.
Defined.

(** ** Reading object literals *)

Lemma prop_object (fs : list (string * value)) (f : string) :
  prop (object fs) f = literal_field f fs.
Proof.
  unfold object, prop.
  induction fs as [|[k [v|]] fs IH]; simpl; [reflexivity | |].
  - rewrite IH. reflexivity.
  - rewrite IH. destruct (literal_field f fs); [reflexivity |].
    destruct (String.eqb k f); reflexivity.
Qed.

Lemma opt_object (fs : list (string * value)) (f : string) :
  Some (object fs) ?> f = literal_field f fs.
Proof. unfold opt. unfold object at 1. apply prop_object. Qed.

Lemma or_else_same (v : value) : v ||| v = v.
Proof. unfold or_else. destruct (truthy v); reflexivity. Qed.

Lemma option_eta (v : value) :
  match v with Some x => Some x | None => None end = v.
Proof. destruct v; reflexivity. Qed.

(** Reads of literal objects are decided by comparing the property names. *)
Ltac decide_names :=
  repeat match goal with
         | |- context [String.eqb ?a ?b] =>
             let r := eval vm_compute in (String.eqb a b) in
             match r with
             | true => change (String.eqb a b) with true
             | false => change (String.eqb a b) with false
             end
         end.

Ltac read_fields :=
  repeat (progress (rewrite ?opt_object, ?prop_object;
                    cbn [literal_field]; decide_names; cbn [literal_field];
                    rewrite ?option_eta)).

(** ** Normalization of the webhook *)

Section Normalization.
Context `{Runtime}.

Lemma relay_Status (swiftCallback : value) (now : Z) (ok : bool) :
  Relay.completed swiftCallback = Done ok ->
  exists d,
    Relay.transformSwiftWalletCallbackToPayHero swiftCallback now = Done d
    /\ Status_of d = Some (JStr (if ok then "Success" else "Failed"))
    /\ Some d ?> "response" ?> "ExternalReference" = swiftCallback ?> "external_reference"
    /\ Some d ?> "external_reference" = swiftCallback ?> "external_reference"
    /\ Some d ?> "reference" = swiftCallback ?> "external_reference"
    /\ Some d ?> "status" = None.
Proof.
  intros Hok. unfold Relay.transformSwiftWalletCallbackToPayHero. rewrite Hok.
  cbn [and_then]. eexists. split; [reflexivity |].
  unfold Status_of. read_fields.
  repeat split; destruct (swiftCallback ?> "external_reference"); reflexivity.
Qed.

Lemma relay_completed_spec (swiftCallback : value) (ok : bool) :
  Relay.completed swiftCallback = Done ok ->
  ok = is_true (swiftCallback ?> "success") && is_token (swiftCallback ?> "status") "completed".
Proof.
  unfold Relay.completed, is_token, opt_toLowerCase, call_toLowerCase.
  destruct (is_true (swiftCallback ?> "success")); simpl; [| congruence].
  destruct (swiftCallback ?> "status") as [[| | |s| |]|]; simpl; try congruence.
  unfold is_string.
  destruct (String.eqb (toLowerCase s) "completed"); congruence.
Qed.

Lemma relay_completed_without_indicator (swiftCallback : value) :
  is_true (swiftCallback ?> "success") = false ->
  Relay.completed swiftCallback = Done false.
Proof. intros E. unfold Relay.completed. now rewrite E. Qed.

Lemma relay_completed_string_status (swiftCallback : value) (s : string) :
  swiftCallback ?> "status" = Some (JStr s) ->
  exists ok, Relay.completed swiftCallback = Done ok.
Proof.
  intros E. unfold Relay.completed. rewrite E.
  destruct (is_true (swiftCallback ?> "success")); simpl; [| eauto].
  unfold is_string. destruct (String.eqb (toLowerCase s) "completed"); eauto.
Qed.

Lemma poll_Status (swiftCallback : value) (now : Z) :
  Status_of (Poll.transformSwiftWalletCallbackToPayHero swiftCallback now)
  = Some (JStr (if is_true (swiftCallback ?> "success")
                   && (is_string (swiftCallback ?> "status") "completed"
                       || is_string (swiftCallback ?> "status") "COMPLETED")
                then "Success" else "Failed")).
Proof.
  unfold Status_of, Poll.transformSwiftWalletCallbackToPayHero.
  read_fields. reflexivity.
Qed.

Lemma exact_token_is_token (v : value) :
  is_string v "completed" || is_string v "COMPLETED" = true ->
  is_token v "completed" = true.
Proof.
  unfold is_string, is_token. destruct v as [[| | |s| |]|]; simpl; try discriminate.
  intros E. apply orb_true_iff in E as [E|E]; apply String.eqb_eq in E; subst; reflexivity.
Qed.

End Normalization.

(** C3.  Whatever the webhook payload, the normalized callback is
    [Success] only when the payload's [success] is [true] and its [status]
    is the token [completed] compared without regard to case; a payload
    without the indicator is [Failed].  This holds for the polling server's
    transform (exact [completed] or [COMPLETED]) and for the held-connection
    server's transform (lower-cased comparison), whose result is always one
    of [Success] and [Failed]. *)
Theorem success_only_when_confirmed `{Runtime} (payload : json) (now : Z) :
  let indicator := is_true (Some payload ?> "success") in
  let token := is_token (Some payload ?> "status") "completed" in
  let polled := Status_of (Poll.transformSwiftWalletCallbackToPayHero (Some payload) now) in
  (polled = Some (JStr "Success") \/ polled = Some (JStr "Failed"))
  /\ (polled = Some (JStr "Success") -> indicator = true /\ token = true)
  /\ (forall d,
        Relay.transformSwiftWalletCallbackToPayHero (Some payload) now = Done d ->
        (Status_of d = Some (JStr "Success") \/ Status_of d = Some (JStr "Failed"))
        /\ (Status_of d = Some (JStr "Success") <-> indicator = true /\ token = true))
  /\ (indicator = false ->
      polled = Some (JStr "Failed")
      /\ exists d,
           Relay.transformSwiftWalletCallbackToPayHero (Some payload) now = Done d
           /\ Status_of d = Some (JStr "Failed")).
Proof.
  cbv zeta. rewrite poll_Status.
  split; [| split; [| split]].
  - destruct (_ && _); auto.
  - destruct (is_true (Some payload ?> "success")) eqn:Ei; cbn [andb]; [| intros [=]].
    destruct (is_string (Some payload ?> "status") "completed"
              || is_string (Some payload ?> "status") "COMPLETED") eqn:Et; [| intros [=]].
    intros _. split; [reflexivity |]. apply exact_token_is_token. exact Et.
  - intros d Hd.
    destruct (Relay.completed (Some payload)) as [ok| |] eqn:Hok;
      try (unfold Relay.transformSwiftWalletCallbackToPayHero in Hd;
           rewrite Hok in Hd; discriminate).
    pose proof (relay_completed_spec _ _ Hok) as Hspec.
    destruct (relay_Status (Some payload) now ok Hok) as (d' & Hd' & HS & _).
    rewrite Hd in Hd'. injection Hd' as <-.
    rewrite HS. split.
    + destruct ok; auto.
    + rewrite Hspec.
      destruct (is_true (Some payload ?> "success")),
               (is_token (Some payload ?> "status") "completed");
        cbn [andb]; split; intros; try discriminate; intuition congruence.
  - intros Ei. rewrite Ei. cbn [andb]. split; [reflexivity |].
    destruct (relay_Status (Some payload) now false
                (relay_completed_without_indicator _ Ei)) as (d & Hd & HS & _).
    exists d. split; [exact Hd | exact HS].
Qed.

(** ** Requests without a phone number *)

Section MissingPhone.
Context `{Runtime}.

Lemma receiver_not_a_string (v : value) (method : string) :
  is_a_string v = false ->
  exists e, receiver v method = Raised e /\ err_name e = "TypeError".
Proof.
  intros Hv. destruct v as [[| | |s| |]|]; simpl; eauto. discriminate.
Qed.

Lemma dot_TypeError (v : value) (f : string) (e : js_error) :
  dot v f = Raised e -> err_name e = "TypeError".
Proof. destruct v as [[]|]; simpl; intros [=]; subst; reflexivity. Qed.

Lemma dot_object (fs : list (string * json)) (f : string) :
  dot (Some (JObj fs)) f = Done (field f fs).
Proof. reflexivity. Qed.

(** The destructuring of [req.body] and the phone-prefix check, shared by
    every revision of [/api/pay]. *)
Lemma phone_check_throws (body : json) :
  is_a_string (prop body "phone") = false ->
  exists e,
    err_name e = "TypeError"
    /\ (body <> JNull -> receiver (prop body "phone") "startsWith" = Raised e)
    /\ ((exists p, dot (Some body) "phone" = Done p /\ receiver p "startsWith" = Raised e)
        \/ dot (Some body) "phone" = Raised e).
Proof.
  intros Hp. destruct body as [| b | n | s | xs | fs].
  - eexists. split; [| split; [congruence | right; reflexivity]]. reflexivity.
  - destruct (receiver_not_a_string _ "startsWith" Hp) as (e & He & Hn).
    exists e. split; [exact Hn | split; [intros _; exact He | left; eauto]].
  - destruct (receiver_not_a_string _ "startsWith" Hp) as (e & He & Hn).
    exists e. split; [exact Hn | split; [intros _; exact He | left; eauto]].
  - destruct (receiver_not_a_string _ "startsWith" Hp) as (e & He & Hn).
    exists e. split; [exact Hn | split; [intros _; exact He | left; eauto]].
  - destruct (receiver_not_a_string _ "startsWith" Hp) as (e & He & Hn).
    exists e. split; [exact Hn | split; [intros _; exact He | left; eauto]].
  - destruct (receiver_not_a_string _ "startsWith" Hp) as (e & He & Hn).
    exists e. split; [exact Hn | split; [intros _; exact He | left; eauto]].
Qed.

End MissingPhone.

(** C10.  A [/api/pay] request whose body has no string [phone] ends in a
    TypeError thrown by [phone.startsWith('254')], outside every [try]: the
    provider is not called, nothing is registered and nothing is written to
    the response, so the caller never receives the handler's Failure JSON.
    This holds for the first PayHero server and for the held-connection
    server, whatever the provider would have answered. *)
Theorem pay_without_phone_throws `{Runtime} (body : json)
    (answer : api_result) (provider : nat -> api_result)
    (v : world Cache.Memory) (w : world Relay.Memory) :
  is_a_string (prop body "phone") = false ->
  exists e,
    err_name e = "TypeError"
    /\ (body <> JNull -> receiver (prop body "phone") "startsWith" = Raised e)
    /\ serve (PayHero.pay body answer) v
       = (Raised e, with_next_handle (S (next_handle v)) v)
    /\ serve (Relay.pay body provider) w
       = (Raised e, with_next_handle (S (next_handle w)) w)
    /\ serve (Relay.pay_begin body) w
       = (Raised e, with_next_handle (S (next_handle w)) w).
Proof.
  intros Hp. destruct (phone_check_throws body Hp) as (e & Hn & Hr & Hd).
  exists e. split; [exact Hn | split; [exact Hr |]].
  assert (Hbegin : serve (Relay.pay_begin body) w
                   = (Raised e, with_next_handle (S (next_handle w)) w)).
  { unfold serve, Relay.pay_begin, bind, accept, lift.
    destruct Hd as [(p & Hd & Hrp) | Hd]; rewrite Hd; [| reflexivity].
    destruct (dot (Some body) "amount") as [a| |] eqn:Ha;
      [| destruct body; discriminate | destruct body; discriminate].
    destruct (dot (Some body) "reference") as [r| |] eqn:Hr';
      [| destruct body; discriminate | destruct body; discriminate].
    destruct (dot (Some body) "user_id") as [u| |] eqn:Hu;
      [| destruct body; discriminate | destruct body; discriminate].
    rewrite Hrp. reflexivity. }
  split; [| split; [| exact Hbegin]].
  - unfold serve, PayHero.pay, bind, accept, lift.
    destruct Hd as [(p & Hd & Hrp) | Hd]; rewrite Hd; [| reflexivity].
    destruct (dot (Some body) "amount") as [a| |] eqn:Ha;
      [| destruct body; discriminate | destruct body; discriminate].
    destruct (dot (Some body) "reference") as [r| |] eqn:Hr';
      [| destruct body; discriminate | destruct body; discriminate].
    rewrite Hrp. reflexivity.
  - unfold serve, bind at 1, accept at 1. unfold Relay.pay, bind at 1.
    unfold serve, bind at 1, accept at 1 in Hbegin. rewrite Hbegin. reflexivity.
Qed.

(** ** The retry loop of the initiation call *)

Lemma retry_loop_run `{Runtime} (payload : json) (provider : nat -> api_result)
    (w : world Relay.Memory) :
  let n := Relay.last_attempt provider in
  (1 <= n <= 3)%nat
  /\ Relay.call_with_retry 3 1 payload provider w
     = (match provider n with
        | ApiOk status data => Done (status, data)
        | ApiFail e => Raised e
        end,
        with_sleeps (sleeps w ++ repeat 2000 (n - 1))
          (with_api_calls (api_calls w ++ repeat payload n) w)).
Proof.
  cbv zeta. unfold Relay.last_attempt.
  destruct w as [m s d ds ac sl c nh].
  unfold Relay.call_with_retry, bind, log_api_call, sleep, ret, throw,
    with_sleeps, with_api_calls; cbn [Nat.leb Nat.ltb].
  destruct (provider 1%nat) as [s1 d1|e1] eqn:E1; cbn.
  - rewrite E1. split; [lia |]. now rewrite app_nil_r.
  - destruct (provider 2%nat) as [s2 d2|e2] eqn:E2; cbn.
    + rewrite E2. split; [lia |]. now rewrite <- !app_assoc.
    + destruct (provider 3%nat) as [s3 d3|e3] eqn:E3; cbn;
        (split; [lia |]); now rewrite <- !app_assoc.
Qed.


(** ** Response sinks *)

Section Sinks.
Context {R : Type}.

Lemma writes_to_app (w : world R) (h : nat) (more : list (nat * Response)) :
  writes_to (with_sent (sent w ++ more) w) h
  = (writes_to w h ++ map snd (filter (fun p => fst p = h) more))%list.
Proof. unfold writes_to. cbn [sent with_sent]. now rewrite filter_app, map_app. Qed.

Lemma unanswered_no_writes (w : world R) (h : nat) :
  answered w h = false -> writes_to w h = [].
Proof.
  unfold answered, writes_to. induction (sent w) as [|[h' r] l IH]; [reflexivity |].
  cbn [existsb fst]. intros E. apply orb_false_iff in E as [E1 E2].
  apply Nat.eqb_neq in E1. rewrite filter_cons_False by (cbn; congruence). auto.
Qed.

(** A write, successful or not, leaves every other sink as it was. *)
Lemma respond_frame (h' : nat) (c : Z) (b : json) (w : world R) :
  let w' := snd (respond h' c b w) in
  memory w' = memory w /\ db w' = db w /\ db_script w' = db_script w
  /\ next_handle w' = next_handle w /\ clock w' = clock w
  /\ forall h, h <> h' -> writes_to w' h = writes_to w h.
Proof.
  unfold respond. destruct (answered w h'); cbn [snd]; repeat split; try reflexivity.
  intros h Hne. rewrite writes_to_app. cbn [filter].
  rewrite filter_cons_False by (cbn; congruence). cbn. now rewrite app_nil_r.
Qed.

Lemma respond_unanswered (h : nat) (c : Z) (b : json) (w : world R) :
  answered w h = false ->
  respond h c b w = (Done tt, with_sent (sent w ++ [(h, {| code := c; body := b |})]) w).
Proof. intros E. unfold respond. now rewrite E. Qed.

End Sinks.

(** ** The held-connection server, step by step *)

Section RelaySteps.
Context `{Runtime}.

Lemma status_of_class (ok : bool) :
  upper_or_null (Some (JStr (if ok then "Success" else "Failed")) ||| None)
  = Done (JStr (if ok then "SUCCESS" else "FAILED")).
Proof. destruct ok; reflexivity. Qed.

(** Storing the callback never fails the handler. *)
Lemma store_callback_done (externalRef : value) (status : json) (data : value)
    (w : world Relay.Memory) :
  exists w',
    Relay.store_callback externalRef status data w = (Done tt, w')
    /\ memory w' = memory w /\ sent w' = sent w /\ next_handle w' = next_handle w
    /\ clock w' = clock w
    /\ (db_script w = [] ->
        db_script w' = []
        /\ payment_callbacks (db w')
           = (payment_callbacks (db w)
              ++ [(clock w, object [("external_reference", externalRef);
                                    ("callback_data", data);
                                    ("status", Some status)])])%list).
Proof.
  destruct w as [m s d ds ac sl c nh].
  unfold Relay.store_callback, try_catch, bind, Store.insert_callback, Store.call,
    get_world, next_fault, set_db, ret, throw.
  cbn [db_script clock db].
  destruct ds as [|[|e|e] ds]; cbn; eexists; (split; [reflexivity |]);
    (split; [reflexivity |]); (split; [reflexivity |]); (split; [reflexivity |]);
    (split; [reflexivity |]); intros E; try discriminate E; split; reflexivity.
Qed.


Lemma choose_gateway_string (ref : string) :
  Relay.choose_gateway (Some (JStr ref)) = Done (Relay.route ref).
Proof.
  unfold Relay.choose_gateway, Relay.route. cbn [truthy receiver and_then].
  destruct (negb (String.eqb ref "")); reflexivity.
Qed.

(** The synchronous part of [/api/pay] registers the request. *)
Lemma pay_begin_registers (fs : list (string * json)) (p ref : string)
    (w0 : world Relay.Memory) :
  field "phone" fs = Some (JStr p) ->
  field "reference" fs = Some (JStr ref) ->
  exists rq payload,
    serve (Relay.pay_begin (JObj fs)) w0
    = (Done tt,
       with_memory (Relay.register rq payload (memory w0))
         (with_next_handle (S (next_handle w0)) w0))
    /\ Relay.res rq = next_handle w0
    /\ Relay.resolved rq = false
    /\ Relay.uniqueRef rq = Gen.uniqueRef ref (clock w0)
    /\ Relay.gateway rq = Relay.route ref.
Proof.
  intros Hp Hr.
  unfold serve, Relay.pay_begin.
  unfold bind, accept, lift, get_world, ret, Relay.modify_memory, set_memory.
  rewrite !dot_object, Hp, Hr, choose_gateway_string.
  cbn [receiver memory with_memory with_next_handle clock next_handle].
  eexists _, _. split; [reflexivity |]. repeat split.
Qed.

(** Once the provider has accepted the push, the request is registered
    again and its timer is set to fire 120000 ms later. *)
Lemma pay_finish_schedules (w : world Relay.Memory) (h : nat) (payload : json)
    (rq : Relay.PendingRequest) (provider : nat -> api_result) :
  Relay.awaiting (memory w) !! h = Some payload ->
  Relay.objects (memory w) !! h = Some rq ->
  Relay.accepts (Relay.gateway rq) provider = true ->
  exists w' f,
    Relay.pay_finish h provider w = (Done tt, w')
    /\ Relay.keeps_identity f
    /\ memory w'
       = Relay.timer_add {| Relay.due := clock w + 120000;
                            Relay.timer_ref := Relay.uniqueRef rq;
                            Relay.timer_gateway := Relay.gateway rq |}
           (Relay.registry_set (Relay.uniqueRef rq) h
              (Relay.object_update h f
                 (Relay.set_awaiting (delete h (Relay.awaiting (memory w))) (memory w))))
    /\ sent w' = sent w /\ next_handle w' = next_handle w /\ clock w' = clock w
    /\ db_script w' = db_script w /\ db w' = db w.
Proof.
  intros Haw Hobj Hacc.
  destruct w as [m s d ds ac sl c nh]. cbn [memory] in Haw, Hobj.
  unfold Relay.pay_finish. unfold bind at 1. unfold get_world at 1. cbn [memory].
  rewrite Haw, Hobj.
  unfold bind at 1. unfold Relay.modify_memory at 1, bind at 1, get_world at 1, set_memory at 1.
  cbn iota. unfold Relay.accepts in Hacc.
  destruct (Relay.gateway rq) eqn:Egw.
  - destruct (provider 1%nat) as [st data|e] eqn:E1; [| discriminate].
    unfold try_catch, bind, log_api_call, Relay.modify_memory, Relay.schedule_timeout,
      get_world, set_memory, bind.
    rewrite ?E1. cbn.
    eexists _, (Relay.set_payheroResponse data).
    split; [reflexivity |]. split; [intros r; repeat split |].
    repeat split.
  - pose proof (retry_loop_run payload provider
                  (with_memory (Relay.set_awaiting (delete h (Relay.awaiting m)) m)
                     {| memory := m; sent := s; db := d; db_script := ds; api_calls := ac;
                        sleeps := sl; clock := c; next_handle := nh |})) as [_ Hloop].
    unfold try_catch. unfold bind at 1. cbn [memory] in Hloop |- *. rewrite Hloop.
    destruct (provider (Relay.last_attempt provider)) as [st data|e] eqn:El; [| discriminate].
    unfold bind, Relay.modify_memory, Relay.schedule_timeout, get_world, set_memory.
    cbn.
    eexists _, (Relay.set_swiftResponse data).
    split; [reflexivity |]. split; [intros r; repeat split |].
    repeat split.
Qed.

Lemma notify_waiting_hit (externalRef : value) (status : json) (data : value)
    (w : world Relay.Memory) (o : nat) (r : Relay.PendingRequest) :
  Relay.registry_get externalRef (memory w) = Some (o, r) ->
  Relay.resolved r = false ->
  answered w (Relay.res r) = false ->
  exists b,
    Relay.notify_waiting externalRef status data w
    = (Done tt,
       with_memory
         (Relay.registry_delete externalRef
            (Relay.object_update o (Relay.set_resolved true) (memory w)))
         (with_sent (sent w ++ [(Relay.res r, {| code := 200; body := b |})]) w)).
Proof.
  intros Hget Hres Hans. destruct w as [m s d ds ac sl c nh].
  unfold Relay.notify_waiting, bind, get_world. cbn [memory] in *.
  rewrite Hget, Hres. cbn [negb].
  unfold Relay.modify_memory, bind, get_world, set_memory, respond.
  unfold answered in *. cbn [memory with_memory sent] in *. rewrite Hans.
  eexists. reflexivity.
Qed.

Lemma notify_waiting_miss (externalRef : value) (status : json) (data : value)
    (w : world Relay.Memory) :
  Relay.registry_get externalRef (memory w) = None ->
  Relay.notify_waiting externalRef status data w = (Done tt, w).
Proof.
  intros Hget. unfold Relay.notify_waiting, bind, get_world. now rewrite Hget.
Qed.



Lemma registry_get_Some (key : value) (m : Relay.Memory) (o : nat)
    (r : Relay.PendingRequest) :
  Relay.registry_get key m = Some (o, r) ->
  exists k, key = Some (JStr k)
            /\ Relay.transactionStatuses m !! k = Some o
            /\ Relay.objects m !! o = Some r.
Proof.
  unfold Relay.registry_get.
  destruct key as [[| | |k| |]|]; try discriminate.
  destruct (Relay.transactionStatuses m !! k) as [o'|] eqn:Ereg; [| discriminate].
  destruct (Relay.objects m !! o') as [r'|] eqn:Eobj; [| discriminate].
  intros [= <- <-]. eauto.
Qed.


Lemma waiting_inv (w : world Relay.Memory) (k : string) (h : nat) :
  Relay.waiting w k h = true ->
  exists r,
    Relay.registry_get (Some (JStr k)) (memory w) = Some (h, r)
    /\ Relay.res r = h /\ Relay.resolved r = false /\ answered w h = false.
Proof.
  unfold Relay.waiting.
  destruct (Relay.registry_get (Some (JStr k)) (memory w)) as [[o r]|]; [| discriminate].
  intros E. apply andb_true_iff in E as [E Ha]. apply andb_true_iff in E as [E Hr].
  apply andb_true_iff in E as [Eo Eh].
  apply Nat.eqb_eq in Eo, Eh. apply negb_true_iff in Ha, Hr. subst o.
  exists r. auto.
Qed.





(** *** Events that leave a waiting key alone *)

Lemma preserves_ret {A} (k : string) (h : nat) (a : A) : preserves k h (ret a).
Proof. intros w Hw. exact Hw. Qed.

Lemma preserves_lift {A} (k : string) (h : nat) (o : outcome A) : preserves k h (lift o).
Proof. intros w Hw. exact Hw. Qed.

Lemma preserves_throw {A} (k : string) (h : nat) (e : js_error) :
  preserves k h (throw (A := A) e).
Proof. intros w Hw. exact Hw. Qed.

Lemma preserves_leave {A} (k : string) (h : nat) : preserves k h (leave (A := A)).
Proof. intros w Hw. exact Hw. Qed.












Lemma with_sent_same {R} (w : world R) : with_sent (sent w ++ []) w = w.
Proof. destruct w. unfold with_sent. cbn. now rewrite app_nil_r. Qed.

Lemma notify_waiting_world (externalRef : value) (status : json) (data : value)
    (w : world Relay.Memory) :
  snd (Relay.notify_waiting externalRef status data w) = w
  \/ exists o r s (del : bool),
       Relay.registry_get externalRef (memory w) = Some (o, r)
       /\ (forall p, In p s -> fst p = Relay.res r)
       /\ snd (Relay.notify_waiting externalRef status data w)
          = with_memory
              ((if del then Relay.registry_delete externalRef else fun m => m)
                 (Relay.object_update o (Relay.set_resolved true) (memory w)))
              (with_sent (sent w ++ s) w).
Proof.
  destruct (Relay.registry_get externalRef (memory w)) as [[o r]|] eqn:Hget.
  - destruct (Relay.resolved r) eqn:Hres.
    + left. unfold Relay.notify_waiting, bind, get_world. now rewrite Hget, Hres.
    + right. destruct (answered w (Relay.res r)) eqn:Hans.
      * exists o, r, ([] : list (nat * Response)), false. split; [reflexivity |]. split; [intros p []|].
        rewrite with_sent_same.
        destruct w as [m s d ds ac sl c nh].
        unfold Relay.notify_waiting, bind, get_world. cbn [memory] in *.
        rewrite Hget, Hres. cbn [negb].
        unfold Relay.modify_memory, bind, get_world, set_memory, respond.
        unfold answered in *. cbn [memory with_memory sent] in *. now rewrite Hans.
      * destruct (notify_waiting_hit externalRef status data w o r Hget Hres Hans)
          as (b & E).
        exists o, r, [(Relay.res r, {| code := 200; body := b |})], true.
        split; [reflexivity |]. split.
        -- intros p [<- | []]. reflexivity.
        -- rewrite E. reflexivity.
  - left. now rewrite notify_waiting_miss.
Qed.





Lemma transform_Done_inv (swiftCallback : value) (now : Z) (d : json) :
  Relay.transformSwiftWalletCallbackToPayHero swiftCallback now = Done d ->
  exists ok, Relay.completed swiftCallback = Done ok.
Proof.
  unfold Relay.transformSwiftWalletCallbackToPayHero.
  destruct (Relay.completed swiftCallback); try discriminate. eauto.
Qed.

Lemma transform_reference (swiftCallback : value) (now : Z) (d : json) :
  Relay.transformSwiftWalletCallbackToPayHero swiftCallback now = Done d ->
  Some d ?> "response" ?> "ExternalReference" ||| Some d ?> "external_reference"
  ||| Some d ?> "reference"
  = swiftCallback ?> "external_reference".
Proof.
  intros Hd. destruct (transform_Done_inv _ _ _ Hd) as (ok & Hok).
  destruct (relay_Status swiftCallback now ok Hok) as (d' & Hd' & _ & HE & He & Hr & _).
  rewrite Hd in Hd'. injection Hd' as <-.
  now rewrite HE, He, Hr, !or_else_same.
Qed.











(** A request the provider accepted is left waiting under its key, with
    its timer set 120000 ms ahead. *)
Lemma pay_holds (fs : list (string * json)) (p ref : string)
    (provider : nat -> api_result) (w0 : world Relay.Memory) :
  field "phone" fs = Some (JStr p) ->
  field "reference" fs = Some (JStr ref) ->
  Relay.accepts (Relay.route ref) provider = true ->
  Relay.well_formed w0 ->
  answered w0 (next_handle w0) = false ->
  let h := next_handle w0 in
  let k := Gen.uniqueRef ref (clock w0) in
  let w1 := snd (serve (Relay.pay (JObj fs) provider) w0) in
  Relay.held w1 k h
  /\ Relay.timers (memory w1)
     = (Relay.timers (memory w0)
        ++ [{| Relay.due := clock w0 + 120000; Relay.timer_ref := k;
               Relay.timer_gateway := Relay.route ref |}])%list
  /\ writes_to w1 h = [].
Proof.
  intros Hp Hr Hacc (Hobj0 & Hreg0) Hans. cbv zeta.
  destruct (pay_begin_registers fs p ref w0 Hp Hr)
    as (rq & payload & Hbegin & Hres & Hunres & Hkey & Hgw).
  assert (Hserve : serve (Relay.pay (JObj fs) provider) w0
                   = Relay.pay_finish (next_handle w0) provider
                       (with_memory (Relay.register rq payload (memory w0))
                          (with_next_handle (S (next_handle w0)) w0))).
  { unfold serve, bind at 1, accept at 1 in Hbegin.
    unfold serve, bind at 1, accept at 1. unfold Relay.pay, bind at 1.
    now rewrite Hbegin. }
  rewrite Hserve. clear Hserve Hbegin.
  set (wA := with_memory (Relay.register rq payload (memory w0))
               (with_next_handle (S (next_handle w0)) w0)).
  assert (Haw : Relay.awaiting (memory wA) !! next_handle w0 = Some payload).
  { cbn [wA memory with_memory Relay.register Relay.set_awaiting Relay.awaiting].
    rewrite Hres. apply lookup_insert_eq. }
  assert (Hob : Relay.objects (memory wA) !! next_handle w0 = Some rq).
  { cbn [wA memory with_memory Relay.register Relay.set_awaiting Relay.registry_set
         Relay.object_new Relay.objects].
    rewrite Hres. apply lookup_insert_eq. }
  rewrite <- Hgw in Hacc.
  destruct (pay_finish_schedules wA (next_handle w0) payload rq provider Haw Hob Hacc)
    as (w1 & f & Hfin & Hf & Hm & Hs & Hn & Hc & _).
  rewrite Hfin. cbn [snd].
  destruct (Hf rq) as (Hfres & Hfunres & _).
  assert (Hreg1 : Relay.transactionStatuses (memory w1)
                  = <[Gen.uniqueRef ref (clock w0) := next_handle w0]>
                      (<[Gen.uniqueRef ref (clock w0) := next_handle w0]>
                         (Relay.transactionStatuses (memory w0)))).
  { rewrite Hm. cbn [wA memory with_memory Relay.timer_add Relay.registry_set
                     Relay.object_update Relay.set_awaiting Relay.register
                     Relay.object_new Relay.transactionStatuses].
    now rewrite Hkey, Hres. }
  assert (Hobj1 : Relay.objects (memory w1)
                  = alter f (next_handle w0)
                      (<[next_handle w0 := rq]> (Relay.objects (memory w0)))).
  { rewrite Hm. cbn [wA memory with_memory Relay.timer_add Relay.registry_set
                     Relay.object_update Relay.set_awaiting Relay.register
                     Relay.object_new Relay.objects].
    now rewrite Hres. }
  assert (Hans1 : answered w1 (next_handle w0) = false).
  { unfold answered in *. now rewrite Hs. }
  split; [| split].
  - unfold Relay.held, Relay.waiting, Relay.registry_get.
    rewrite Hreg1, Hobj1, lookup_insert_eq, lookup_alter_eq, lookup_insert_eq.
    cbn [fmap option_fmap option_map]. rewrite Hfres, Hfunres, Hres, Hunres, Hans1.
    rewrite !Nat.eqb_refl. repeat split.
    + rewrite Hn. cbn. lia.
    + intros k' E. rewrite insert_insert_eq in E.
      apply lookup_insert_Some in E as [[E _] | [_ E]]; [now subst |].
      specialize (Hreg0 k' _ E). cbn in Hreg0. lia.
    + intros o r E. apply lookup_alter_Some in E as [(<- & r0 & E0 & ->) | (Hne & E)].
      * rewrite lookup_insert_eq in E0. injection E0 as <-. now rewrite Hfres.
      * rewrite lookup_insert_ne in E by congruence. now apply (Hobj0 o r).
  - rewrite Hm. cbn [wA memory with_memory Relay.timer_add Relay.registry_set
                     Relay.object_update Relay.set_awaiting Relay.register
                     Relay.object_new Relay.timers].
    cbn [wA clock with_memory with_next_handle]. now rewrite Hkey, Hgw.
  - now apply unanswered_no_writes.
Qed.

End RelaySteps.

(** ** Stepping through monadic code *)

Section Stepping.
Context {R : Type}.

Lemma bind_done {A B} (m : Exec.M R A) (k : A -> Exec.M R B) (w w' : world R) (a : A) :
  m w = (Done a, w') -> bind m k w = k a w'.
Proof. intros E. unfold bind. now rewrite E. Qed.


(** A healthy store performs the call. *)
Lemma call_healthy {A} (effect : Db -> Db) (data : Db -> A) (nothing : A) (w : world R) :
  db_script w = [] ->
  Store.call effect data nothing w = (Done (data (db w), None), with_db (effect (db w)) w).
Proof.
  intros E. unfold Store.call, bind, next_fault, get_world, set_db, ret. now rewrite E.
Qed.

Lemma insert_callback_healthy (row : json) (w : world R) :
  db_script w = [] ->
  Store.insert_callback row w
  = (Done None, with_db (Store.add_callback (clock w) row (db w)) w).
Proof.
  intros E. unfold Store.insert_callback.
  unfold bind at 1, get_world at 1. cbn iota.
  now rewrite (bind_done _ _ _ _ _ (call_healthy _ _ _ w E)).
Qed.

Lemma insert_transaction_healthy (row : json) (w : world R) :
  db_script w = [] ->
  Store.insert_transaction row w
  = (Done None, with_db (Store.add_transaction row (db w)) w).
Proof.
  intros E. unfold Store.insert_transaction.
  now rewrite (bind_done _ _ _ _ _ (call_healthy _ _ _ w E)).
Qed.

Lemma rpc_healthy (name : string) (args : json) (w : world R) :
  db_script w = [] ->
  Store.rpc name args w = (Done None, with_db (Store.add_rpc name args (db w)) w).
Proof.
  intros E. unfold Store.rpc.
  now rewrite (bind_done _ _ _ _ _ (call_healthy _ _ _ w E)).
Qed.

End Stepping.

(** ** Rows and columns *)

Lemma field_app (f : string) (l1 l2 : list (string * json)) :
  field f (l1 ++ l2) = match field f l2 with Some x => Some x | None => field f l1 end.
Proof.
  induction l1 as [|[k v] l1 IH]; cbn [app field].
  - now destruct (field f l2).
  - rewrite IH. destruct (field f l2); [reflexivity |]. reflexivity.
Qed.

Lemma field_remove_key_ne (k f : string) (fs : list (string * json)) :
  k <> f -> field f (remove_key k fs) = field f fs.
Proof.
  intros Hne. induction fs as [|[k' v] fs IH]; [reflexivity |].
  cbn [remove_key field]. destruct (String.eqb k' k) eqn:E.
  - apply String.eqb_eq in E. subst k'. rewrite IH.
    destruct (field f fs); [reflexivity |].
    apply String.eqb_neq in Hne. now rewrite Hne.
  - cbn [field]. now rewrite IH.
Qed.

Lemma prop_assign_ne (k f : string) (v : value) (o : json) :
  k <> f -> prop (assign k v o) f = prop o f.
Proof.
  intros Hne. unfold assign. destruct o as [| | | | |fs];
    try (rewrite prop_object; cbn [literal_field prop];
         apply String.eqb_neq in Hne; now rewrite Hne).
  cbn [prop]. rewrite field_app, field_remove_key_ne by exact Hne.
  destruct v as [j|]; cbn [field]; [| reflexivity].
  apply String.eqb_neq in Hne. now rewrite Hne.
Qed.

Lemma prop_assign_all_ne (changes : list (string * value)) (f : string) (o : json) :
  Forall (fun c => fst c <> f) changes -> prop (assign_all changes o) f = prop o f.
Proof.
  revert o. induction changes as [|[k v] changes IH]; intros o Hall; [reflexivity |].
  apply Forall_cons in Hall as [Hk Hall]. cbn [assign_all].
  rewrite IH by exact Hall. now apply prop_assign_ne.
Qed.

Lemma update_rows_filter (col : string) (v : value) (changes : list (string * value))
    (rows : list json) :
  Forall (fun c => fst c <> col) changes ->
  filter (fun r => Store.column_is col v r) (Store.update_rows col v changes rows)
  = map (assign_all changes) (filter (fun r => Store.column_is col v r) rows).
Proof.
  intros Hall. unfold Store.update_rows.
  induction rows as [|r rows IH]; [reflexivity |].
  cbn [map]. destruct (Store.column_is col v r) eqn:E.
  - rewrite !filter_cons_True.
    + cbn [map]. now rewrite IH.
    + now rewrite E.
    + unfold Store.column_is in *. rewrite prop_assign_all_ne by exact Hall. now rewrite E.
  - rewrite !filter_cons_False; [exact IH | now rewrite E | now rewrite E].
Qed.

(** ** One delivery of a success webhook to the first PayHero server *)

Section Deliveries.
Context `{Runtime}.

Lemma confirms_inv (body : json) :
  PayHero.confirms body = true ->
  truthy (PayHero.reference_of body) = true
  /\ exists status, PayHero.status_of body = Done status
                    /\ lower_is status "success" = Done true.
Proof.
  unfold PayHero.confirms. intros E. apply andb_true_iff in E as [E1 E2].
  split; [exact E1 |].
  destruct (PayHero.status_of body) as [status| |]; try discriminate.
  exists status. split; [reflexivity |].
  destruct (lower_is status "success") as [[]| |]; try discriminate. reflexivity.
Qed.

(** With a healthy store and one payment row for the reference, the handler
    runs the whole success branch: the callback is stored, the payment row
    updated, and one row goes to the ledger. *)
Lemma payhero_callback_success (body : json) (res : nat) (w : world Cache.Memory) (r : json) :
  db_script w = [] ->
  PayHero.confirms body = true ->
  PayHero.payments_of body (db w) = [r] ->
  exists d r',
    PayHero.callback body res w = sendStatus res 200 (with_db d w)
    /\ PayHero.payments_of body d = [r']
    /\ length (payment_callbacks d) = S (length (payment_callbacks (db w)))
    /\ length (transactions d) = S (length (transactions (db w))).
Proof.
  intros Hs Hc Hrow.
  destruct (confirms_inv body Hc) as (Href & status & Hst & Hlow).
  unfold PayHero.status_of in Hst. unfold PayHero.reference_of in Href.
  unfold PayHero.payments_of in *. unfold PayHero.reference_of in Hrow |- *.
  unfold PayHero.callback.
  unfold bind at 1. unfold try_catch at 1.
  unfold bind at 1. unfold lift at 1. rewrite Hst. cbn iota.
  rewrite Href.
  unfold bind at 1. unfold try_catch at 1.
  rewrite (bind_done _ _ _ _ _ (insert_callback_healthy _ w Hs)).
  unfold ret at 1. cbn iota.
  unfold bind at 1. unfold lift at 1. rewrite Hlow. cbn iota.
  unfold bind at 1. unfold get_world at 1. cbn iota.
  match goal with |- context [with_db ?d w] => set (w1 := with_db d w) end.
  assert (Hs1 : db_script w1 = []) by exact Hs.
  unfold Store.update_activation_payment.
  rewrite (bind_done _ _ _ _ _ (call_healthy _ _ _ w1 Hs1)).
  cbn [fst].
  change (activation_payments (db w1)) with (activation_payments (db w)).
  rewrite update_rows_filter by (repeat constructor; cbn [fst]; discriminate).
  rewrite Hrow. cbn [map Store.single].
  unfold Store.project at 1. unfold object at 1. cbn [truthy].
  match goal with |- context [with_db ?d w1] => set (w2 := with_db d w1) end.
  assert (Hs2 : db_script w2 = []) by exact Hs.
  unfold Store.update_user.
  rewrite (bind_done _ _ _ _ _ (call_healthy _ _ _ w2 Hs2)).
  match goal with |- context [with_db ?d w2] => set (w3 := with_db d w2) end.
  assert (Hs3 : db_script w3 = []) by exact Hs.
  rewrite (bind_done _ _ _ _ _ (rpc_healthy _ _ w3 Hs3)).
  match goal with |- context [with_db ?d w3] => set (w4 := with_db d w3) end.
  assert (Hs4 : db_script w4 = []) by exact Hs.
  rewrite (bind_done _ _ _ _ _ (insert_transaction_healthy _ w4 Hs4)).
  unfold ret at 1. cbn iota.
  match goal with |- context [with_db ?d w4] => exists d end.
  eexists. split; [reflexivity |].
  split.
  - cbn [Store.add_transaction activation_payments db with_db w4 w3 w2 w1 Store.add_rpc
           Store.set_users Store.set_activation_payments].
    rewrite update_rows_filter by (repeat constructor; cbn [fst]; discriminate).
    cbn [db Store.add_callback activation_payments with_db].
    rewrite Hrow. reflexivity.
  - cbn [Store.add_transaction payment_callbacks transactions db with_db w4 w3 w2 w1
           Store.add_rpc Store.set_users Store.set_activation_payments Store.add_callback].
    rewrite !length_app. cbn [length]. split; lia.
Qed.

(** The delivery leaves the store healthy and the payment row in place, so
    the next delivery meets the same conditions. *)
Lemma payhero_success_delivery (body : json) (w : world Cache.Memory) (r : json) :
  db_script w = [] ->
  PayHero.confirms body = true ->
  PayHero.payments_of body (db w) = [r] ->
  let w' := snd (serve (PayHero.callback body) w) in
  db_script w' = []
  /\ (exists r', PayHero.payments_of body (db w') = [r'])
  /\ stored w' = S (stored w)
  /\ ledger w' = S (ledger w)
  /\ memory w' = memory w.
Proof.
  intros Hs Hc Hrow. cbv zeta.
  set (w0 := with_next_handle (S (next_handle w)) w).
  change (serve (PayHero.callback body) w) with (PayHero.callback body (next_handle w) w0).
  destruct (payhero_callback_success body (next_handle w) w0 r Hs Hc Hrow)
    as (d & r' & -> & Hr' & Hcb & Htx).
  pose proof (respond_frame (next_handle w) 200 (JStr "OK") (with_db d w0)) as F.
  cbv zeta in F. destruct F as (Hmem & Hdb & Hscript & _).
  change (sendStatus (next_handle w) 200 (with_db d w0))
    with (respond (next_handle w) 200 (JStr "OK") (with_db d w0)).
  unfold stored, ledger. rewrite Hdb, Hscript, Hmem.
  repeat split; try assumption. now exists r'.
Qed.

End Deliveries.

(** ** What a handler keeps *)

Section Keeping.
Context {R : Type} (P : world R -> Prop).

Lemma keeps_ret {A} (a : A) : keeps P (ret a).
Proof. intros w Hw. exact Hw. Qed.

Lemma keeps_lift {A} (o : outcome A) : keeps P (lift o).
Proof. intros w Hw. exact Hw. Qed.

Lemma keeps_throw {A} (e : js_error) : keeps P (throw (A := A) e).
Proof. intros w Hw. exact Hw. Qed.

Lemma keeps_leave {A} : keeps P (leave (A := A)).
Proof. intros w Hw. exact Hw. Qed.

Lemma keeps_get_world : keeps P get_world.
Proof. intros w Hw. exact Hw. Qed.

Lemma keeps_bind {A B} (m : Exec.M R A) (f : A -> Exec.M R B) :
  keeps P m -> (forall a, keeps P (f a)) -> keeps P (bind m f).
Proof.
  intros Hm Hf w Hw. unfold bind. specialize (Hm w Hw).
  destruct (m w) as [[a|e|] w']; cbn [snd] in *; [apply Hf |..]; exact Hm.
Qed.

Lemma keeps_try_catch {A} (m : Exec.M R A) (handler : js_error -> Exec.M R A) :
  keeps P m -> (forall e, keeps P (handler e)) -> keeps P (try_catch m handler).
Proof.
  intros Hm Hh w Hw. unfold try_catch. specialize (Hm w Hw).
  destruct (m w) as [[a|e|] w']; cbn [snd] in *; [exact Hm | now apply Hh | exact Hm].
Qed.

End Keeping.

(** No handler of the polling server takes a record out of its map: the
    only writes are [transactionStatuses.set]. *)

Section Remembering.
Context `{Runtime} (key : map_key).











End Remembering.

(** ** The status lookup, revision by revision *)

Section Lookup.
Context `{Runtime}.

Lemma respond_writes {R} (h : nat) (c : Z) (b : json) (w : world R) :
  answered w h = false ->
  writes_to (snd (respond h c b w)) h = [{| code := c; body := b |}].
Proof.
  intros E. rewrite (respond_unanswered h c b w E). cbn [snd].
  rewrite writes_to_app, (unanswered_no_writes w h E). cbn [filter].
  rewrite filter_cons_True by reflexivity. reflexivity.
Qed.


Lemma select_latest_healthy {R} (ref : string) (w : world R) :
  db_script w = [] ->
  Store.select_latest_callback ref w
  = (Done (Some (match Store.latest_callback ref (db w) with
                 | Some p => [Store.callback_row p]
                 | None => []
                 end), None), w).
Proof.
  intros E. unfold Store.select_latest_callback.
  rewrite (call_healthy _ _ _ w E). f_equal. now destruct w.
Qed.

(** The polling server answers from its map when the map has the key. *)
Lemma poll_status_memory (ref : string) (m : json) (res : nat) (w : world Cache.Memory) :
  memory w !! KStr ref = Some m -> truthy (Some m) = true ->
  Poll.status ref res w
  = respond res 200
      (object [("status", Some (JStr "Success"));
               ("payment_status", Some m);
               ("verified", Some (JBool (is_string (Some m ?> "status") "SUCCESS"
                                         || is_string (Some m ?> "status") "COMPLETED")));
               ("timestamp", Some (JStr (toISOString (clock w))))]) w.
Proof.
  intros Hm Ht. unfold Poll.status, bind at 1, get_world at 1. cbn iota.
  unfold Cache.cache_get. cbn [to_key]. rewrite Hm, Ht. reflexivity.
Qed.



Lemma legacy_status_absent (ref : string) (res : nat) (w : world Cache.Memory) :
  memory w !! KStr ref = None ->
  Legacy.status ref res w
  = respond res 404
      (object [("status", Some (JStr "Failure"));
               ("message", Some (JStr "No record found for this reference"))]) w.
Proof.
  intros Hm. unfold Legacy.status, bind, get_world.
  unfold Cache.cache_get. cbn [to_key]. rewrite Hm. reflexivity.
Qed.


End Lookup.



(** C8 (as the code has it).  The first PayHero server has no check for a
    delivery it has seen: with the store answering and one
    [activation_payments] row for the reference, every delivery of a
    success webhook adds one row to [payment_callbacks] and one row to the
    ledger table [transactions].  Two deliveries of the same webhook leave
    two callback rows and two ledger rows. *)
Theorem duplicate_delivery_adds_ledger_rows `{Runtime} (body : json)
    (w : world Cache.Memory) (r : json) :
  db_script w = [] ->
  PayHero.confirms body = true ->
  PayHero.payments_of body (db w) = [r] ->
  let w1 := snd (serve (PayHero.callback body) w) in
  let w2 := snd (serve (PayHero.callback body) w1) in
  stored w1 = S (stored w) /\ ledger w1 = S (ledger w)
  /\ stored w2 = S (S (stored w)) /\ ledger w2 = S (S (ledger w)).
Proof.
  intros Hs Hc Hrow. cbv zeta.
  destruct (payhero_success_delivery body w r Hs Hc Hrow)
    as (Hs1 & (r1 & Hrow1) & Hst1 & Hl1 & _).
  destruct (payhero_success_delivery body _ r1 Hs1 Hc Hrow1)
    as (_ & _ & Hst2 & Hl2 & _).
  rewrite Hst2, Hl2, Hst1, Hl1. repeat split.
Qed.



Section Witnesses.
#[local] Existing Instance Sample.runtime.

Lemma success_only_when_confirmed_witness :
  Status_of (Poll.transformSwiftWalletCallbackToPayHero
               (Some (JObj [("status", JStr "completed")])) 1700000000042)
  = Some (JStr "Failed")
  /\ Relay.transformSwiftWalletCallbackToPayHero (Some (JObj [])) 1700000000042
     <> Done (JObj []).
Proof.
  pose proof (success_only_when_confirmed
                (JObj [("status", JStr "completed")]) 1700000000042) as [_ [_ [_ Hno]]].
  split.
  - apply Hno. reflexivity.
  - pose proof (success_only_when_confirmed (JObj []) 1700000000042) as [_ [_ [Hd _]]].
    intros E. destruct (Hd _ E) as [[F | F] _]; vm_compute in F; discriminate.
Defined.

Lemma pay_without_phone_throws_witness :
  is_a_string (prop (JObj [("amount", JNum 500); ("reference", JStr "ACT-123")]) "phone")
  = false
  /\ exists e,
       err_name e = "TypeError"
       /\ serve (Relay.pay (JObj [("amount", JNum 500); ("reference", JStr "ACT-123")])
                   (fun _ => ApiOk 200 JNull))
            (Sample.boot Relay.empty_memory 1700000000042)
          = (Raised e, with_next_handle 1 (Sample.boot Relay.empty_memory 1700000000042)).
Proof.
  split; [reflexivity |].
  destruct (pay_without_phone_throws
              (JObj [("amount", JNum 500); ("reference", JStr "ACT-123")])
              (ApiOk 200 JNull) (fun _ => ApiOk 200 JNull)
              (Sample.boot ∅ 1700000000042)
              (Sample.boot Relay.empty_memory 1700000000042))
    as (e & Hn & _ & _ & Hpay & _); [reflexivity |].
  exists e. split; [exact Hn | exact Hpay].
Defined.



Lemma duplicate_delivery_adds_ledger_rows_witness :
  let w := with_db (Store.set_activation_payments [Sample.activation_row] Sample.empty_db)
             (Sample.boot (∅ : Cache.Memory) 1700000000042) in
  let w1 := snd (serve (PayHero.callback Sample.payhero_webhook) w) in
  let w2 := snd (serve (PayHero.callback Sample.payhero_webhook) w1) in
  db_script w = []
  /\ PayHero.confirms Sample.payhero_webhook = true
  /\ PayHero.payments_of Sample.payhero_webhook (db w) = [Sample.activation_row]
  /\ stored w2 = 2%nat
  /\ ledger w2 = 2%nat.
Proof.
  cbv zeta.
  assert (H1 : db_script
                 (with_db (Store.set_activation_payments [Sample.activation_row] Sample.empty_db)
                    (Sample.boot (∅ : Cache.Memory) 1700000000042)) = []) by reflexivity.
  assert (H2 : PayHero.confirms Sample.payhero_webhook = true) by (vm_compute; reflexivity).
  assert (H3 : PayHero.payments_of Sample.payhero_webhook
                 (db (with_db (Store.set_activation_payments [Sample.activation_row]
                                 Sample.empty_db)
                        (Sample.boot (∅ : Cache.Memory) 1700000000042)))
               = [Sample.activation_row]) by (vm_compute; reflexivity).
  repeat (split; [assumption |]).
  destruct (duplicate_delivery_adds_ledger_rows Sample.payhero_webhook _ Sample.activation_row
              H1 H2 H3) as (_ & _ & Hst & Hl).
  split; [exact Hst | exact Hl].
Defined.




(** C6 fails on the polling server.  A caller pays without a [user_id], as
    the client does when it has none; the provider then confirms the
    payment.  The handler stores the callback and, finding no user in
    memory, leaves through the [return] of line 892: the webhook is never
    answered.  The held-connection server gives no answer either when the
    normalizer throws on a [status] that is not a string. *)
Lemma success_webhook_without_user_is_not_answered :
  let w := snd (serve (Poll.pay (JObj Sample.anonymous_payment) Sample.swift_accepts)
                  (Sample.boot (∅ : Cache.Memory) 1700000000042)) in
  let r' := serve (Poll.callback (JObj [("success", JBool true); ("status", JStr "completed");
                                        ("external_reference", JStr "ACT123")])) w in
  let v := snd (serve (Relay.pay (JObj Sample.payment) Sample.accepting)
                  (Sample.boot Relay.empty_memory 1700000000042)) in
  let o := serve (Relay.callback (Sample.odd_webhook "ACT10042")) v in
  fst r' = Returned
  /\ response_of (snd r') 1 = None
  /\ stored (snd r') = 1%nat
  /\ is_TypeError (fst o) = true
  /\ response_of (snd o) 1 = None
  /\ stored (snd o) = 0%nat.
Proof. vm_compute. repeat split. Qed.


(** The held-connection server has a path of its own that leaves a record
    behind.  When the provider rejects the payment, the caller is answered
    with 500 and the key stays in the map (the [catch] of lines 615-629 has
    no [delete]).  A webhook for the key then marks the record resolved, the
    write to the answered connection throws, and the [delete] of line 708
    is not reached: the resolved record stays. *)
Lemma rejected_payment_stays_registered :
  let w := snd (serve (Relay.pay (JObj Sample.payment) Sample.rejecting)
                  (Sample.boot Relay.empty_memory 1700000000042)) in
  let w' := snd (serve (Relay.callback (Sample.webhook "ACT10042")) w) in
  map code (writes_to w 0) = [500]
  /\ (Relay.resolved <$> (snd <$> Relay.registry_get (Some (JStr "ACT10042")) (memory w)))
     = Some false
  /\ (Relay.resolved <$> (snd <$> Relay.registry_get (Some (JStr "ACT10042")) (memory w')))
     = Some true
  /\ map code (writes_to w' 0) = [500].
Proof. vm_compute. repeat split. Qed.


(** C8 fails: the first PayHero server inserts a ledger row at every
    delivery of the success webhook.  Two identical deliveries leave two
    rows in [payment_callbacks] and two rows in [transactions]; so does the
    SwiftWallet polling server. *)
Lemma duplicate_webhook_duplicates_ledger_row :
  let w := with_db (Store.set_activation_payments [Sample.activation_row] Sample.empty_db)
             (Sample.boot (∅ : Cache.Memory) 1700000000042) in
  let w2 := snd (serve (PayHero.callback Sample.payhero_webhook)
                   (snd (serve (PayHero.callback Sample.payhero_webhook) w))) in
  let v := snd (serve (Poll.pay (JObj Sample.payment_of_user) Sample.swift_accepts)
                  (Sample.boot (∅ : Cache.Memory) 1700000000042)) in
  let hook := JObj [("success", JBool true); ("status", JStr "completed");
                    ("external_reference", JStr "ACT123")] in
  let v2 := snd (serve (Poll.callback hook) (snd (serve (Poll.callback hook) v))) in
  stored w2 = 2%nat /\ ledger w2 = 2%nat /\ ledger w2 <> 1%nat
  /\ stored v2 = 2%nat /\ ledger v2 = 2%nat.
Proof. vm_compute. repeat split. discriminate. Qed.

End Witnesses.

(** * Further properties of the handlers *)

(** ** Blocks that stay inside the handler *)

Section Confinement.
Context {R : Type} (P : world R -> Prop).

Lemma confined_ret {A} (a : A) : confined P (ret a).
Proof. intros w Hw. split; [discriminate | exact Hw]. Qed.

Lemma confined_throw {A} (e : js_error) : confined P (throw (A := A) e).
Proof. intros w Hw. split; [discriminate | exact Hw]. Qed.

Lemma confined_lift {A} (o : outcome A) : o <> Returned -> confined P (lift o).
Proof. intros Ho w Hw. split; [exact Ho | exact Hw]. Qed.

Lemma confined_get_world : confined P get_world.
Proof. intros w Hw. split; [discriminate | exact Hw]. Qed.

Lemma confined_bind {A B} (m : Exec.M R A) (f : A -> Exec.M R B) :
  confined P m -> (forall a, confined P (f a)) -> confined P (bind m f).
Proof.
  intros Hm Hf w Hw. unfold bind. destruct (Hm w Hw) as [Hn Hp].
  destruct (m w) as [[a|e|] w']; cbn [fst snd] in *.
  - now apply Hf.
  - split; [discriminate | exact Hp].
  - contradiction.
Qed.

Lemma confined_try_catch {A} (m : Exec.M R A) (handler : js_error -> Exec.M R A) :
  confined P m -> (forall e, confined P (handler e)) -> confined P (try_catch m handler).
Proof.
  intros Hm Hh w Hw. unfold try_catch. destruct (Hm w Hw) as [Hn Hp].
  destruct (m w) as [[a|e|] w']; cbn [fst snd] in *.
  - split; [discriminate | exact Hp].
  - now apply Hh.
  - contradiction.
Qed.

Lemma confined_bind_lift {A B} (o : outcome A) (f : A -> Exec.M R B) :
  o <> Returned -> (forall a, o = Done a -> confined P (f a)) ->
  confined P (bind (lift o) f).
Proof.
  intros Ho Hf w Hw. unfold bind, lift. destruct o as [a|e|]; cbn [fst snd].
  - now apply Hf.
  - split; [discriminate | exact Hw].
  - contradiction.
Qed.

(** The primitive steps keep whatever does not look at the part of the
    world they write. *)
Lemma confined_call `{Runtime} {A} (effect : Db -> Db) (data : Db -> A) (nothing : A) :
  (forall w, P w -> P (with_db (effect (db w)) w)) ->
  (forall w s, P w -> P (with_db_script s w)) ->
  confined P (Store.call effect data nothing).
Proof.
  intros Hdb Hscript w Hw.
  unfold Store.call, bind, next_fault, get_world, set_db, ret, throw.
  destruct (db_script w) as [|[| e | e] rest]; cbn [fst snd];
    (split; [discriminate |]); auto.
Qed.

Lemma confined_respond (h : nat) (c : Z) (b : json) :
  (forall w s, P w -> P (with_sent s w)) -> confined P (respond h c b).
Proof.
  intros Hsent w Hw. unfold respond. destruct (answered w h); cbn [fst snd];
    (split; [discriminate |]); auto.
Qed.

Lemma confined_log_api_call (payload : json) :
  (forall w c, P w -> P (with_api_calls c w)) -> confined P (log_api_call payload).
Proof. intros Hc w Hw. split; [discriminate |]. now apply Hc. Qed.

Lemma confined_sleep (ms : Z) :
  (forall w s, P w -> P (with_sleeps s w)) -> confined P (sleep ms).
Proof. intros Hc w Hw. split; [discriminate |]. now apply Hc. Qed.

Lemma confined_set_memory (m : R) :
  (forall w m, P w -> P (with_memory m w)) -> confined P (set_memory m).
Proof. intros Hc w Hw. split; [discriminate |]. now apply Hc. Qed.

(** A confined block whose errors are swallowed ends normally. *)
Lemma swallowed_settles (m : Exec.M R unit) (w : world R) :
  confined P m -> P w ->
  exists w', try_catch m (fun _ => ret tt) w = (Done tt, w') /\ P w'.
Proof.
  intros Hm Hw. unfold try_catch. destruct (Hm w Hw) as [Hn Hp].
  destruct (m w) as [[[]|e|] w']; cbn [fst snd] in *.
  - now exists w'.
  - now exists w'.
  - contradiction.
Qed.

End Confinement.

(** The pure helpers end normally or throw. *)

Lemma and_then_stays {A B} (o : outcome A) (k : A -> outcome B) :
  o <> Returned -> (forall a, k a <> Returned) -> and_then o k <> Returned.
Proof. destruct o; cbn; auto; discriminate. Qed.

Lemma dot_stays (v : value) (f : string) : dot v f <> Returned.
Proof. unfold dot. repeat case_match; discriminate. Qed.

Lemma receiver_stays (v : value) (method : string) : receiver v method <> Returned.
Proof. unfold receiver. repeat case_match; discriminate. Qed.

Lemma call_toUpperCase_stays (v : value) : call_toUpperCase v <> Returned.
Proof. unfold call_toUpperCase. repeat case_match; discriminate. Qed.

Lemma call_toLowerCase_stays (v : value) : call_toLowerCase v <> Returned.
Proof. unfold call_toLowerCase. repeat case_match; discriminate. Qed.

Lemma upper_or_null_stays (v : value) : upper_or_null v <> Returned.
Proof.
  unfold upper_or_null. case_match; [| discriminate].
  apply and_then_stays; [apply call_toUpperCase_stays | discriminate].
Qed.

Lemma lower_is_stays (s : json) (lit : string) : lower_is s lit <> Returned.
Proof.
  unfold lower_is. case_match; [| discriminate].
  apply and_then_stays; [apply call_toLowerCase_stays | discriminate].
Qed.

Lemma opt_toLowerCase_stays (v : value) : opt_toLowerCase v <> Returned.
Proof.
  unfold opt_toLowerCase. case_match; [discriminate |].
  pose proof (call_toLowerCase_stays v). destruct (call_toLowerCase v); congruence.
Qed.

Create HintDb stays.

#[local] Hint Resolve dot_stays receiver_stays call_toUpperCase_stays call_toLowerCase_stays
  upper_or_null_stays lower_is_stays opt_toLowerCase_stays : stays.

Lemma confined_cache_set (P : world Cache.Memory -> Prop) (key : value) (entry : json) :
  (forall w m, P w -> P (with_memory m w)) -> confined P (Cache.cache_set key entry).
Proof.
  intros Hc. unfold Cache.cache_set. apply confined_bind; [apply confined_get_world |].
  intros w. destruct (to_key key); [now apply confined_set_memory | apply confined_ret].
Qed.

(** One primitive step: what it writes is outside what [P] reads. *)
Ltac frame := intros; assumption.

Ltac primitive :=
  lazymatch goal with
  | |- confined _ (Store.call _ _ _) => apply confined_call; frame
  | |- confined _ (respond _ _ _) => apply confined_respond; frame
  | |- confined _ (sendStatus _ _) => apply confined_respond; frame
  | |- confined _ (Cache.cache_set _ _) => apply confined_cache_set; frame
  | |- confined _ (log_api_call _) => apply confined_log_api_call; frame
  | |- confined _ (sleep _) => apply confined_sleep; frame
  | |- confined _ (set_memory _) => apply confined_set_memory; frame
  end.

Ltac confined_step :=
  lazymatch goal with
  | |- confined _ (ret _) => apply confined_ret
  | |- confined _ (throw _) => apply confined_throw
  | |- confined _ get_world => apply confined_get_world
  | |- confined _ (lift _) => apply confined_lift; solve [auto with stays]
  | |- confined _ (bind (lift _) _) =>
      apply confined_bind_lift;
      [ solve [auto with stays]
      | let a := fresh "a" in
        let E := fresh "E" in
        intros a E;
        first
          [ injection E as <-
          | let E' := fresh "E" in
            pose proof E as E'; vm_compute in E'; injection E' as <-; clear E
          | idtac ] ]
  | |- confined _ (bind _ _) => apply confined_bind; [| intros ?]
  | |- confined _ (try_catch _ _) => apply confined_try_catch; [| intros ?]
  | |- confined ?P (if true then ?a else _) => change (confined P a)
  | |- confined ?P (if false then _ else ?b) => change (confined P b)
  | |- confined _ (if ?b then _ else _) => destruct b eqn:?
  | |- confined _ (match ?x with _ => _ end) => destruct x eqn:?
  end.

(** The same for blocks that may leave the handler. *)
Lemma confined_keeps {R A} (P : world R -> Prop) (m : Exec.M R A) :
  confined P m -> keeps P m.
Proof. intros Hm w Hw. now apply Hm. Qed.

Ltac kept_step :=
  lazymatch goal with
  | |- keeps _ (ret _) => apply keeps_ret
  | |- keeps _ (throw _) => apply keeps_throw
  | |- keeps _ leave => apply keeps_leave
  | |- keeps _ get_world => apply keeps_get_world
  | |- keeps _ (lift _) => apply keeps_lift
  | |- keeps _ (bind _ _) => apply keeps_bind; [| intros ?]
  | |- keeps _ (try_catch _ _) => apply keeps_try_catch; [| intros ?]
  | |- keeps _ (if ?b then _ else _) => destruct b eqn:?
  | |- keeps _ (match ?x with _ => _ end) => destruct x eqn:?
  | |- keeps _ _ => apply confined_keeps; primitive
  end.

(** ** One more response *)

Section Pushing.
Context {R : Type}.

Lemma writes_to_sent (w w' : world R) (h : nat) :
  sent w' = sent w -> writes_to w' h = writes_to w h.
Proof. unfold writes_to. now intros ->. Qed.

Lemma writes_to_push (w : world R) (h : nat) (r : Response) :
  writes_to (with_sent (sent w ++ [(h, r)]) w) h = (writes_to w h ++ [r])%list.
Proof.
  rewrite writes_to_app. cbn [filter].
  rewrite filter_cons_True by reflexivity. reflexivity.
Qed.

Lemma writes_to_push_other (w : world R) (h h' : nat) (r : Response) :
  h' <> h -> writes_to (with_sent (sent w ++ [(h, r)]) w) h' = writes_to w h'.
Proof.
  intros Hne. rewrite writes_to_app. cbn [filter].
  rewrite filter_cons_False by (cbn; congruence). cbn. now rewrite app_nil_r.
Qed.

Lemma sendStatus_unanswered (w : world R) (h : nat) :
  answered w h = false ->
  sendStatus h 200 w = (Done tt, with_sent (sent w ++ [(h, acknowledgement)]) w).
Proof. apply respond_unanswered. Qed.

Lemma answered_sent (w w' : world R) (h : nat) :
  sent w' = sent w -> answered w' h = answered w h.
Proof. unfold answered. now intros ->. Qed.

End Pushing.

(** ** The webhook is acknowledged *)

Section Acknowledgement.
Context `{Runtime}.

(** A handler of the shape [try { block } catch (err) { } res.sendStatus(200)]
    whose block stays inside and writes to no sink answers once, with 200. *)
Lemma acknowledged_after {R} (P : world R -> Prop) (block : Exec.M R unit) (h : nat)
    (w : world R) :
  (forall w', P w' -> sent w' = sent w) -> P w -> confined P block ->
  answered w h = false ->
  exists w1,
    P w1
    /\ bind (try_catch block (fun _ => ret tt)) (fun _ => sendStatus h 200) w
       = (Done tt, with_sent (sent w1 ++ [(h, acknowledgement)]) w1).
Proof.
  intros Hsent Hw Hblock Hans.
  destruct (swallowed_settles P block w Hblock Hw) as (w1 & E & H1).
  exists w1. split; [exact H1 |].
  rewrite (bind_done _ _ _ _ _ E).
  apply respond_unanswered. unfold answered. rewrite (Hsent w1 H1). exact Hans.
Qed.

Lemma store_only_refl {R} (w : world R) : store_only w w.
Proof. repeat split. Qed.

Lemma payhero_callback_run (body : json) (res : nat) (w0 : world Cache.Memory) :
  answered w0 res = false ->
  exists w1,
    store_only w0 w1
    /\ PayHero.callback body res w0
       = (Done tt, with_sent (sent w1 ++ [(res, acknowledgement)]) w1).
Proof.
  intros Hans. unfold PayHero.callback.
  match goal with
  | |- context [bind (try_catch ?block _) _] => set (b := block)
  end.
  assert (Hb : confined (store_only w0) b).
  { subst b. unfold Store.insert_callback, Store.update_activation_payment,
      Store.update_user, Store.rpc, Store.insert_transaction. cbv zeta.
    repeat (confined_step || primitive). }
  apply (acknowledged_after (store_only w0) b res w0); try assumption.
  - now intros w' (E & _).
  - apply store_only_refl.
Qed.

(** The first server answers every webhook, whatever its body and whatever
    the store does: one response, 200, on the webhook's connection; no
    other connection is written to and the in-memory map is not touched. *)
Theorem payhero_callback_acknowledges (body : json) (w : world Cache.Memory) :
  answered w (next_handle w) = false ->
  fst (serve (PayHero.callback body) w) = Done tt
  /\ writes_to (snd (serve (PayHero.callback body) w)) (next_handle w) = [acknowledgement]
  /\ (forall h, h <> next_handle w ->
      writes_to (snd (serve (PayHero.callback body) w)) h = writes_to w h)
  /\ memory (snd (serve (PayHero.callback body) w)) = memory w.
Proof.
  intros Hans.
  change (serve (PayHero.callback body) w)
    with (PayHero.callback body (next_handle w) (with_next_handle (S (next_handle w)) w)).
  destruct (payhero_callback_run body (next_handle w)
              (with_next_handle (S (next_handle w)) w) Hans)
    as (w1 & (Hsent & Hmem & _) & ->).
  cbn [fst snd]. split; [reflexivity |].
  assert (Hw1 : forall h, writes_to w1 h = writes_to w h)
    by (intros h; now apply writes_to_sent).
  split; [| split; [| exact Hmem]].
  - rewrite writes_to_push, Hw1, (unanswered_no_writes w _ Hans). reflexivity.
  - intros h Hne. now rewrite writes_to_push_other, Hw1.
Qed.

End Acknowledgement.

Section PollWebhook.
Context `{Runtime}.

(** What the handler reads from the normalized webhook. *)
Lemma poll_status_read (body : json) (now : Z) :
  upper_or_null
    (Some (Poll.transformSwiftWalletCallbackToPayHero (Some body) now) ?> "response" ?> "Status"
     ||| Some (Poll.transformSwiftWalletCallbackToPayHero (Some body) now) ?> "status")
  = Done (JStr (if Poll.confirms body then "SUCCESS" else "FAILED")).
Proof.
  change (Some (Poll.transformSwiftWalletCallbackToPayHero (Some body) now)
            ?> "response" ?> "Status")
    with (Status_of (Poll.transformSwiftWalletCallbackToPayHero (Some body) now)).
  rewrite poll_Status. fold (Poll.confirms body).
  destruct (Poll.confirms body); reflexivity.
Qed.

Lemma poll_reference_read (body : json) (now : Z) :
  Some (Poll.transformSwiftWalletCallbackToPayHero (Some body) now)
    ?> "response" ?> "ExternalReference"
  ||| Some (Poll.transformSwiftWalletCallbackToPayHero (Some body) now) ?> "external_reference"
  ||| Some (Poll.transformSwiftWalletCallbackToPayHero (Some body) now)
        ?> "response" ?> "external_reference"
  ||| Some (Poll.transformSwiftWalletCallbackToPayHero (Some body) now) ?> "reference"
  = Some body ?> "external_reference".
Proof.
  unfold Poll.transformSwiftWalletCallbackToPayHero.
  read_fields.
  generalize (Some body ?> "external_reference"). intros x.
  unfold or_else. destruct (truthy x) eqn:E; cbn [truthy]; rewrite ?E; reflexivity.
Qed.

Lemma poll_callback_run (body : json) (res : nat) (w0 : world Cache.Memory) :
  answered w0 res = false ->
  exists w1,
    Poll.callback body res w0
    = (if Poll.confirms body && truthy (Some body ?> "external_reference")
          && negb (truthy (Poll.payer body (memory w0)))
       then (Returned, w1)
       else (Done tt, with_sent (sent w1 ++ [(res, acknowledgement)]) w1))
    /\ same_sent w0 w1
    /\ (Poll.confirms body && truthy (Some body ?> "external_reference")
        && negb (truthy (Poll.payer body (memory w0))) = true ->
        store_only w0 w1).
Proof.
  intros Hans. unfold Poll.payer.
  assert (Hlast : forall w1 : world Cache.Memory,
             same_sent w0 w1 ->
             sendStatus res 200 w1
             = (Done tt, with_sent (sent w1 ++ [(res, acknowledgement)]) w1)).
  { intros w1 E. apply respond_unanswered. now rewrite (answered_sent w0 w1 res E). }
  unfold Poll.callback.
  unfold bind at 1, get_world at 1. cbn iota beta zeta.
  rewrite (poll_reference_read body (clock w0)), (poll_status_read body (clock w0)).
  unfold bind at 1. unfold try_catch at 1.
  unfold bind at 1, lift at 1. cbn iota.
  unfold bind at 1, get_world at 1. cbn iota.
  destruct (truthy (Some body ?> "external_reference")) eqn:Hext;
    [| rewrite andb_false_r; cbn [andb]; unfold ret at 1; cbn iota;
       exists w0; split; [now apply Hlast | split; [reflexivity | discriminate]] ].
  rewrite andb_true_r.
  unfold bind at 1.
  match goal with
  | |- context [try_catch ?b (fun _ => ret tt) w0] =>
      destruct (swallowed_settles (store_only w0) b w0) as (w1 & E1 & H1)
  end.
  { unfold Store.insert_callback. repeat (confined_step || primitive). }
  { apply store_only_refl. }
  rewrite E1. cbn iota.
  assert (Hs1 : same_sent w0 w1) by (now destruct H1).
  destruct (Poll.confirms body) eqn:Hc; cbn [andb].
  - destruct (truthy (Cache.cache_get (Some body ?> "external_reference") (memory w0)
                        ?> "user_id")) eqn:Hp; cbn [negb].
    + match goal with
      | |- context [try_catch ?b (fun _ => ret tt) w1] =>
          destruct (swallowed_settles (same_sent w0) b w1) as (w2 & E2 & H2)
      end.
      { unfold Poll.update_wallet, Store.insert_transaction, Store.select_user,
          Store.update_user.
        repeat (confined_step || primitive). }
      { exact Hs1. }
      rewrite E2. cbn iota. exists w2.
      split; [now apply Hlast | split; [exact H2 | discriminate]].
    + unfold try_catch at 1. unfold bind at 1, lift at 1.
      change (lower_is (JStr "SUCCESS") "success") with (Done (A := bool) true).
      cbn iota.
      unfold bind at 1, leave at 1. cbn iota.
      exists w1. split; [reflexivity | split; [exact Hs1 | intros _; exact H1]].
  - match goal with
    | |- context [try_catch ?b (fun _ => ret tt) w1] =>
        destruct (swallowed_settles (same_sent w0) b w1) as (w2 & E2 & H2)
    end.
    { repeat (confined_step || primitive). }
    { exact Hs1. }
    rewrite E2. cbn iota. exists w2.
    split; [now apply Hlast | split; [exact H2 | discriminate]].
Qed.

(** The polling server answers a webhook with 200, once, on every path but
    one: when the webhook confirms a payment whose record in memory names no
    user, the handler returns before [res.sendStatus(200)] and the webhook
    is left without a response.  No other connection is written to. *)
Theorem poll_callback_answers_unless_no_payer (body : json) (w : world Cache.Memory) :
  answered w (next_handle w) = false ->
  (if Poll.confirms body && truthy (Some body ?> "external_reference")
      && negb (truthy (Poll.payer body (memory w)))
   then fst (serve (Poll.callback body) w) = Returned
        /\ writes_to (snd (serve (Poll.callback body) w)) (next_handle w) = []
        /\ memory (snd (serve (Poll.callback body) w)) = memory w
   else fst (serve (Poll.callback body) w) = Done tt
        /\ writes_to (snd (serve (Poll.callback body) w)) (next_handle w)
           = [acknowledgement])
  /\ forall h, h <> next_handle w ->
       writes_to (snd (serve (Poll.callback body) w)) h = writes_to w h.
Proof.
  intros Hans.
  change (serve (Poll.callback body) w)
    with (Poll.callback body (next_handle w) (with_next_handle (S (next_handle w)) w)).
  destruct (poll_callback_run body (next_handle w)
              (with_next_handle (S (next_handle w)) w) Hans) as (w1 & E & Hs & Hearly).
  cbn [memory with_next_handle] in E, Hearly. rewrite E.
  assert (Hw1 : forall h, writes_to w1 h = writes_to w h)
    by (intros h; now apply writes_to_sent).
  destruct (Poll.confirms body && truthy (Some body ?> "external_reference")
            && negb (truthy (Poll.payer body (memory w)))); cbn [fst snd].
  - destruct (Hearly eq_refl) as (_ & Hmem & _).
    split; [| intros h _; apply Hw1].
    split; [reflexivity |]. split; [| exact Hmem].
    rewrite Hw1. now apply unanswered_no_writes.
  - split.
    + split; [reflexivity |].
      rewrite writes_to_push, Hw1, (unanswered_no_writes w _ Hans). reflexivity.
    + intros h Hne. now rewrite writes_to_push_other, Hw1.
Qed.

(** A webhook that does not confirm the payment moves no money on the
    polling server: no ledger row is added and no user row changes,
    whatever the store answers. *)
Theorem poll_unconfirmed_moves_no_money (body : json) (w : world Cache.Memory) :
  Poll.confirms body = false ->
  same_money w (snd (serve (Poll.callback body) w)).
Proof.
  intros Hc.
  change (serve (Poll.callback body) w)
    with (Poll.callback body (next_handle w) (with_next_handle (S (next_handle w)) w)).
  set (w0 := with_next_handle (S (next_handle w)) w).
  unfold Poll.callback.
  unfold bind at 1, get_world at 1. cbn iota beta zeta.
  rewrite (poll_reference_read body (clock w0)), (poll_status_read body (clock w0)), Hc.
  match goal with
  | |- same_money w (snd (?m w0)) =>
      assert (Hm : confined (same_money w) m)
  end.
  { unfold Store.insert_callback. repeat (confined_step || primitive). }
  apply Hm. repeat split.
Qed.

End PollWebhook.

Section PayHeroWebhook.
Context `{Runtime}.


End PayHeroWebhook.

Section RelayWebhook.
Context `{Runtime}.

Lemma answered_app {R} (w : world R) (more : list (nat * Response)) (h : nat) :
  answered (with_sent (sent w ++ more) w) h
  = answered w h || existsb (fun p => Nat.eqb (fst p) h) more.
Proof. unfold answered. cbn [sent with_sent]. apply existsb_app. Qed.

Lemma notify_waiting_stays (externalRef : value) (status : json) (data : value)
    (w : world Relay.Memory) :
  fst (Relay.notify_waiting externalRef status data w) <> Returned.
Proof.
  assert (Hc : confined (fun _ => True) (Relay.notify_waiting externalRef status data)).
  { unfold Relay.notify_waiting, Relay.modify_memory. cbv zeta.
    repeat (confined_step || primitive). }
  now apply Hc.
Qed.

(** The block that answers the waiting caller leaves alone every
    connection that has yet to arrive. *)
Lemma notify_waiting_spares (externalRef : value) (status : json) (data : value)
    (w : world Relay.Memory) (h : nat) :
  map_Forall (fun o r => Relay.res r = o) (Relay.objects (memory w)) ->
  map_Forall (fun _ o => (o < h)%nat) (Relay.transactionStatuses (memory w)) ->
  answered (snd (Relay.notify_waiting externalRef status data w)) h = answered w h
  /\ writes_to (snd (Relay.notify_waiting externalRef status data w)) h = writes_to w h.
Proof.
  intros Hobj Hreg.
  destruct (notify_waiting_world externalRef status data w)
    as [-> | (o & r & s & del & Hget & Hs & ->)]; [now split |].
  destruct (registry_get_Some _ _ _ _ Hget) as (k & -> & Hk & Ho).
  pose proof (Hobj _ _ Ho) as Hres. pose proof (Hreg _ _ Hk) as Hlt. cbn in Hres, Hlt.
  assert (Hall : Forall (fun p => fst p <> h) s).
  { apply List.Forall_forall. intros p Hp. rewrite (Hs p Hp). lia. }
  split.
  - unfold answered. cbn [sent with_memory with_sent]. rewrite existsb_app.
    assert (E : existsb (fun p => Nat.eqb (fst p) h) s = false).
    { clear -Hall. induction Hall as [|p l Hp _ IH]; [reflexivity |].
      cbn [existsb]. rewrite IH. apply Nat.eqb_neq in Hp. now rewrite Hp. }
    rewrite E. apply orb_false_r.
  - unfold writes_to. cbn [sent with_memory with_sent]. rewrite filter_app, map_app.
    assert (E : filter (fun p : nat * Response => fst p = h) s = []).
    { clear -Hall. induction Hall as [|p l Hp _ IH]; [reflexivity |].
      now rewrite filter_cons_False. }
    rewrite E. cbn. now rewrite app_nil_r.
Qed.

Lemma relay_callback_run (body : json) (h : nat) (w0 : world Relay.Memory) :
  Relay.normalizes body = true ->
  map_Forall (fun o r => Relay.res r = o) (Relay.objects (memory w0)) ->
  map_Forall (fun _ o => (o < h)%nat) (Relay.transactionStatuses (memory w0)) ->
  answered w0 h = false ->
  exists w1,
    Relay.callback body h w0
    = (Done tt, with_sent (sent w1 ++ [(h, acknowledgement)]) w1)
    /\ writes_to w1 h = writes_to w0 h.
Proof.
  intros Hn Hobj Hreg Hans.
  unfold Relay.normalizes in Hn.
  destruct (Relay.completed (Some body)) as [ok| |] eqn:Hok; try discriminate.
  destruct (relay_Status (Some body) (clock w0) ok Hok)
    as (d & Hd & Hst & _ & _ & _ & Hnone).
  pose proof (transform_reference (Some body) (clock w0) d Hd) as Href.
  unfold Relay.callback.
  unfold bind at 1, get_world at 1. cbn iota.
  unfold bind at 1, lift at 1. rewrite Hd. cbn iota beta zeta.
  rewrite Href.
  change (Some d ?> "response" ?> "Status") with (Status_of d).
  rewrite Hst, Hnone, status_of_class.
  unfold try_catch at 1. unfold bind at 1, lift at 1. cbn iota.
  unfold bind at 1.
  destruct (notify_waiting_spares (Some body ?> "external_reference")
              (JStr (if ok then "SUCCESS" else "FAILED")) (Some d) w0 h Hobj Hreg)
    as (Ha & Hw).
  pose proof (notify_waiting_stays (Some body ?> "external_reference")
                (JStr (if ok then "SUCCESS" else "FAILED")) (Some d) w0) as Hstay.
  destruct (Relay.notify_waiting (Some body ?> "external_reference")
              (JStr (if ok then "SUCCESS" else "FAILED")) (Some d) w0)
    as [[[]|e|] w1]; cbn [fst snd] in *; [| | contradiction].
  - unfold bind at 1.
    destruct (store_callback_done (Some body ?> "external_reference")
                (JStr (if ok then "SUCCESS" else "FAILED")) (Some d) w1)
      as (w2 & -> & _ & Hsent & _).
    cbn iota.
    rewrite (sendStatus_unanswered w2 h)
      by (rewrite (answered_sent w1 w2 h Hsent), Ha; exact Hans).
    exists w2. split; [reflexivity |].
    now rewrite (writes_to_sent w1 w2 h Hsent).
  - rewrite (sendStatus_unanswered w1 h) by (rewrite Ha; exact Hans).
    exists w1. split; [reflexivity | exact Hw].
Qed.

(** The held-connection server answers every webhook its normalizer
    accepts: one response, 200, on the webhook's connection, whether or not
    a caller waits for the reference, whether or not the caller's
    connection can still be written to, and whatever the store answers. *)
Theorem relay_callback_acknowledges (body : json) (w : world Relay.Memory) :
  Relay.normalizes body = true ->
  Relay.well_formed w ->
  answered w (next_handle w) = false ->
  fst (serve (Relay.callback body) w) = Done tt
  /\ writes_to (snd (serve (Relay.callback body) w)) (next_handle w) = [acknowledgement].
Proof.
  intros Hn (Hobj & Hreg) Hans.
  change (serve (Relay.callback body) w)
    with (Relay.callback body (next_handle w) (with_next_handle (S (next_handle w)) w)).
  destruct (relay_callback_run body (next_handle w)
              (with_next_handle (S (next_handle w)) w) Hn Hobj Hreg Hans)
    as (w1 & -> & Hw1).
  cbn [fst snd]. split; [reflexivity |].
  rewrite writes_to_push, Hw1.
  change (writes_to (with_next_handle (S (next_handle w)) w) (next_handle w))
    with (writes_to w (next_handle w)).
  now rewrite (unanswered_no_writes w _ Hans).
Qed.

Lemma completed_raises (v : value) :
  match Relay.completed v with
  | Done _ => True
  | Raised e => err_name e = "TypeError"
  | Returned => False
  end.
Proof.
  unfold Relay.completed, opt_toLowerCase, call_toLowerCase.
  destruct (is_true (v ?> "success")); [| exact I].
  destruct (v ?> "status") as [[| | |s| |]|]; cbn; try reflexivity; try exact I.
  destruct (String.eqb (toLowerCase s) "completed"); exact I.
Qed.

(** A webhook the normalizer rejects (its [success] is [true] and its
    [status] is neither a string nor absent) makes the handler throw before
    its [try]: the webhook gets no response, nothing is stored and the
    memory is as before. *)
Theorem relay_callback_rejected (body : json) (w : world Relay.Memory) :
  Relay.normalizes body = false ->
  is_TypeError (fst (serve (Relay.callback body) w)) = true
  /\ snd (serve (Relay.callback body) w) = with_next_handle (S (next_handle w)) w.
Proof.
  intros Hn. unfold Relay.normalizes in Hn.
  pose proof (completed_raises (Some body)) as Hr.
  destruct (Relay.completed (Some body)) as [ok|e|] eqn:Hok;
    try discriminate; [| contradiction].
  assert (E : serve (Relay.callback body) w
              = (Raised e, with_next_handle (S (next_handle w)) w)).
  { unfold serve, bind at 1, accept at 1. cbn iota.
    unfold Relay.callback, bind at 1, get_world at 1. cbn iota.
    unfold bind at 1, lift at 1.
    unfold Relay.transformSwiftWalletCallbackToPayHero. rewrite Hok. reflexivity. }
  rewrite E. cbn [fst snd is_TypeError]. rewrite Hr. split; reflexivity.
Qed.

(** The normalizer rejects exactly the webhooks whose [success] is [true]
    and whose [status] is present but not a string. *)
Lemma normalizes_spec (body : json) :
  Relay.normalizes body
  = negb (is_true (Some body ?> "success"))
    || nullish (Some body ?> "status") || is_a_string (Some body ?> "status").
Proof.
  unfold Relay.normalizes, Relay.completed, opt_toLowerCase, call_toLowerCase.
  destruct (is_true (Some body ?> "success")); [| reflexivity].
  destruct (Some body ?> "status") as [[| | |s| |]|]; cbn; try reflexivity.
  destruct (String.eqb (toLowerCase s) "completed"); reflexivity.
Qed.

End RelayWebhook.

Section PayHeroStatus.
Context `{Runtime}.

Lemma select_latest_confined {R} (P : world R -> Prop) (ref : string) :
  (forall w d, P w -> P (with_db d w)) ->
  (forall w s, P w -> P (with_db_script s w)) ->
  confined P (Store.select_latest_callback ref).
Proof.
  intros Hdb Hs. unfold Store.select_latest_callback. apply confined_call; auto.
Qed.

Lemma cache_set_string (k : string) (entry : json) (w : world Cache.Memory) :
  Cache.cache_set (Some (JStr k)) entry w
  = (Done tt, with_memory (<[KStr k := entry]> (memory w)) w).
Proof. reflexivity. Qed.

Lemma payhero_status_run (ref : string) (h : nat) (w0 : world Cache.Memory) :
  answered w0 h = false ->
  exists r,
    sent (snd (PayHero.status ref h w0)) = (sent w0 ++ [(h, r)])%list
    /\ (code r = 200
        \/ code r = 202
           /\ truthy (Cache.cache_get (Some (JStr ref)) (memory w0)) = false).
Proof.
  intros Hans. unfold PayHero.status.
  unfold bind at 1, get_world at 1. cbn iota.
  unfold bind at 1.
  match goal with
  | |- context [bind get_world ?f] => set (fallback := bind get_world f)
  end.
  assert (Hfall : forall w1, store_only w0 w1 ->
            exists r,
              sent (snd (fallback w1)) = (sent w0 ++ [(h, r)])%list
              /\ (code r = 200
                  \/ code r = 202
                     /\ truthy (Cache.cache_get (Some (JStr ref)) (memory w0)) = false)).
  { intros w1 (Hsent & Hmem & _). subst fallback.
    unfold bind, get_world. cbn iota. rewrite Hmem.
    assert (Ha : answered w1 h = false) by (now rewrite (answered_sent w0 w1 h Hsent)).
    destruct (Cache.cache_get (Some (JStr ref)) (memory w0)) as [info|] eqn:Eget.
    - destruct (truthy (Some info)) eqn:Et;
        rewrite (respond_unanswered _ _ _ _ Ha); cbn [snd sent with_sent]; rewrite Hsent;
        eexists; (split; [reflexivity |]); cbn [code]; auto.
    - rewrite (respond_unanswered _ _ _ _ Ha); cbn [snd sent with_sent]; rewrite Hsent.
      eexists; (split; [reflexivity |]); cbn [code]; auto. }
  unfold try_catch at 1. unfold bind at 1.
  destruct (select_latest_confined (store_only w0) ref) with (w := w0) as [Hstay H1];
    [intros ? ? Hw; exact Hw | intros ? ? Hw; exact Hw | apply store_only_refl |].
  destruct (Store.select_latest_callback ref w0) as [[[rows err]|e|] w1];
    cbn [fst snd] in *; [| | contradiction].
  - destruct rows as [[|latest rest]|]; try (unfold ret; cbn iota; now apply Hfall).
    unfold bind at 1, lift at 1.
    pose proof (call_toUpperCase_stays (Some latest ?> "status" ||| Some (JStr "PENDING")))
      as Hup.
    destruct (call_toUpperCase (Some latest ?> "status" ||| Some (JStr "PENDING")))
      as [st|e|]; [| unfold ret; cbn iota; now apply Hfall | contradiction].
    cbn iota.
    assert (Ha : answered w1 h = false)
      by (destruct H1 as (Hsent & _); now rewrite (answered_sent w0 w1 h Hsent)).
    rewrite (bind_done _ _ _ _ _ (cache_set_string ref _ w1)).
    rewrite (bind_done _ _ _ _ _ (respond_unanswered h 200 _ (with_memory _ w1) Ha)).
    unfold leave. cbn iota. cbn [snd sent with_sent with_memory].
    destruct H1 as (-> & _). eexists. split; [reflexivity |]. cbn [code]. auto.
  - unfold ret. cbn iota. now apply Hfall.
Qed.

(** The status lookup of the first server never reports an error: whatever
    the store does, the request is answered once, with 200 or with 202, and
    with 202 only when the in-memory map has no record for the key. *)
Theorem payhero_status_never_errors (ref : string) (w : world Cache.Memory) :
  answered w (next_handle w) = false ->
  exists r,
    writes_to (snd (serve (PayHero.status ref) w)) (next_handle w) = [r]
    /\ (code r = 200
        \/ code r = 202
           /\ truthy (Cache.cache_get (Some (JStr ref)) (memory w)) = false).
Proof.
  intros Hans.
  change (serve (PayHero.status ref) w)
    with (PayHero.status ref (next_handle w) (with_next_handle (S (next_handle w)) w)).
  destruct (payhero_status_run ref (next_handle w)
              (with_next_handle (S (next_handle w)) w) Hans) as (r & Hsent & Hcode).
  exists r. split; [| exact Hcode].
  unfold writes_to. rewrite Hsent. cbn [sent with_next_handle].
  rewrite filter_app, map_app. fold (writes_to w (next_handle w)).
  rewrite (unanswered_no_writes w _ Hans). cbn [filter].
  rewrite filter_cons_True by reflexivity. reflexivity.
Qed.

End PayHeroStatus.

(** ** The correlation key *)

Section Keys.

Lemma all_chars_append (class : ascii -> bool) (a b : string) :
  all_chars class (a ++ b) = all_chars class a && all_chars class b.
Proof.
  induction a as [|c a IH]; [reflexivity |].
  rewrite append_String. cbn [all_chars]. now rewrite IH, andb_assoc.
Qed.

Lemma all_chars_filter (class : ascii -> bool) (s : string) :
  all_chars class (filter_string class s) = true.
Proof.
  induction s as [|c s IH]; [reflexivity |].
  cbn [filter_string]. destruct (class c) eqn:E; [| exact IH].
  cbn [all_chars]. now rewrite E.
Qed.

Lemma all_chars_take (class : ascii -> bool) (n : nat) (s : string) :
  all_chars class s = true -> all_chars class (take_chars n s) = true.
Proof.
  revert s. induction n as [|n IH]; intros [|c s]; try reflexivity.
  cbn [all_chars take_chars]. intros E. apply andb_true_iff in E as [E1 E2].
  now rewrite E1, IH.
Qed.

Lemma all_chars_drop (class : ascii -> bool) (n : nat) (s : string) :
  all_chars class s = true -> all_chars class (drop_chars n s) = true.
Proof.
  revert s. induction n as [|n IH]; intros [|c s]; try reflexivity; try (intros E; exact E).
  cbn [all_chars drop_chars]. intros E. apply andb_true_iff in E as [_ E2]. now apply IH.
Qed.

Lemma digit_is_alnum (d : Z) : 0 <= d < 10 -> is_alnum (digit d) = true.
Proof.
  intros Hd.
  assert (E : d = 0 \/ d = 1 \/ d = 2 \/ d = 3 \/ d = 4 \/ d = 5 \/ d = 6 \/ d = 7
              \/ d = 8 \/ d = 9) by lia.
  repeat (destruct E as [-> | E]; [reflexivity |]). now subst.
Qed.

Lemma digits_fuel_alnum (fuel : nat) (n : Z) :
  0 <= n -> all_chars is_alnum (digits_fuel fuel n) = true.
Proof.
  revert n. induction fuel as [|fuel IH]; intros n Hn; [reflexivity |].
  cbn [digits_fuel]. destruct (n <? 10) eqn:E.
  - apply Z.ltb_lt in E. cbn [all_chars]. rewrite digit_is_alnum by lia. reflexivity.
  - rewrite all_chars_append, IH by (apply Z.div_pos; lia).
    cbn [all_chars]. rewrite digit_is_alnum by (apply Z.mod_pos_bound; lia). reflexivity.
Qed.

(** The key is made of letters and digits only, so it can stand in the
    path of [/api/status/:externalRef] as it is. *)
Theorem uniqueRef_alphanumeric (reference : string) (now : Z) :
  0 <= now -> all_chars is_alnum (Gen.uniqueRef reference now) = true.
Proof.
  intros Hn. unfold Gen.uniqueRef, Gen.timestamp, slice_last, Number_toString.
  rewrite all_chars_append, all_chars_take by apply all_chars_filter.
  destruct (now <? 0) eqn:E; [apply Z.ltb_lt in E; lia |].
  apply all_chars_drop. now apply digits_fuel_alnum.
Qed.

Lemma append_split (a c b d : string) :
  String.length b = String.length d -> a ++ b = c ++ d -> a = c /\ b = d.
Proof.
  revert c. induction a as [|x a IH]; intros [|y c] Hlen E.
  - now split.
  - rewrite append_empty in E. subst b. rewrite length_append in Hlen. cbn in Hlen. lia.
  - rewrite append_empty in E. subst d. rewrite length_append in Hlen. cbn in Hlen. lia.
  - rewrite !append_String in E. injection E as -> E.
    destruct (IH c Hlen E) as [-> ->]. now split.
Qed.

(** Two payments get the same key exactly when their references agree on
    the first four letters and digits and their clock readings agree
    modulo 10000 ms. *)
Theorem uniqueRef_collision (r1 r2 : string) (t1 t2 : Z) :
  1000 <= t1 -> 1000 <= t2 ->
  Gen.uniqueRef r1 t1 = Gen.uniqueRef r2 t2
  <-> take_chars 4 (filter_string is_alnum r1) = take_chars 4 (filter_string is_alnum r2)
      /\ t1 mod 10000 = t2 mod 10000.
Proof.
  intros H1 H2. unfold Gen.uniqueRef.
  rewrite !timestamp_four_digits by assumption.
  split.
  - intros E. apply append_split in E as [E1 E2]; [| reflexivity].
    split; [exact E1 |].
    rewrite <- (four_digits_value (t1 mod 10000)), <- (four_digits_value (t2 mod 10000))
      by (apply Z.mod_pos_bound; lia).
    now rewrite E2.
  - intros [-> ->]. reflexivity.
Qed.

End Keys.

(** ** The record the polling server keeps *)

Section PollRecord.
Context `{Runtime}.

Lemma prop_assign_eq (k : string) (v : json) (fs : list (string * json)) :
  prop (assign k (Some v) (JObj fs)) k = Some v.
Proof.
  cbn [assign prop]. rewrite field_app. cbn [field]. now rewrite String.eqb_refl.
Qed.

Lemma assign_object (k : string) (v : value) (fs : list (string * json)) :
  exists fs', assign k v (JObj fs) = JObj fs'.
Proof. cbn [assign]. eauto. Qed.

Lemma assign_all_object (changes : list (string * value)) (fs : list (string * json)) :
  exists fs', assign_all changes (JObj fs) = JObj fs'.
Proof.
  revert fs. induction changes as [|[k v] changes IH]; intros fs; [eauto |].
  cbn [assign_all]. destruct (assign_object k v fs) as (fs' & ->). apply IH.
Qed.

(** The record the webhook leaves under its key. *)
Lemma poll_callback_memory (body : json) (res : nat) (w0 : world Cache.Memory)
    (k : string) (m : json) :
  Some body ?> "external_reference" = Some (JStr k) ->
  k <> "" ->
  memory w0 !! KStr k = Some m ->
  truthy (Some m) = true ->
  (Poll.confirms body = true -> truthy (Some m ?> "user_id") = true) ->
  memory (snd (Poll.callback body res w0))
  = <[KStr k :=
        assign_all
          [("status", Some (JStr (if Poll.confirms body then "SUCCESS" else "FAILED")));
           ("verified", Some (JBool (Poll.confirms body)));
           ("lastUpdated", Some (JStr (toISOString (clock w0))))] m]> (memory w0).
Proof.
  intros Hext Hk Hm Ht Hpayer.
  assert (Htk : truthy (Some (JStr k)) = true).
  { cbn [truthy]. apply negb_true_iff. now apply String.eqb_neq. }
  unfold Poll.callback.
  unfold bind at 1, get_world at 1. cbn iota beta zeta.
  rewrite (poll_reference_read body (clock w0)), (poll_status_read body (clock w0)).
  rewrite Hext, Htk.
  unfold bind at 1. unfold try_catch at 1.
  unfold bind at 1, lift at 1. cbn iota.
  unfold bind at 1, get_world at 1. cbn iota.
  unfold Cache.cache_get at 1 2 3 4 5 6. cbn [to_key]. rewrite Hm.
  rewrite Ht. cbn [andb].
  unfold bind at 1.
  match goal with
  | |- context [try_catch ?b (fun _ => ret tt) w0] =>
      destruct (swallowed_settles (store_only w0) b w0) as (w1 & E1 & H1)
  end.
  { unfold Store.insert_callback. repeat (confined_step || primitive). }
  { apply store_only_refl. }
  rewrite E1. cbn iota.
  unfold try_catch at 1. unfold bind at 1, lift at 1.
  assert (Hfin : forall (w2 : world Cache.Memory) (verified : bool) (st : string),
             store_only w0 w2 ->
             memory (snd (sendStatus res 200
                       (with_memory
                          (<[KStr k := assign_all
                                         [("status", Some (JStr st));
                                          ("verified", Some (JBool verified));
                                          ("lastUpdated",
                                           Some (JStr (toISOString (clock w2))))] m]>
                             (memory w2)) w2)))
             = <[KStr k := assign_all
                             [("status", Some (JStr st));
                              ("verified", Some (JBool verified));
                              ("lastUpdated", Some (JStr (toISOString (clock w0))))] m]>
                 (memory w0)).
  { intros w2 verified st (_ & Hmem & Hclock & _).
    pose proof (respond_frame res 200 (JStr "OK")
                  (with_memory
                     (<[KStr k := assign_all
                                    [("status", Some (JStr st));
                                     ("verified", Some (JBool verified));
                                     ("lastUpdated",
                                      Some (JStr (toISOString (clock w2))))] m]>
                        (memory w2)) w2)) as F.
    cbv zeta in F. destruct F as (F & _).
    change (sendStatus res 200) with (respond (R := Cache.Memory) res 200 (JStr "OK")).
    rewrite F. cbn [memory with_memory]. now rewrite Hmem, Hclock. }
  destruct (Poll.confirms body) eqn:Hc.
  - rewrite (Hpayer eq_refl). cbn [negb].
    change (lower_is (JStr "SUCCESS") "success") with (Done (A := bool) true).
    cbn iota. unfold bind at 1.
    match goal with
    | |- context [try_catch ?b (fun _ => ret tt) w1] =>
        destruct (swallowed_settles (store_only w0) b w1) as (w2 & E2 & H2)
    end.
    { unfold Poll.update_wallet, Store.insert_transaction, Store.select_user,
        Store.update_user.
      repeat (confined_step || primitive). }
    { exact H1. }
    rewrite E2. cbn iota.
    change (truthy (Some (JStr "SUCCESS"))) with true. cbn iota.
    unfold bind at 1. unfold bind at 1, lift at 1, ret at 1. cbn iota.
    unfold bind at 1. unfold bind at 1, lift at 1.
    change (call_toUpperCase (Some (JStr "SUCCESS"))) with (Done (A := string) "SUCCESS").
    unfold ret at 1. cbn iota.
    unfold bind at 1, get_world at 1. cbn iota.
    rewrite cache_set_string. cbn iota.
    now apply Hfin.
  - change (lower_is (JStr "FAILED") "success") with (Done (A := bool) false).
    cbn iota. unfold bind at 1. unfold bind at 1, lift at 1.
    change (lower_is (JStr "FAILED") "failed") with (Done (A := bool) true).
    unfold ret at 1. cbn iota.
    change (truthy (Some (JStr "FAILED"))) with true. cbn iota.
    unfold bind at 1. unfold bind at 1, lift at 1, ret at 1.
    change (lower_is (JStr "FAILED") "success") with (Done (A := bool) false).
    cbn iota.
    unfold bind at 1. unfold bind at 1, lift at 1.
    change (call_toUpperCase (Some (JStr "FAILED"))) with (Done (A := string) "FAILED").
    unfold ret at 1. cbn iota.
    unfold bind at 1, get_world at 1. cbn iota.
    rewrite cache_set_string. cbn iota.
    now apply Hfin.
Qed.

(** The handler moves neither the clock nor the handle counter. *)
Lemma poll_callback_time (body : json) (res : nat) (w0 : world Cache.Memory) :
  clock (snd (Poll.callback body res w0)) = clock w0
  /\ next_handle (snd (Poll.callback body res w0)) = next_handle w0.
Proof.
  assert (Hk : keeps (fun w' : world Cache.Memory =>
                        clock w' = clock w0 /\ next_handle w' = next_handle w0)
                 (Poll.callback body res)).
  { unfold Poll.callback, Poll.update_wallet, Store.insert_callback,
      Store.insert_transaction, Store.select_user, Store.update_user.
    cbv zeta. repeat kept_step. }
  now apply Hk.
Qed.

(** After a webhook for a key that has a record, the record carries the
    outcome, and the status lookup reports the payment as verified exactly
    when the webhook confirmed it.  This holds whatever the store answers;
    the one exception is the confirmed payment without a user, where the
    handler returns early and the record stays as it was. *)
Theorem poll_webhook_then_status (body : json) (w : world Cache.Memory) (k : string)
    (fs : list (string * json)) :
  Some body ?> "external_reference" = Some (JStr k) ->
  k <> "" ->
  memory w !! KStr k = Some (JObj fs) ->
  (Poll.confirms body = true -> truthy (field "user_id" fs) = true) ->
  answered w (next_handle w) = false ->
  answered w (S (next_handle w)) = false ->
  let w1 := snd (serve (Poll.callback body) w) in
  exists record,
    memory w1 !! KStr k = Some record
    /\ Some record ?> "status"
       = Some (JStr (if Poll.confirms body then "SUCCESS" else "FAILED"))
    /\ Some record ?> "verified" = Some (JBool (Poll.confirms body))
    /\ writes_to (snd (serve (Poll.status k) w1)) (S (next_handle w))
       = [{| code := 200;
             body := object [("status", Some (JStr "Success"));
                             ("payment_status", Some record);
                             ("verified", Some (JBool (Poll.confirms body)));
                             ("timestamp", Some (JStr (toISOString (clock w))))] |}].
Proof.
  intros Hext Hk Hm Hpayer Hans Hans' w1. subst w1.
  set (h := next_handle w) in *.
  set (w0 := with_next_handle (S h) w).
  change (serve (Poll.callback body) w) with (Poll.callback body h w0).
  pose proof (poll_callback_memory body h w0 k (JObj fs) Hext Hk Hm eq_refl Hpayer) as Hmem.
  destruct (poll_callback_time body h w0) as (Hclock & Hnext).
  destruct (poll_callback_run body h w0 Hans) as (w1 & E & Hs & _).
  assert (Hearly : Poll.confirms body && truthy (Some body ?> "external_reference")
                   && negb (truthy (Poll.payer body (memory w0))) = false).
  { unfold Poll.payer, Cache.cache_get. rewrite Hext. cbn [to_key].
    change (memory w0) with (memory w). rewrite Hm.
    destruct (Poll.confirms body); [| reflexivity].
    cbn [opt prop]. rewrite (Hpayer eq_refl). now rewrite andb_false_r. }
  rewrite Hearly in E.
  set (w2 := snd (Poll.callback body h w0)) in *.
  assert (Hsent2 : sent w2 = (sent w ++ [(h, acknowledgement)])%list).
  { subst w2. rewrite E. cbn [snd sent with_sent]. now rewrite Hs. }
  destruct (assign_all_object
              [("status", Some (JStr (if Poll.confirms body then "SUCCESS" else "FAILED")));
               ("verified", Some (JBool (Poll.confirms body)));
               ("lastUpdated", Some (JStr (toISOString (clock w0))))] fs) as (fs' & Hrec).
  rewrite Hrec in Hmem.
  assert (Hget : memory w2 !! KStr k = Some (JObj fs'))
    by (rewrite Hmem; apply lookup_insert_eq).
  assert (Hstatus : Some (JObj fs') ?> "status"
                    = Some (JStr (if Poll.confirms body then "SUCCESS" else "FAILED"))).
  { rewrite <- Hrec. cbn [opt assign_all].
    rewrite !prop_assign_ne by discriminate. apply prop_assign_eq. }
  assert (Hverified : Some (JObj fs') ?> "verified" = Some (JBool (Poll.confirms body))).
  { rewrite <- Hrec. cbn [opt assign_all].
    rewrite prop_assign_ne by discriminate.
    destruct (assign_object "status"
                (Some (JStr (if Poll.confirms body then "SUCCESS" else "FAILED"))) fs)
      as (fs1 & ->).
    apply prop_assign_eq. }
  exists (JObj fs'). split; [exact Hget |]. split; [exact Hstatus |].
  split; [exact Hverified |].
  change (serve (Poll.status k) w2)
    with (Poll.status k (next_handle w2) (with_next_handle (S (next_handle w2)) w2)).
  rewrite Hnext. cbn [next_handle with_next_handle w0].
  rewrite (poll_status_memory k (JObj fs') (S h) (with_next_handle (S (S h)) w2) Hget eq_refl).
  assert (Ha2 : answered (with_next_handle (S (S h)) w2) (S h) = false).
  { unfold answered. cbn [sent with_next_handle]. rewrite Hsent2, existsb_app.
    fold (answered w (S h)). rewrite Hans'. cbn [existsb fst orb].
    rewrite orb_false_r. apply Nat.eqb_neq. lia. }
  rewrite (respond_writes _ _ _ _ Ha2). cbn [clock with_next_handle].
  rewrite Hclock, Hstatus.
  destruct (Poll.confirms body); reflexivity.
Qed.

End PollRecord.

(** ** An initiation the provider rejects *)

Section RelayRejection.
Context `{Runtime}.

Lemma pay_finish_rejects (w : world Relay.Memory) (h : nat) (payload : json)
    (rq : Relay.PendingRequest) (provider : nat -> api_result) :
  Relay.awaiting (memory w) !! h = Some payload ->
  Relay.objects (memory w) !! h = Some rq ->
  Relay.accepts (Relay.gateway rq) provider = false ->
  answered w h = false ->
  exists w' b,
    Relay.pay_finish h provider w = (Done tt, w')
    /\ memory w' = Relay.set_awaiting (delete h (Relay.awaiting (memory w))) (memory w)
    /\ sent w' = (sent w ++ [(h, {| code := 500; body := b |})])%list
    /\ Some b ?> "status" = Some (JStr "FAILED")
    /\ Some b ?> "external_reference" = Some (JStr (Relay.uniqueRef rq))
    /\ length (api_calls w')
       = (length (api_calls w)
          + match Relay.gateway rq with Relay.payhero => 1 | Relay.swiftwallet => 3 end)%nat.
Proof.
  intros Haw Hobj Hacc Hans.
  destruct w as [m s d ds ac sl c nh]. cbn [memory] in Haw, Hobj.
  unfold Relay.pay_finish. unfold bind at 1. unfold get_world at 1. cbn [memory].
  rewrite Haw, Hobj.
  unfold bind at 1. unfold Relay.modify_memory at 1, bind at 1, get_world at 1, set_memory at 1.
  cbn iota. unfold Relay.accepts in Hacc.
  destruct (Relay.gateway rq) eqn:Egw.
  - destruct (provider 1%nat) as [st data|e] eqn:E1; [discriminate |].
    unfold try_catch, bind, log_api_call, throw. cbn iota.
    rewrite respond_unanswered by exact Hans.
    eexists _, _. split; [reflexivity |].
    cbn [memory sent api_calls with_sent with_memory with_api_calls].
    repeat split; try (read_fields; reflexivity).
    rewrite length_app. reflexivity.
  - pose proof (retry_loop_run payload provider
                  (with_memory (Relay.set_awaiting (delete h (Relay.awaiting m)) m)
                     {| memory := m; sent := s; db := d; db_script := ds; api_calls := ac;
                        sleeps := sl; clock := c; next_handle := nh |})) as [Hn Hloop].
    cbv zeta in Hn.
    unfold try_catch. unfold bind at 1. cbn [memory] in Hloop |- *. rewrite Hloop.
    destruct (provider (Relay.last_attempt provider)) as [st data|e] eqn:El; [discriminate |].
    rewrite respond_unanswered by exact Hans.
    eexists _, _. split; [reflexivity |].
    cbn [memory sent api_calls with_sent with_memory with_api_calls with_sleeps].
    repeat split; try (read_fields; reflexivity).
    rewrite length_app, repeat_length.
    assert (Relay.last_attempt provider = 3%nat); [| lia].
    unfold Relay.last_attempt in El |- *.
    destruct (provider 1%nat) eqn:E1; [congruence |].
    destruct (provider 2%nat) eqn:E2; [congruence |]. reflexivity.
Qed.

(** When the provider rejects the initiation (the one PayHero call, or all
    three SwiftWallet attempts), the caller is answered once, with 500 and
    the status FAILED; no timer is set; and the request stays in
    [transactionStatuses] under its key, unresolved: the [catch] of the
    handler answers without removing it. *)
Theorem relay_rejected_initiation (fs : list (string * json)) (p ref : string)
    (provider : nat -> api_result) (w0 : world Relay.Memory) :
  field "phone" fs = Some (JStr p) ->
  field "reference" fs = Some (JStr ref) ->
  Relay.accepts (Relay.route ref) provider = false ->
  answered w0 (next_handle w0) = false ->
  let h := next_handle w0 in
  let k := Gen.uniqueRef ref (clock w0) in
  let w1 := snd (serve (Relay.pay (JObj fs) provider) w0) in
  (exists b,
      writes_to w1 h = [{| code := 500; body := b |}]
      /\ Some b ?> "status" = Some (JStr "FAILED")
      /\ Some b ?> "external_reference" = Some (JStr k))
  /\ Relay.timers (memory w1) = Relay.timers (memory w0)
  /\ (exists rq, Relay.registry_get (Some (JStr k)) (memory w1) = Some (h, rq)
                 /\ Relay.resolved rq = false)
  /\ length (api_calls w1)
     = (length (api_calls w0)
        + match Relay.route ref with Relay.payhero => 1 | Relay.swiftwallet => 3 end)%nat.
Proof.
  intros Hp Hr Hacc Hans. cbv zeta.
  destruct (pay_begin_registers fs p ref w0 Hp Hr)
    as (rq & payload & Hbegin & Hres & Hunres & Hkey & Hgw).
  assert (Hserve : serve (Relay.pay (JObj fs) provider) w0
                   = Relay.pay_finish (next_handle w0) provider
                       (with_memory (Relay.register rq payload (memory w0))
                          (with_next_handle (S (next_handle w0)) w0))).
  { unfold serve, bind at 1, accept at 1 in Hbegin.
    unfold serve, bind at 1, accept at 1. unfold Relay.pay, bind at 1.
    now rewrite Hbegin. }
  rewrite Hserve. clear Hserve Hbegin.
  set (wA := with_memory (Relay.register rq payload (memory w0))
               (with_next_handle (S (next_handle w0)) w0)).
  assert (Haw : Relay.awaiting (memory wA) !! next_handle w0 = Some payload).
  { cbn [wA memory with_memory Relay.register Relay.set_awaiting Relay.awaiting].
    rewrite Hres. apply lookup_insert_eq. }
  assert (Hob : Relay.objects (memory wA) !! next_handle w0 = Some rq).
  { cbn [wA memory with_memory Relay.register Relay.set_awaiting Relay.registry_set
         Relay.object_new Relay.objects].
    rewrite Hres. apply lookup_insert_eq. }
  rewrite <- Hgw in Hacc.
  destruct (pay_finish_rejects wA (next_handle w0) payload rq provider Haw Hob Hacc Hans)
    as (w1 & b & -> & Hm & Hs & Hst & Hext & Hcalls).
  cbn [snd]. rewrite Hkey in Hext. rewrite Hgw in Hcalls.
  split; [| split; [| split]].
  - exists b. split; [| split; assumption].
    unfold writes_to. rewrite Hs. cbn [wA sent with_memory with_next_handle].
    rewrite filter_app, map_app. fold (writes_to w0 (next_handle w0)).
    rewrite (unanswered_no_writes w0 _ Hans). cbn [filter].
    rewrite filter_cons_True by reflexivity. reflexivity.
  - rewrite Hm. reflexivity.
  - exists rq. split; [| exact Hunres].
    rewrite Hm. unfold Relay.registry_get.
    cbn [wA memory with_memory Relay.register Relay.set_awaiting Relay.registry_set
         Relay.object_new Relay.transactionStatuses Relay.objects].
    rewrite Hkey, Hres, !lookup_insert_eq. reflexivity.
  - exact Hcalls.
Qed.

End RelayRejection.

(** ** A webhook that finds its caller already answered *)

Section RelayLateWebhook.
Context `{Runtime}.




End RelayLateWebhook.

(** ** The webhook read back by the status lookup *)

Section RelayReadBack.
Context `{Runtime}.








End RelayReadBack.

(** ** Polling while the caller is held *)

Section RelayQueued.
Context `{Runtime}.

(** An accepted initiation touches neither the store nor any response. *)
Lemma pay_frame (fs : list (string * json)) (p ref : string)
    (provider : nat -> api_result) (w0 : world Relay.Memory) :
  field "phone" fs = Some (JStr p) ->
  field "reference" fs = Some (JStr ref) ->
  Relay.accepts (Relay.route ref) provider = true ->
  let w1 := snd (serve (Relay.pay (JObj fs) provider) w0) in
  db w1 = db w0 /\ db_script w1 = db_script w0 /\ sent w1 = sent w0
  /\ clock w1 = clock w0 /\ next_handle w1 = S (next_handle w0).
Proof.
  intros Hp Hr Hacc. cbv zeta.
  destruct (pay_begin_registers fs p ref w0 Hp Hr)
    as (rq & payload & Hbegin & Hres & Hunres & Hkey & Hgw).
  assert (Hserve : serve (Relay.pay (JObj fs) provider) w0
                   = Relay.pay_finish (next_handle w0) provider
                       (with_memory (Relay.register rq payload (memory w0))
                          (with_next_handle (S (next_handle w0)) w0))).
  { unfold serve, bind at 1, accept at 1 in Hbegin.
    unfold serve, bind at 1, accept at 1. unfold Relay.pay, bind at 1.
    now rewrite Hbegin. }
  rewrite Hserve. clear Hserve Hbegin.
  set (wA := with_memory (Relay.register rq payload (memory w0))
               (with_next_handle (S (next_handle w0)) w0)).
  assert (Haw : Relay.awaiting (memory wA) !! next_handle w0 = Some payload).
  { cbn [wA memory with_memory Relay.register Relay.set_awaiting Relay.awaiting].
    rewrite Hres. apply lookup_insert_eq. }
  assert (Hob : Relay.objects (memory wA) !! next_handle w0 = Some rq).
  { cbn [wA memory with_memory Relay.register Relay.set_awaiting Relay.registry_set
         Relay.object_new Relay.objects].
    rewrite Hres. apply lookup_insert_eq. }
  rewrite <- Hgw in Hacc.
  destruct (pay_finish_schedules wA (next_handle w0) payload rq provider Haw Hob Hacc)
    as (w1 & f & -> & _ & _ & Hs & Hn & Hc & Hds & Hd).
  cbn [snd]. rewrite Hd, Hds, Hs, Hc, Hn. repeat split.
Qed.

(** While the caller of an accepted payment is held and no webhook has
    been stored for its key, the status lookup for the key answers 200 with
    the status QUEUED, unverified, and leaves the caller waiting. *)
Theorem relay_pay_then_status (fs : list (string * json)) (p ref : string)
    (provider : nat -> api_result) (w0 : world Relay.Memory) :
  field "phone" fs = Some (JStr p) ->
  field "reference" fs = Some (JStr ref) ->
  Relay.accepts (Relay.route ref) provider = true ->
  Relay.well_formed w0 ->
  answered w0 (next_handle w0) = false ->
  answered w0 (S (next_handle w0)) = false ->
  db_script w0 = [] ->
  Store.latest_callback (Gen.uniqueRef ref (clock w0)) (db w0) = None ->
  let h := next_handle w0 in
  let k := Gen.uniqueRef ref (clock w0) in
  let w1 := snd (serve (Relay.pay (JObj fs) provider) w0) in
  let w2 := snd (serve (Relay.status k) w1) in
  (exists b,
      writes_to w2 (S h) = [{| code := 200; body := b |}]
      /\ Some b ?> "payment_status" ?> "status" = Some (JStr "QUEUED")
      /\ Some b ?> "payment_status" ?> "verified" = Some (JBool false))
  /\ writes_to w2 h = []
  /\ Relay.waiting w2 k h = true.
Proof.
  intros Hp Hr Hacc Hwf Hans Hans' Hs Hlatest. cbv zeta.
  destruct (pay_holds fs p ref provider w0 Hp Hr Hacc Hwf Hans) as (Hheld & _ & Hnone).
  destruct (pay_frame fs p ref provider w0 Hp Hr Hacc) as (Hd & Hds & Hsent & Hc & Hn).
  cbv zeta in Hheld, Hnone.
  set (w1 := snd (serve (Relay.pay (JObj fs) provider) w0)) in *.
  set (k := Gen.uniqueRef ref (clock w0)) in *.
  set (h := next_handle w0) in *.
  destruct Hheld as (Hwait & Hlt & Hsole & Hobj).
  destruct (waiting_inv w1 k h Hwait) as (rq & Hget & Hres & Hunres & Hans1).
  change (serve (Relay.status k) w1)
    with (Relay.status k (next_handle w1) (with_next_handle (S (next_handle w1)) w1)).
  rewrite Hn.
  set (w1' := with_next_handle (S (S h)) w1).
  assert (Hs1 : db_script w1' = []) by (cbn; congruence).
  assert (Hl1 : Store.latest_callback k (db w1') = None) by (cbn; congruence).
  assert (Ha1 : answered w1' (S h) = false).
  { unfold answered. cbn [sent w1' with_next_handle]. rewrite Hsent. exact Hans'. }
  assert (Hrun : exists b,
             Relay.status k (S h) w1'
             = (Done tt, with_sent (sent w1' ++ [(S h, {| code := 200; body := b |})]) w1')
             /\ Some b ?> "payment_status" ?> "status" = Some (JStr "QUEUED")
             /\ Some b ?> "payment_status" ?> "verified" = Some (JBool false)).
  { unfold Relay.status. unfold try_catch at 1.
    rewrite (bind_done _ _ _ _ _ (select_latest_healthy k w1' Hs1)).
    rewrite Hl1. cbn [fst snd truthy].
    unfold bind at 1, get_world at 1. cbn iota.
    change (memory w1') with (memory w1). rewrite Hget.
    rewrite (respond_unanswered _ _ _ w1' Ha1).
    eexists. split; [reflexivity |]. read_fields. split; reflexivity. }
  destruct Hrun as (b & -> & Hb1 & Hb2). cbn [snd].
  split; [| split].
  - rewrite writes_to_push, (unanswered_no_writes w1' (S h) Ha1).
    exists b. split; [reflexivity |]. split; assumption.
  - rewrite writes_to_push_other by lia. exact Hnone.
  - unfold Relay.waiting in *. cbn [memory with_sent with_next_handle w1'].
    rewrite Hget in *. rewrite answered_app.
    cbn [existsb fst orb]. change (answered w1' h) with (answered w1 h).
    rewrite Hans1, Hres, Hunres, !Nat.eqb_refl. cbn [andb negb orb].
    rewrite orb_false_r. apply negb_true_iff, Nat.eqb_neq. lia.
Qed.

End RelayQueued.

(** ** Initiation and lookup on the polling server *)

Section PollInitiation.
Context `{Runtime}.

(** What the handler reads from the provider's answer once
    [transformSwiftWalletToPayHero] has reshaped it. *)
Lemma or_else_truthy (a b : value) : truthy a = true -> a ||| b = a.
Proof. unfold or_else. now intros ->. Qed.

Lemma opt_JObj (fs : list (string * json)) (f : string) :
  Some (JObj fs) ?> f = field f fs.
Proof. reflexivity. Qed.




Lemma poll_pay_failed (fs : list (string * json)) (p : string) (e : js_error)
    (res : nat) (w0 : world Cache.Memory) :
  field "phone" fs = Some (JStr p) ->
  answered w0 res = false ->
  exists payload b,
    Poll.pay (JObj fs) (ApiFail e) res w0
    = (Done tt,
       with_sent (sent w0 ++ [(res, {| code := 500; body := b |})])
         (with_api_calls (api_calls w0 ++ [payload]) w0))
    /\ Some b ?> "status" = Some (JStr "Failure")
    /\ Some b ?> "message"
       = response_data e ?> "error" ||| Some (JStr (err_message e))
         ||| Some (JStr "Payment failed").
Proof.
  intros Hp Hans. unfold Poll.pay.
  rewrite !dot_object, Hp.
  unfold bind at 1, lift at 1. cbn iota.
  unfold bind at 1, lift at 1. cbn iota.
  unfold bind at 1, lift at 1. cbn iota.
  unfold bind at 1, lift at 1. cbn iota.
  unfold bind at 1, lift at 1. cbn [receiver]. cbn iota beta zeta.
  unfold try_catch at 1.
  unfold bind at 1, log_api_call at 1. cbn iota.
  unfold bind at 1, throw at 1. cbn iota.
  rewrite respond_unanswered by exact Hans.
  eexists _, _. split; [reflexivity |]. split; read_fields; reflexivity.
Qed.

Lemma payhero_pay_failed (fs : list (string * json)) (p : string) (e : js_error)
    (res : nat) (w0 : world Cache.Memory) :
  field "phone" fs = Some (JStr p) ->
  answered w0 res = false ->
  exists payload b,
    PayHero.pay (JObj fs) (ApiFail e) res w0
    = (Done tt,
       with_sent (sent w0 ++ [(res, {| code := 500; body := b |})])
         (with_api_calls (api_calls w0 ++ [payload]) w0))
    /\ Some b ?> "status" = Some (JStr "Failure")
    /\ Some b ?> "message"
       = response_data e ?> "message" ||| Some (JStr (err_message e))
         ||| Some (JStr "Payment failed").
Proof.
  intros Hp Hans. unfold PayHero.pay.
  rewrite !dot_object, Hp.
  unfold bind at 1, lift at 1. cbn iota.
  unfold bind at 1, lift at 1. cbn iota.
  unfold bind at 1, lift at 1. cbn iota.
  unfold bind at 1, lift at 1. cbn [receiver]. cbn iota beta zeta.
  unfold try_catch at 1.
  unfold bind at 1, log_api_call at 1. cbn iota.
  unfold bind at 1, throw at 1. cbn iota.
  rewrite respond_unanswered by exact Hans.
  eexists _, _. split; [reflexivity |]. split; read_fields; reflexivity.
Qed.

(** An initiation the provider rejects leaves no trace in the memory of
    the polling server or of the first server: the provider is called
    once, the caller is answered once with 500 and the status Failure,
    carrying the provider's error text, and no record is created. *)
Theorem poll_pay_rejected (fs : list (string * json)) (p : string) (e : js_error)
    (w : world Cache.Memory) :
  field "phone" fs = Some (JStr p) ->
  answered w (next_handle w) = false ->
  let w1 := snd (serve (Poll.pay (JObj fs) (ApiFail e)) w) in
  let v1 := snd (serve (PayHero.pay (JObj fs) (ApiFail e)) w) in
  memory w1 = memory w
  /\ length (api_calls w1) = S (length (api_calls w))
  /\ (exists b, writes_to w1 (next_handle w) = [{| code := 500; body := b |}]
                /\ Some b ?> "status" = Some (JStr "Failure")
                /\ Some b ?> "message"
                   = response_data e ?> "error" ||| Some (JStr (err_message e))
                     ||| Some (JStr "Payment failed"))
  /\ memory v1 = memory w
  /\ length (api_calls v1) = S (length (api_calls w))
  /\ (exists b, writes_to v1 (next_handle w) = [{| code := 500; body := b |}]
                /\ Some b ?> "status" = Some (JStr "Failure")
                /\ Some b ?> "message"
                   = response_data e ?> "message" ||| Some (JStr (err_message e))
                     ||| Some (JStr "Payment failed")).
Proof.
  intros Hp Hans. cbv zeta.
  set (h := next_handle w) in *.
  change (serve (Poll.pay (JObj fs) (ApiFail e)) w)
    with (Poll.pay (JObj fs) (ApiFail e) h (with_next_handle (S h) w)).
  change (serve (PayHero.pay (JObj fs) (ApiFail e)) w)
    with (PayHero.pay (JObj fs) (ApiFail e) h (with_next_handle (S h) w)).
  destruct (poll_pay_failed fs p e h (with_next_handle (S h) w) Hp Hans)
    as (payload & b & -> & Hb1 & Hb2).
  destruct (payhero_pay_failed fs p e h (with_next_handle (S h) w) Hp Hans)
    as (payload' & b' & -> & Hb1' & Hb2').
  cbn [snd memory api_calls with_sent with_api_calls with_next_handle].
  assert (Hw : forall (c : list json) (r : Response),
             writes_to (with_sent (sent (with_next_handle (S h) w) ++ [(h, r)])
                          (with_api_calls c (with_next_handle (S h) w))) h = [r]).
  { intros c r. unfold writes_to.
    cbn [sent with_sent with_api_calls with_next_handle].
    rewrite filter_app, map_app. fold (writes_to w h).
    rewrite (unanswered_no_writes w h Hans). cbn [filter].
    rewrite filter_cons_True by reflexivity. reflexivity. }
  rewrite !length_app. cbn [length].
  repeat split; try lia.
  - exists b. now rewrite Hw.
  - exists b'. now rewrite Hw.
Qed.

End PollInitiation.

(** ** A confirmed payment on the polling server *)

Section PollCredit.
Context `{Runtime}.

Lemma amount_truthy (a b : value) : truthy (a ||| b ||| Some (JNum 5)) = true.
Proof.
  unfold or_else. destruct (truthy a) eqn:Ea; cbn iota; rewrite ?Ea; cbn iota; auto.
  destruct (truthy b) eqn:Eb; cbn iota; rewrite ?Eb; cbn iota; auto.
Qed.

Lemma poll_amount_read (body : json) (now : Z) :
  Some (Poll.transformSwiftWalletCallbackToPayHero (Some body) now) ?> "response" ?> "Amount"
  ||| Some (JNum 5)
  = Some body ?> "result" ?> "Amount" ||| Some body ?> "amount" ||| Some (JNum 5).
Proof.
  unfold Poll.transformSwiftWalletCallbackToPayHero. read_fields.
  apply or_else_truthy, amount_truthy.
Qed.

Lemma poll_callback_credit (body : json) (res : nat) (w0 : world Cache.Memory) (k : string)
    (fs : list (string * json)) (uid u : json) :
  Poll.confirms body = true ->
  Some body ?> "external_reference" = Some (JStr k) ->
  k <> "" ->
  memory w0 !! KStr k = Some (JObj fs) ->
  field "user_id" fs = Some uid ->
  truthy (Some uid) = true ->
  db_script w0 = [] ->
  filter (fun r => Store.column_is "id" (Some uid) r) (users (db w0)) = [u] ->
  exists w1 row,
    Poll.callback body res w0 = sendStatus res 200 w1
    /\ transactions (db w1) = (transactions (db w0) ++ [row])%list
    /\ Some row ?> "user_id" = Some uid
    /\ Some row ?> "amount"
       = Some body ?> "result" ?> "Amount" ||| Some body ?> "amount" ||| Some (JNum 5)
    /\ Some row ?> "external_reference" = Some (JStr k)
    /\ filter (fun r => Store.column_is "id" (Some uid) r) (users (db w1))
       = [assign_all
            [("recharge_wallet",
              Some (plus (prop u "recharge_wallet" ||| Some (JNum 0))
                         (Some body ?> "result" ?> "Amount" ||| Some body ?> "amount"
                          ||| Some (JNum 5))));
             ("updated_at", Some (JStr (toISOString (clock w0))))] u]
    /\ length (payment_callbacks (db w1)) = S (length (payment_callbacks (db w0))).
Proof.
  intros Hc Hext Hk Hm Hu Htu Hs Huser.
  assert (Htk : truthy (Some (JStr k)) = true).
  { cbn [truthy]. apply negb_true_iff. now apply String.eqb_neq. }
  unfold Poll.callback.
  unfold bind at 1, get_world at 1. cbn iota beta zeta.
  rewrite (poll_reference_read body (clock w0)), (poll_status_read body (clock w0)).
  rewrite (poll_amount_read body (clock w0)).
  rewrite Hext, Htk, Hc.
  unfold bind at 1. unfold try_catch at 1.
  unfold bind at 1, lift at 1. cbn iota.
  unfold bind at 1, get_world at 1. cbn iota.
  unfold Cache.cache_get at 1 2 3 4 5 6. cbn [to_key]. rewrite Hm.
  rewrite opt_JObj, Hu, Htu. cbn [negb truthy andb].
  unfold bind at 1. unfold try_catch at 1.
  rewrite (bind_done _ _ _ _ _ (insert_callback_healthy _ w0 Hs)).
  cbn [truthy]. unfold ret at 1. cbn iota.
  match goal with |- context [with_db ?d w0] => set (w1 := with_db d w0) end.
  assert (Hs1 : db_script w1 = []) by exact Hs.
  unfold try_catch at 1. unfold bind at 1, lift at 1.
  change (lower_is (JStr "SUCCESS") "success") with (Done (A := bool) true).
  cbn iota. unfold bind at 1. unfold try_catch at 1.
  unfold bind at 1, get_world at 1. cbn iota.
  rewrite (bind_done _ _ _ _ _ (insert_transaction_healthy _ w1 Hs1)).
  cbn [truthy].
  match goal with |- context [with_db ?d w1] => set (w2 := with_db d w1) end.
  assert (Hs2 : db_script w2 = []) by exact Hs.
  unfold Poll.update_wallet. unfold try_catch at 1.
  unfold Store.select_user.
  rewrite (bind_done _ _ _ _ _ (call_healthy _ _ _ w2 Hs2)).
  cbn [fst snd truthy]. unfold bind at 1, get_world at 1. cbn iota.
  change (users (db w2)) with (users (db w0)). rewrite Huser.
  cbn [map Store.single]. unfold Store.project at 1. cbn [map].
  rewrite opt_object. cbn [literal_field]. rewrite String.eqb_refl, ?option_eta.
  set (w3 := with_db (db w2) w2).
  assert (Hs3 : db_script w3 = []) by exact Hs.
  unfold Store.update_user.
  rewrite (bind_done _ _ _ _ _ (call_healthy _ _ _ w3 Hs3)).
  unfold ret at 1. cbn iota.
  match goal with |- context [with_db ?d w3] => set (w4 := with_db d w3) end.
  match goal with
  | |- context [bind ?m ?f w4] =>
      assert (Hblk : exists record,
                 bind m f w4 = (Done tt, with_memory (<[KStr k := record]> (memory w4)) w4))
        by (eexists; reflexivity)
  end.
  destruct Hblk as (record & ->). cbn iota.
  eexists _, _. split; [reflexivity |].
  cbn [db with_memory].
  split; [reflexivity |].
  split; [read_fields; reflexivity |].
  split; [read_fields; reflexivity |].
  split; [read_fields; reflexivity |].
  split.
  - cbn [w4 w3 w2 w1 db with_db users Store.set_users Store.add_transaction
           Store.add_callback].
    rewrite update_rows_filter by (repeat constructor; cbn [fst]; discriminate).
    rewrite Huser. reflexivity.
  - cbn [w4 w3 w2 w1 db with_db payment_callbacks Store.set_users Store.add_transaction
           Store.add_callback].
    rewrite length_app. cbn [length]. lia.
Qed.

(** A webhook that confirms a payment whose record names a user credits
    that user once: with the store answering and one row for the user, the
    handler stores the callback, adds one deposit row to the ledger for the
    user, the reference and the webhook's amount (5 when it names none), and
    sets the user's [recharge_wallet] to the old balance plus that amount. *)
Theorem poll_confirmed_payment_credits (body : json) (w : world Cache.Memory) (k : string)
    (fs : list (string * json)) (uid u : json) :
  Poll.confirms body = true ->
  Some body ?> "external_reference" = Some (JStr k) ->
  k <> "" ->
  memory w !! KStr k = Some (JObj fs) ->
  field "user_id" fs = Some uid ->
  truthy (Some uid) = true ->
  db_script w = [] ->
  filter (fun r => Store.column_is "id" (Some uid) r) (users (db w)) = [u] ->
  let amount := Some body ?> "result" ?> "Amount" ||| Some body ?> "amount"
                ||| Some (JNum 5) in
  let w1 := snd (serve (Poll.callback body) w) in
  (exists row,
      transactions (db w1) = (transactions (db w) ++ [row])%list
      /\ Some row ?> "user_id" = Some uid
      /\ Some row ?> "amount" = amount
      /\ Some row ?> "external_reference" = Some (JStr k))
  /\ filter (fun r => Store.column_is "id" (Some uid) r) (users (db w1))
     = [assign_all
          [("recharge_wallet",
            Some (plus (prop u "recharge_wallet" ||| Some (JNum 0)) amount));
           ("updated_at", Some (JStr (toISOString (clock w))))] u]
  /\ stored w1 = S (stored w).
Proof.
  intros Hc Hext Hk Hm Hu Htu Hs Huser. cbv zeta.
  change (serve (Poll.callback body) w)
    with (Poll.callback body (next_handle w) (with_next_handle (S (next_handle w)) w)).
  destruct (poll_callback_credit body (next_handle w)
              (with_next_handle (S (next_handle w)) w) k fs uid u
              Hc Hext Hk Hm Hu Htu Hs Huser)
    as (w1 & row & -> & Htx & Hr1 & Hr2 & Hr3 & Husers & Hstored).
  pose proof (respond_frame (next_handle w) 200 (JStr "OK") w1) as F.
  cbv zeta in F. destruct F as (_ & Hdb & _).
  change (sendStatus (next_handle w) 200 w1)
    with (respond (next_handle w) 200 (JStr "OK") w1).
  unfold stored. rewrite Hdb.
  split; [exists row; repeat split; assumption |].
  split; [exact Husers | exact Hstored].
Qed.

End PollCredit.

(** ** The oldest server: where the record goes and where it is looked up *)

Section LegacyInitiation.
Context `{Runtime}.

Lemma legacy_status_memory (ref : string) (m : json) (res : nat) (w : world Cache.Memory) :
  memory w !! KStr ref = Some m -> truthy (Some m) = true ->
  Legacy.status ref res w
  = respond res 200
      (object [("status", Some (JStr "Success")); ("payment_status", Some m)]) w.
Proof.
  intros Hm Ht. unfold Legacy.status, bind, get_world.
  unfold Cache.cache_get. cbn [to_key]. rewrite Hm, Ht. reflexivity.
Qed.

Lemma legacy_pay_accepted (fs ds : list (string * json)) (p k : string) (st : Z)
    (res : nat) (w0 : world Cache.Memory) :
  field "phone" fs = Some (JStr p) ->
  field "external_reference" ds = Some (JStr k) ->
  k <> "" ->
  answered w0 res = false ->
  exists payload b,
    Legacy.pay (JObj fs) (ApiOk st (JObj ds)) res w0
    = (Done tt,
       with_sent (sent w0 ++ [(res, {| code := 200; body := b |})])
         (with_memory
            (<[KStr k :=
                 object [("status", field "status" ds ||| Some (JStr "QUEUED"));
                         ("details",
                          Some (JStr "STK Push initiated, waiting for user confirmation."));
                         ("checkoutRequestID", field "CheckoutRequestID" ds)]]>
               (memory w0))
            (with_api_calls (api_calls w0 ++ [payload]) w0)))
    /\ Some b ?> "external_reference" = field "reference" fs.
Proof.
  intros Hp Hk Hne Hans.
  assert (Htk : truthy (Some (JStr k)) = true).
  { cbn [truthy]. apply negb_true_iff. now apply String.eqb_neq. }
  unfold Legacy.pay.
  rewrite !dot_object, Hp.
  unfold bind at 1, lift at 1. cbn iota.
  unfold bind at 1, lift at 1. cbn iota.
  unfold bind at 1, lift at 1. cbn iota.
  unfold bind at 1, lift at 1. cbn [receiver]. cbn iota beta zeta.
  unfold try_catch at 1.
  unfold bind at 1, log_api_call at 1. cbn iota.
  unfold bind at 1, ret at 1. cbn iota.
  rewrite !dot_object, Hk.
  unfold bind at 1, lift at 1. cbn iota. rewrite Htk.
  unfold bind at 1. unfold bind at 1, lift at 1. cbn iota.
  unfold bind at 1, lift at 1. cbn iota.
  rewrite cache_set_string. cbn iota.
  unfold bind at 1, lift at 1. cbn iota.
  unfold bind at 1, lift at 1. cbn iota.
  unfold bind at 1, lift at 1. cbn iota.
  rewrite respond_unanswered by exact Hans.
  eexists _, _. split; [reflexivity |].
  read_fields. reflexivity.
Qed.

(** The oldest server keeps the record of an accepted initiation under the
    reference the provider returns, while its answer to the caller names
    the caller's own reference.  The status lookup finds the record under
    the provider's reference; under any other reference that has no record
    of its own, the caller's included, it answers 404. *)
Theorem legacy_pay_then_status (fs ds : list (string * json)) (p k other : string) (st : Z)
    (w : world Cache.Memory) :
  field "phone" fs = Some (JStr p) ->
  field "external_reference" ds = Some (JStr k) ->
  k <> "" ->
  other <> k ->
  memory w !! KStr other = None ->
  answered w (next_handle w) = false ->
  answered w (S (next_handle w)) = false ->
  let record := object [("status", field "status" ds ||| Some (JStr "QUEUED"));
                        ("details",
                         Some (JStr "STK Push initiated, waiting for user confirmation."));
                        ("checkoutRequestID", field "CheckoutRequestID" ds)] in
  let w1 := snd (serve (Legacy.pay (JObj fs) (ApiOk st (JObj ds))) w) in
  (exists b, writes_to w1 (next_handle w) = [{| code := 200; body := b |}]
             /\ Some b ?> "external_reference" = field "reference" fs)
  /\ memory w1 !! KStr k = Some record
  /\ writes_to (snd (serve (Legacy.status k) w1)) (S (next_handle w))
     = [{| code := 200;
           body := object [("status", Some (JStr "Success"));
                           ("payment_status", Some record)] |}]
  /\ map code (writes_to (snd (serve (Legacy.status other) w1)) (S (next_handle w)))
     = [404].
Proof.
  intros Hp Hk Hne Hother Hnone Hans Hans'. cbv zeta.
  set (h := next_handle w) in *.
  change (serve (Legacy.pay (JObj fs) (ApiOk st (JObj ds))) w)
    with (Legacy.pay (JObj fs) (ApiOk st (JObj ds)) h (with_next_handle (S h) w)).
  destruct (legacy_pay_accepted fs ds p k st h (with_next_handle (S h) w) Hp Hk Hne Hans)
    as (payload & b & -> & Hb).
  cbn [snd].
  set (w1 := with_sent _ _).
  assert (Hget : memory w1 !! KStr k
                 = Some (object [("status", field "status" ds ||| Some (JStr "QUEUED"));
                                 ("details",
                                  Some (JStr "STK Push initiated, waiting for user confirmation."));
                                 ("checkoutRequestID", field "CheckoutRequestID" ds)]))
    by apply lookup_insert_eq.
  assert (Hmiss : memory w1 !! KStr other = None).
  { subst w1. cbn [memory with_sent with_memory with_api_calls with_next_handle].
    rewrite lookup_insert_ne by congruence. exact Hnone. }
  assert (Ha : answered (with_next_handle (S (S h)) w1) (S h) = false).
  { subst w1. unfold answered.
    cbn [sent with_sent with_memory with_api_calls with_next_handle].
    rewrite existsb_app. fold (answered w (S h)). rewrite Hans'.
    cbn [existsb fst orb]. rewrite orb_false_r. apply Nat.eqb_neq. lia. }
  split; [| split; [exact Hget | split]].
  - exists b. split; [| exact Hb].
    subst w1. unfold writes_to.
    cbn [sent with_sent with_memory with_api_calls with_next_handle].
    rewrite filter_app, map_app. fold (writes_to w h).
    rewrite (unanswered_no_writes w h Hans). cbn [filter].
    rewrite filter_cons_True by reflexivity. reflexivity.
  - change (serve (Legacy.status k) w1)
      with (Legacy.status k (S h) (with_next_handle (S (S h)) w1)).
    rewrite (legacy_status_memory k _ (S h) (with_next_handle (S (S h)) w1) Hget eq_refl).
    now rewrite (respond_writes _ _ _ _ Ha).
  - change (serve (Legacy.status other) w1)
      with (Legacy.status other (S h) (with_next_handle (S (S h)) w1)).
    rewrite (legacy_status_absent other (S h) (with_next_handle (S (S h)) w1) Hmiss).
    now rewrite (respond_writes _ _ _ _ Ha).
Qed.

End LegacyInitiation.

(** ** Initiation and lookup on the first server *)

Section PayHeroInitiation.
Context `{Runtime}.



End PayHeroInitiation.

(** ** Status lookups are safe *)

Section SafeLookups.
Context `{Runtime}.

(** No status lookup of any revision writes to the store; those of the
    oldest and of the held-connection server leave the memory as it is as
    well. *)
Theorem status_lookups_are_safe (ref : string) (v : world Cache.Memory)
    (r : world Relay.Memory) :
  db (snd (serve (Legacy.status ref) v)) = db v
  /\ memory (snd (serve (Legacy.status ref) v)) = memory v
  /\ db (snd (serve (PayHero.status ref) v)) = db v
  /\ db (snd (serve (Poll.status ref) v)) = db v
  /\ db (snd (serve (Relay.status ref) r)) = db r
  /\ memory (snd (serve (Relay.status ref) r)) = memory r.
Proof.
  assert (Hl : keeps (fun w : world Cache.Memory => db w = db v /\ memory w = memory v)
                 (serve (Legacy.status ref))).
  { unfold serve, accept, Legacy.status. cbv zeta.
    apply keeps_bind; [intros w Hw; exact Hw | intros res]. repeat kept_step. }
  assert (Hp : keeps (fun w : world Cache.Memory => db w = db v)
                 (serve (PayHero.status ref))).
  { unfold serve, accept, PayHero.status, Store.select_latest_callback. cbv zeta.
    apply keeps_bind; [intros w Hw; exact Hw | intros res]. repeat kept_step. }
  assert (Hq : keeps (fun w : world Cache.Memory => db w = db v)
                 (serve (Poll.status ref))).
  { unfold serve, accept, Poll.status, Store.select_latest_callback. cbv zeta.
    apply keeps_bind; [intros w Hw; exact Hw | intros res]. repeat kept_step. }
  assert (Hr : keeps (fun w : world Relay.Memory => db w = db r /\ memory w = memory r)
                 (serve (Relay.status ref))).
  { unfold serve, accept, Relay.status, Store.select_latest_callback. cbv zeta.
    apply keeps_bind; [intros w Hw; exact Hw | intros res]. repeat kept_step. }
  destruct (Hl v (conj eq_refl eq_refl)) as (H1 & H2).
  destruct (Hr r (conj eq_refl eq_refl)) as (H5 & H6).
  repeat split; try assumption; [now apply Hp | now apply Hq].
Qed.

End SafeLookups.

Section RelayStatus.
Context `{Runtime}.

Lemma relay_status_run (ref : string) (h : nat) (w0 : world Relay.Memory) :
  answered w0 h = false ->
  exists r,
    sent (snd (Relay.status ref h w0)) = (sent w0 ++ [(h, r)])%list
    /\ (code r = 200 \/ code r = 500).
Proof.
  intros Hans. unfold Relay.status. unfold try_catch at 1. unfold bind at 1.
  destruct (select_latest_confined (store_only w0) ref) with (w := w0) as [Hstay H1];
    [intros ? ? Hw; exact Hw | intros ? ? Hw; exact Hw | apply store_only_refl |].
  destruct H1 as (Hsent & _).
  assert (Ha : answered (snd (Store.select_latest_callback ref w0)) h = false)
    by (now rewrite (answered_sent w0 _ h Hsent)).
  destruct (Store.select_latest_callback ref w0) as [[[rows err]|e|] w1];
    cbn [fst snd] in *; [| | contradiction].
  - destruct (if truthy err then None else rows) as [[|latest rest]|].
    + unfold bind, get_world. cbn iota.
      destruct (Relay.registry_get (Some (JStr ref)) (memory w1)) as [[? ?]|];
        rewrite (respond_unanswered _ _ _ _ Ha); cbn [snd sent with_sent]; rewrite Hsent;
        eexists; (split; [reflexivity |]); cbn [code]; auto.
    + unfold bind at 1, lift at 1.
      pose proof (call_toUpperCase_stays (Some latest ?> "status" ||| Some (JStr "PENDING")))
        as Hup.
      destruct (call_toUpperCase (Some latest ?> "status" ||| Some (JStr "PENDING")))
        as [st|e|]; [| | contradiction]; cbn iota.
      * rewrite (respond_unanswered _ _ _ _ Ha); cbn [snd sent with_sent]; rewrite Hsent.
        eexists; (split; [reflexivity |]); cbn [code]; auto.
      * rewrite (respond_unanswered _ _ _ _ Ha); cbn [snd sent with_sent]; rewrite Hsent.
        eexists; (split; [reflexivity |]); cbn [code]; auto.
    + unfold bind, get_world. cbn iota.
      destruct (Relay.registry_get (Some (JStr ref)) (memory w1)) as [[? ?]|];
        rewrite (respond_unanswered _ _ _ _ Ha); cbn [snd sent with_sent]; rewrite Hsent;
        eexists; (split; [reflexivity |]); cbn [code]; auto.
  - rewrite (respond_unanswered _ _ _ _ Ha); cbn [snd sent with_sent]; rewrite Hsent.
    eexists; (split; [reflexivity |]); cbn [code]; auto.
Qed.

(** The status lookup of the held-connection server answers every request
    once, with 200 or with 500, whatever the store does and whatever the key:
    a key it knows nothing about is not answered 404 or 202. *)
Theorem relay_status_answers_once (ref : string) (w : world Relay.Memory) :
  answered w (next_handle w) = false ->
  exists r,
    writes_to (snd (serve (Relay.status ref) w)) (next_handle w) = [r]
    /\ (code r = 200 \/ code r = 500).
Proof.
  intros Hans.
  change (serve (Relay.status ref) w)
    with (Relay.status ref (next_handle w) (with_next_handle (S (next_handle w)) w)).
  destruct (relay_status_run ref (next_handle w)
              (with_next_handle (S (next_handle w)) w) Hans) as (r & Hsent & Hcode).
  exists r. split; [| exact Hcode].
  unfold writes_to. rewrite Hsent. cbn [sent with_next_handle].
  rewrite filter_app, map_app. fold (writes_to w (next_handle w)).
  rewrite (unanswered_no_writes w _ Hans). cbn [filter].
  rewrite filter_cons_True by reflexivity. reflexivity.
Qed.

End RelayStatus.

(** ** The properties on sample requests *)

Section FurtherWitnesses.
#[local] Existing Instance Sample.runtime.

Lemma payhero_callback_acknowledges_witness :
  let w := with_db_script [DbThrow (network_error "fetch failed")]
             (Sample.boot (∅ : Cache.Memory) 1700000000042) in
  answered w (next_handle w) = false
  /\ writes_to (snd (serve (PayHero.callback Sample.payhero_webhook) w)) 0
     = [acknowledgement].
Proof.
  cbv zeta. split; [reflexivity |].
  exact (proj1 (proj2 (payhero_callback_acknowledges Sample.payhero_webhook
                         (with_db_script [DbThrow (network_error "fetch failed")]
                            (Sample.boot (∅ : Cache.Memory) 1700000000042))
                         eq_refl))).
Defined.

Lemma poll_callback_answers_unless_no_payer_witness :
  let body := JObj [("success", JBool true); ("status", JStr "completed");
                    ("external_reference", JStr "ACT123")] in
  let w := with_memory (<[KStr "ACT123" := JObj [("status", JStr "QUEUED")]]> ∅)
             (Sample.boot (∅ : Cache.Memory) 1700000000042) in
  answered w (next_handle w) = false
  /\ fst (serve (Poll.callback body) w) = Returned
  /\ writes_to (snd (serve (Poll.callback body) w)) 0 = [].
Proof.
  cbv zeta. split; [reflexivity |].
  pose proof (proj1 (poll_callback_answers_unless_no_payer
                (JObj [("success", JBool true); ("status", JStr "completed");
                       ("external_reference", JStr "ACT123")])
                (with_memory (<[KStr "ACT123" := JObj [("status", JStr "QUEUED")]]> ∅)
                   (Sample.boot (∅ : Cache.Memory) 1700000000042))
                eq_refl)) as Hif.
  destruct Hif as (Hr & Hw & _). split; [exact Hr | exact Hw].
Defined.

Lemma poll_unconfirmed_moves_no_money_witness :
  let w := Sample.boot (∅ : Cache.Memory) 1700000000042 in
  Poll.confirms (Sample.failed_webhook "ACT123") = false
  /\ same_money w (snd (serve (Poll.callback (Sample.failed_webhook "ACT123")) w)).
Proof.
  cbv zeta. split; [reflexivity |].
  exact (poll_unconfirmed_moves_no_money (Sample.failed_webhook "ACT123")
           (Sample.boot (∅ : Cache.Memory) 1700000000042) eq_refl).
Defined.


Lemma relay_callback_acknowledges_witness :
  let w := with_db_script [DbError (JStr "row too large")]
             (Sample.boot Relay.empty_memory 1700000000042) in
  Relay.normalizes (Sample.webhook "ACT10042") = true
  /\ Relay.well_formed w
  /\ answered w (next_handle w) = false
  /\ writes_to (snd (serve (Relay.callback (Sample.webhook "ACT10042")) w)) 0
     = [acknowledgement].
Proof.
  cbv zeta.
  assert (H1 : Relay.normalizes (Sample.webhook "ACT10042") = true) by reflexivity.
  assert (H2 : Relay.well_formed
                 (with_db_script [DbError (JStr "row too large")]
                    (Sample.boot Relay.empty_memory 1700000000042)))
    by (split; apply map_Forall_empty).
  repeat (split; [assumption || reflexivity |]).
  exact (proj2 (relay_callback_acknowledges _ _ H1 H2 eq_refl)).
Defined.

Lemma relay_callback_rejected_witness :
  let w := Sample.boot Relay.empty_memory 1700000000042 in
  Relay.normalizes (Sample.odd_webhook "ACT10042") = false
  /\ snd (serve (Relay.callback (Sample.odd_webhook "ACT10042")) w) = with_next_handle 1 w.
Proof.
  cbv zeta. split; [reflexivity |].
  exact (proj2 (relay_callback_rejected (Sample.odd_webhook "ACT10042")
                  (Sample.boot Relay.empty_memory 1700000000042) eq_refl)).
Defined.

Lemma payhero_status_never_errors_witness :
  let w := with_db_script [DbThrow (network_error "fetch failed")]
             (Sample.boot (∅ : Cache.Memory) 1700000000042) in
  answered w (next_handle w) = false
  /\ exists r,
       writes_to (snd (serve (PayHero.status "ACT123") w)) 0 = [r]
       /\ (code r = 200 \/ code r = 202).
Proof.
  cbv zeta. split; [reflexivity |].
  destruct (payhero_status_never_errors "ACT123"
              (with_db_script [DbThrow (network_error "fetch failed")]
                 (Sample.boot (∅ : Cache.Memory) 1700000000042)) eq_refl)
    as (r & Hw & [Hc | [Hc _]]); exists r; (split; [exact Hw | auto]).
Defined.

Lemma uniqueRef_alphanumeric_witness :
  0 <= 1700000000042
  /\ all_chars is_alnum (Gen.uniqueRef "ACT-123" 1700000000042) = true.
Proof.
  assert (H0 : 0 <= 1700000000042) by lia.
  split; [exact H0 | exact (uniqueRef_alphanumeric "ACT-123" 1700000000042 H0)].
Defined.

Lemma uniqueRef_collision_witness :
  1000 <= 1700000000042
  /\ 1000 <= 1700000010042
  /\ Gen.uniqueRef "ACT-123" 1700000000042 = Gen.uniqueRef "ACT1 (renewal)" 1700000010042.
Proof.
  assert (H1 : 1000 <= 1700000000042) by lia.
  assert (H2 : 1000 <= 1700000010042) by lia.
  split; [exact H1 |]. split; [exact H2 |].
  apply (proj2 (uniqueRef_collision "ACT-123" "ACT1 (renewal)" 1700000000042 1700000010042
                  H1 H2)).
  split; reflexivity.
Defined.

Lemma relay_status_answers_once_witness :
  let w := with_db_script [DbThrow (network_error "fetch failed")]
             (Sample.boot Relay.empty_memory 1700000000042) in
  answered w (next_handle w) = false
  /\ exists r,
       writes_to (snd (serve (Relay.status "ACT10042") w)) 0 = [r]
       /\ (code r = 200 \/ code r = 500).
Proof.
  cbv zeta. split; [reflexivity |].
  exact (relay_status_answers_once "ACT10042"
           (with_db_script [DbThrow (network_error "fetch failed")]
              (Sample.boot Relay.empty_memory 1700000000042)) eq_refl).
Defined.

Lemma poll_webhook_then_status_witness :
  let body := JObj [("success", JBool true); ("status", JStr "completed");
                    ("external_reference", JStr "ACT123"); ("amount", JNum 500)] in
  let fs := [("status", JStr "QUEUED"); ("user_id", JStr "u1")] in
  let w := with_db_script [DbThrow (network_error "fetch failed")]
             (with_memory (<[KStr "ACT123" := JObj fs]> ∅)
                (Sample.boot (∅ : Cache.Memory) 1700000000042)) in
  Some body ?> "external_reference" = Some (JStr "ACT123")
  /\ "ACT123" <> ""
  /\ memory w !! KStr "ACT123" = Some (JObj fs)
  /\ (Poll.confirms body = true -> truthy (field "user_id" fs) = true)
  /\ answered w (next_handle w) = false
  /\ answered w (S (next_handle w)) = false
  /\ exists record,
       memory (snd (serve (Poll.callback body) w)) !! KStr "ACT123" = Some record
       /\ Some record ?> "status" = Some (JStr "SUCCESS")
       /\ Some record ?> "verified" = Some (JBool true).
Proof.
  cbv zeta.
  assert (H1 : Some (JObj [("success", JBool true); ("status", JStr "completed");
                           ("external_reference", JStr "ACT123"); ("amount", JNum 500)])
               ?> "external_reference" = Some (JStr "ACT123")) by reflexivity.
  assert (H2 : "ACT123" <> "") by discriminate.
  assert (H3 : memory (with_db_script [DbThrow (network_error "fetch failed")]
                         (with_memory
                            (<[KStr "ACT123" := JObj [("status", JStr "QUEUED");
                                                      ("user_id", JStr "u1")]]> ∅)
                            (Sample.boot (∅ : Cache.Memory) 1700000000042)))
               !! KStr "ACT123"
               = Some (JObj [("status", JStr "QUEUED"); ("user_id", JStr "u1")]))
    by apply lookup_insert_eq.
  assert (H4 : Poll.confirms (JObj [("success", JBool true); ("status", JStr "completed");
                                    ("external_reference", JStr "ACT123");
                                    ("amount", JNum 500)]) = true ->
               truthy (field "user_id" [("status", JStr "QUEUED"); ("user_id", JStr "u1")])
               = true) by (intros _; reflexivity).
  repeat (split; [assumption || reflexivity |]).
  destruct (poll_webhook_then_status _ _ "ACT123" _ H1 H2 H3 H4 eq_refl eq_refl)
    as (record & Hm & Hs & Hv & _).
  exists record. split; [exact Hm |]. split; [exact Hs | exact Hv].
Defined.

Lemma relay_rejected_initiation_witness :
  let w0 := Sample.boot Relay.empty_memory 1700000000042 in
  let w1 := snd (serve (Relay.pay (JObj Sample.payment) Sample.rejecting) w0) in
  field "phone" Sample.payment = Some (JStr "0712345678")
  /\ field "reference" Sample.payment = Some (JStr "ACT-123")
  /\ Relay.accepts (Relay.route "ACT-123") Sample.rejecting = false
  /\ answered w0 (next_handle w0) = false
  /\ map code (writes_to w1 0) = [500]
  /\ exists rq, Relay.registry_get (Some (JStr "ACT10042")) (memory w1) = Some (0%nat, rq)
                /\ Relay.resolved rq = false.
Proof.
  cbv zeta.
  assert (H1 : field "phone" Sample.payment = Some (JStr "0712345678")) by reflexivity.
  assert (H2 : field "reference" Sample.payment = Some (JStr "ACT-123")) by reflexivity.
  assert (H3 : Relay.accepts (Relay.route "ACT-123") Sample.rejecting = false) by reflexivity.
  do 4 (split; [assumption || reflexivity |]).
  destruct (relay_rejected_initiation Sample.payment "0712345678" "ACT-123" Sample.rejecting
              (Sample.boot Relay.empty_memory 1700000000042) H1 H2 H3 eq_refl)
    as ((b & Hw & _) & _ & Hreg & _).
  split; [exact (f_equal (map code) Hw) | exact Hreg].
Defined.



Lemma relay_pay_then_status_witness :
  let w0 := Sample.boot Relay.empty_memory 1700000000042 in
  let w1 := snd (serve (Relay.pay (JObj Sample.payment) Sample.accepting) w0) in
  let w2 := snd (serve (Relay.status "ACT10042") w1) in
  field "phone" Sample.payment = Some (JStr "0712345678")
  /\ field "reference" Sample.payment = Some (JStr "ACT-123")
  /\ Relay.accepts (Relay.route "ACT-123") Sample.accepting = true
  /\ Relay.well_formed w0
  /\ answered w0 (next_handle w0) = false
  /\ answered w0 (S (next_handle w0)) = false
  /\ db_script w0 = []
  /\ Store.latest_callback (Gen.uniqueRef "ACT-123" (clock w0)) (db w0) = None
  /\ writes_to w2 0 = []
  /\ Relay.waiting w2 "ACT10042" 0 = true.
Proof.
  cbv zeta.
  assert (H1 : field "phone" Sample.payment = Some (JStr "0712345678")) by reflexivity.
  assert (H2 : field "reference" Sample.payment = Some (JStr "ACT-123")) by reflexivity.
  assert (H3 : Relay.accepts (Relay.route "ACT-123") Sample.accepting = true) by reflexivity.
  assert (H4 : Relay.well_formed (Sample.boot Relay.empty_memory 1700000000042))
    by (split; apply map_Forall_empty).
  assert (H5 : Store.latest_callback
                 (Gen.uniqueRef "ACT-123" (clock (Sample.boot Relay.empty_memory 1700000000042)))
                 (db (Sample.boot Relay.empty_memory 1700000000042)) = None) by reflexivity.
  do 8 (split; [assumption || reflexivity |]).
  exact (proj2 (relay_pay_then_status Sample.payment "0712345678" "ACT-123" Sample.accepting
                  (Sample.boot Relay.empty_memory 1700000000042)
                  H1 H2 H3 H4 eq_refl eq_refl eq_refl H5)).
Defined.


Lemma poll_pay_rejected_witness :
  let e := http_error 400 (JObj [("error", JStr "Invalid phone number")]) in
  let w := Sample.boot (∅ : Cache.Memory) 1700000000042 in
  let w1 := snd (serve (Poll.pay (JObj Sample.payment) (ApiFail e)) w) in
  field "phone" Sample.payment = Some (JStr "0712345678")
  /\ answered w (next_handle w) = false
  /\ memory w1 = memory w
  /\ exists b, writes_to w1 0 = [{| code := 500; body := b |}]
               /\ Some b ?> "message" = Some (JStr "Invalid phone number").
Proof.
  cbv zeta.
  assert (H1 : field "phone" Sample.payment = Some (JStr "0712345678")) by reflexivity.
  do 2 (split; [assumption || reflexivity |]).
  destruct (poll_pay_rejected Sample.payment "0712345678"
              (http_error 400 (JObj [("error", JStr "Invalid phone number")]))
              (Sample.boot (∅ : Cache.Memory) 1700000000042) H1 eq_refl)
    as (Hm & _ & (b & Hw & _ & Hmsg) & _).
  split; [exact Hm |]. exists b. split; [exact Hw | exact Hmsg].
Defined.

Lemma poll_confirmed_payment_credits_witness :
  let body := JObj [("success", JBool true); ("status", JStr "completed");
                    ("external_reference", JStr "ACT123"); ("amount", JNum 500)] in
  let fs := [("status", JStr "QUEUED"); ("user_id", JStr "u1")] in
  let u := JObj [("id", JStr "u1"); ("recharge_wallet", JNum 100)] in
  let w := with_db {| payment_callbacks := []; transactions := [];
                      activation_payments := [];
                      users := [JObj [("id", JStr "u0"); ("recharge_wallet", JNum 7)]; u];
                      rpc_calls := [] |}
             (with_memory (<[KStr "ACT123" := JObj fs]> ∅)
                (Sample.boot (∅ : Cache.Memory) 1700000000042)) in
  let w1 := snd (serve (Poll.callback body) w) in
  Poll.confirms body = true
  /\ Some body ?> "external_reference" = Some (JStr "ACT123")
  /\ "ACT123" <> ""
  /\ memory w !! KStr "ACT123" = Some (JObj fs)
  /\ field "user_id" fs = Some (JStr "u1")
  /\ truthy (Some (JStr "u1")) = true
  /\ db_script w = []
  /\ filter (fun r => Store.column_is "id" (Some (JStr "u1")) r) (users (db w)) = [u]
  /\ (exists row,
         transactions (db w1) = [row]
         /\ Some row ?> "user_id" = Some (JStr "u1")
         /\ Some row ?> "amount" = Some (JNum 500))
  /\ stored w1 = 1%nat.
Proof.
  cbv zeta.
  assert (H1 : Poll.confirms (JObj [("success", JBool true); ("status", JStr "completed");
                                    ("external_reference", JStr "ACT123");
                                    ("amount", JNum 500)]) = true) by reflexivity.
  assert (H2 : Some (JObj [("success", JBool true); ("status", JStr "completed");
                           ("external_reference", JStr "ACT123"); ("amount", JNum 500)])
               ?> "external_reference" = Some (JStr "ACT123")) by reflexivity.
  assert (H3 : "ACT123" <> "") by discriminate.
  assert (H4 : memory
                 (with_db {| payment_callbacks := []; transactions := [];
                             activation_payments := [];
                             users := [JObj [("id", JStr "u0"); ("recharge_wallet", JNum 7)];
                                       JObj [("id", JStr "u1");
                                             ("recharge_wallet", JNum 100)]];
                             rpc_calls := [] |}
                    (with_memory
                       (<[KStr "ACT123" := JObj [("status", JStr "QUEUED");
                                                 ("user_id", JStr "u1")]]> ∅)
                       (Sample.boot (∅ : Cache.Memory) 1700000000042)))
               !! KStr "ACT123"
               = Some (JObj [("status", JStr "QUEUED"); ("user_id", JStr "u1")]))
    by apply lookup_insert_eq.
  do 8 (split; [assumption || reflexivity |]).
  destruct (poll_confirmed_payment_credits _ _ "ACT123" _ (JStr "u1")
              (JObj [("id", JStr "u1"); ("recharge_wallet", JNum 100)])
              H1 H2 H3 H4 eq_refl eq_refl eq_refl eq_refl)
    as ((row & Ht & Hu & Ha & _) & _ & Hst).
  split; [| exact Hst]. exists row. split; [exact Ht |]. split; [exact Hu | exact Ha].
Defined.

Lemma legacy_pay_then_status_witness :
  let ds := [("external_reference", JStr "PH-7781"); ("status", JStr "QUEUED");
             ("CheckoutRequestID", JStr "ws_CO_1")] in
  let w := Sample.boot (∅ : Cache.Memory) 1700000000042 in
  let w1 := snd (serve (Legacy.pay (JObj Sample.payment) (ApiOk 200 (JObj ds))) w) in
  field "phone" Sample.payment = Some (JStr "0712345678")
  /\ field "external_reference" ds = Some (JStr "PH-7781")
  /\ "PH-7781" <> ""
  /\ "ACT-123" <> "PH-7781"
  /\ memory w !! KStr "ACT-123" = None
  /\ answered w (next_handle w) = false
  /\ answered w (S (next_handle w)) = false
  /\ (exists b, writes_to w1 0 = [{| code := 200; body := b |}]
                /\ Some b ?> "external_reference" = Some (JStr "ACT-123"))
  /\ map code (writes_to (snd (serve (Legacy.status "ACT-123") w1)) 1) = [404].
Proof.
  cbv zeta.
  assert (H1 : field "phone" Sample.payment = Some (JStr "0712345678")) by reflexivity.
  assert (H2 : field "external_reference"
                 [("external_reference", JStr "PH-7781"); ("status", JStr "QUEUED");
                  ("CheckoutRequestID", JStr "ws_CO_1")] = Some (JStr "PH-7781"))
    by reflexivity.
  assert (H3 : "PH-7781" <> "") by discriminate.
  assert (H4 : "ACT-123" <> "PH-7781") by discriminate.
  assert (H5 : memory (Sample.boot (∅ : Cache.Memory) 1700000000042) !! KStr "ACT-123" = None)
    by apply lookup_empty.
  do 7 (split; [assumption || reflexivity |]).
  destruct (legacy_pay_then_status Sample.payment
              [("external_reference", JStr "PH-7781"); ("status", JStr "QUEUED");
               ("CheckoutRequestID", JStr "ws_CO_1")]
              "0712345678" "PH-7781" "ACT-123" 200
              (Sample.boot (∅ : Cache.Memory) 1700000000042)
              H1 H2 H3 H4 H5 eq_refl eq_refl)
    as (Hb & _ & _ & Hother).
  split; [exact Hb | exact Hother].
Defined.


End FurtherWitnesses.
